(** * The GMX order pipeline (gmx_python_sdk/scripts/v2), embedded in Rocq

    The development follows the Python sources file by file:
    - [Float64], [Py]: the values the code computes with (IEEE binary64
      floats, unbounded integers, strings) and Python's arithmetic on them;
    - [Eff]: exceptions, collaborator calls and the monad the code runs in;
    - [gmx_utils], [approve_token_for_spend], [order],
      [order_argument_parser]: the functions of the source files. *)

From Stdlib Require Import ZArith QArith Qpower Qround Ascii String List Bool Lia SpecFloat.
From stdpp Require Import base option gmap strings.

Local Open Scope string_scope.
Local Open Scope Z_scope.
Local Open Scope list_scope.

(** ** Python exceptions

    The classes the code raises or catches. [Unmodelled] marks the places
    where an operand lies outside what this development covers: no theorem
    below reads it as a behaviour of the program. *)
Inductive exn : Type :=
| Exception (msg : string)
| KeyError (key : string)
| AttributeError (name : string)
| TypeError (msg : string)
| ValueError (msg : string)
| OverflowError (msg : string)
| RequestException (msg : string)
| Web3Error (msg : string)
| Unmodelled (what : string).

Inductive result (A : Type) : Type :=
| Ok (a : A)
| Raise (e : exn).
Arguments Ok {A} a.
Arguments Raise {A} e.

#[global] Instance result_ret : MRet result := fun A a => Ok a.

#[global] Instance result_bind : MBind result := fun A B f r =>
  match r with
  | Ok a => f a
  | Raise e => Raise e
  end.

(** ** IEEE 754 binary64, the [float] of Python and [np.float64] *)
Module Float64.

Definition prec : Z := 53.
Definition emax : Z := 1024.

Definition float : Type := spec_float.

Definition add : float -> float -> float := SFadd prec emax.
Definition sub : float -> float -> float := SFsub prec emax.
Definition mul : float -> float -> float := SFmul prec emax.
Definition div : float -> float -> float := SFdiv prec emax.
Definition ltb : float -> float -> bool := SFltb.
Definition leb : float -> float -> bool := SFleb.

(** The double nearest to an integer (ties to even); an infinity beyond
    the range. *)
Definition of_Z (z : Z) : float := binary_normalize prec emax z 0 false.

Definition is_nan (f : float) : bool :=
  match f with S754_nan => true | _ => false end.

Definition is_finite (f : float) : bool :=
  match f with S754_zero _ | S754_finite _ _ _ => true | _ => false end.

Definition sign (f : float) : bool :=
  match f with
  | S754_zero s | S754_infinity s | S754_finite s _ _ => s
  | S754_nan => false
  end.

(** Truncation toward zero of a finite float. *)
Definition trunc (f : float) : option Z :=
  match f with
  | S754_zero _ => Some 0
  | S754_finite s m e => Some (cond_Zopp s (Z.shiftl (Zpos m) e))
  | _ => None
  end.

(** The rational a finite float denotes. *)
Definition to_Q (f : float) : option Q :=
  match f with
  | S754_zero _ => Some 0%Q
  | S754_finite s m e => Some (inject_Z (cond_Zopp s (Zpos m)) * 2 ^ e)%Q
  | _ => None
  end.

(** [10 ** -k] for [k > 0]: CPython evaluates it as the C library's
    [pow(10.0, -k)], taken here as the correctly rounded quotient
    1 / 10^k. *)
Definition pow10_neg (k : positive) : float :=
  SFdiv prec emax (S754_finite false 1 0) (S754_finite false (10 ^ k)%positive 0).

(** [np.median] of two values: the mean of the pair. *)
Definition median2 (a b : float) : float := div (add a b) (of_Z 2).

End Float64.


(** ** Python values and arithmetic *)
Module Py.
Import Float64.

(** The values that occur in the parameter dictionaries, the oracle and
    registry answers, and the order attributes. *)
Inductive pyval : Type :=
| PyNone
| PyBool (b : bool)
| PyInt (z : Z)
| PyFloat (f : float)
| PyStr (s : string)
| PyList (l : list string).

(** A dictionary with string keys, and a dictionary of such dictionaries
    (JSON objects keyed by address). *)
Abbreviation pydict := (gmap string pyval).
Abbreviation pydict2 := (gmap string (gmap string pyval)).

(** [int] and [bool] operands as integers, [float] operands as doubles. *)
Definition as_number (v : pyval) : option (Z + float) :=
  match v with
  | PyBool b => Some (inl (if b then 1 else 0))
  | PyInt z => Some (inl z)
  | PyFloat f => Some (inr f)
  | _ => None
  end.

(** Conversion of an [int] to [float]: correctly rounded, and
    [OverflowError] beyond the range of a double. *)
Definition float_of_int (z : Z) : result float :=
  let f := of_Z z in
  if is_finite f then Ok f
  else Raise (OverflowError "int too large to convert to float").

Definition arith (name : string) (fz : Z -> Z -> Z) (ff : float -> float -> float)
    (a b : pyval) : result pyval :=
  match as_number a, as_number b with
  | Some (inl x), Some (inl y) => Ok (PyInt (fz x y))
  | Some (inl x), Some (inr g) => f ← float_of_int x; Ok (PyFloat (ff f g))
  | Some (inr f), Some (inl y) => g ← float_of_int y; Ok (PyFloat (ff f g))
  | Some (inr f), Some (inr g) => Ok (PyFloat (ff f g))
  | _, _ => Raise (Unmodelled name)
  end.

(** [a * b], [a + b], [a - b] on numbers. *)
Definition mul : pyval -> pyval -> result pyval := arith "*" Z.mul Float64.mul.
Definition add : pyval -> pyval -> result pyval := arith "+" Z.add Float64.add.
Definition sub : pyval -> pyval -> result pyval := arith "-" Z.sub Float64.sub.

(** [10 ** e] for an integer exponent: an [int] when [e >= 0], a [float]
    when [e < 0]. *)
Definition pow10 (e : pyval) : result pyval :=
  match e with
  | PyInt (Zneg k) => Ok (PyFloat (pow10_neg k))
  | PyInt z => Ok (PyInt (10 ^ z))
  | PyBool b => Ok (PyInt (if b then 10 else 1))
  | _ => Raise (Unmodelled "10 ** e")
  end.

(** [int(v)]: truncation toward zero of a float; [ValueError] on a NaN and
    [OverflowError] on an infinity. *)
Definition int (v : pyval) : result Z :=
  match v with
  | PyInt z => Ok z
  | PyBool b => Ok (if b then 1 else 0)
  | PyFloat f =>
      match trunc f with
      | Some z => Ok z
      | None =>
          if is_nan f then Raise (ValueError "cannot convert float NaN to integer")
          else Raise (OverflowError "cannot convert float infinity to integer")
      end
  | PyStr _ => Raise (Unmodelled "int(str)")
  | _ => Raise (TypeError "int() argument must be a string or a real number")
  end.

(** The decimal digits of a string, most significant first. *)
Definition digit_of (c : Ascii.ascii) : option Z :=
  let n := Z.of_N (Ascii.N_of_ascii c) in
  if (48 <=? n) && (n <=? 57) then Some (n - 48) else None.

Fixpoint digits_value (acc : Z) (s : string) : option Z :=
  match s with
  | EmptyString => Some acc
  | String c s' =>
      match digit_of c with
      | Some d => digits_value (10 * acc + d) s'
      | None => None
      end
  end.

(** [float(s)] for the strings the oracle serves: an integer literal with an
    optional sign, or [nan] / [inf]. The literal is rounded to the nearest
    double; a literal beyond the range gives an infinity, not an error. *)
Definition float_of_str (s : string) : result float :=
  let unsigned (neg : bool) (body : string) : result float :=
    match body with
    | "" => Raise (ValueError "could not convert string to float")
    | "nan" => Ok S754_nan
    | "inf" => Ok (S754_infinity neg)
    | _ =>
        match digits_value 0 body with
        | Some n => Ok (binary_normalize prec emax (cond_Zopp neg n) 0 neg)
        | None => Raise (Unmodelled "float(str)")
        end
    end in
  match s with
  | String "-"%char body => unsigned true body
  | String "+"%char body => unsigned false body
  | _ => unsigned false s
  end.

(** [float(v)]. *)
Definition to_float (v : pyval) : result float :=
  match v with
  | PyFloat f => Ok f
  | PyInt z => float_of_int z
  | PyBool b => Ok (of_Z (if b then 1 else 0))
  | PyStr s => float_of_str s
  | _ => Raise (TypeError "float() argument must be a string or a real number")
  end.

(** Exact comparison of a float with an integer, as [float.__lt__] does:
    [None] on a NaN. *)
Definition compare_float_int (f : float) (z : Z) : option comparison :=
  match f with
  | S754_nan => None
  | S754_infinity s => Some (if s then Lt else Gt)
  | S754_zero _ => Some (0 ?= z)
  | S754_finite s m e =>
      let n := cond_Zopp s (Zpos m) in
      Some (if 0 <=? e then (n * 2 ^ e ?= z) else (n ?= z * 2 ^ (- e)))
  end.

(** [a < b] on numbers. *)
Definition lt (a b : pyval) : result bool :=
  match as_number a, as_number b with
  | Some (inl x), Some (inl y) => Ok (x <? y)
  | Some (inr f), Some (inr g) => Ok (ltb f g)
  | Some (inr f), Some (inl y) =>
      Ok (match compare_float_int f y with Some Lt => true | _ => false end)
  | Some (inl x), Some (inr g) =>
      Ok (match compare_float_int g x with Some Gt => true | _ => false end)
  | _, _ => Raise (Unmodelled "<")
  end.

(** [a <= b] on numbers. *)
Definition le (a b : pyval) : result bool :=
  match as_number a, as_number b with
  | Some (inl x), Some (inl y) => Ok (x <=? y)
  | Some (inr f), Some (inr g) => Ok (leb f g)
  | Some (inr f), Some (inl y) =>
      Ok (match compare_float_int f y with Some (Lt | Eq) => true | _ => false end)
  | Some (inl x), Some (inr g) =>
      Ok (match compare_float_int g x with Some (Gt | Eq) => true | _ => false end)
  | _, _ => Raise (Unmodelled "<=")
  end.

(** [d[k]] on a dictionary with string keys. *)
Definition getitem {V} (d : gmap string V) (k : string) : result V :=
  match d !! k with
  | Some v => Ok v
  | None => Raise (KeyError k)
  end.

(** [d[k]] where the key is itself a value: a key that is not a string is
    not among the keys of a JSON object. *)
Definition getitem_val {V} (d : gmap string V) (k : pyval) : result V :=
  match k with
  | PyStr s => getitem d s
  | PyList _ => Raise (TypeError "unhashable type: 'list'")
  | _ => Raise (KeyError "<non-string key>")
  end.

(** The rational a number denotes, when it is one. *)
Definition to_Q (v : pyval) : option Q :=
  match as_number v with
  | Some (inl z) => Some (inject_Z z)
  | Some (inr f) => Float64.to_Q f
  | None => None
  end.

End Py.

(** ** Effects: collaborator calls, exceptions and Python-level state *)
Module Eff.

(** A program is a finite tree of collaborator calls. Every call is answered
    by the environment with a value or an exception. *)
Inductive free (E : Type -> Type) (A : Type) : Type :=
| Ret (a : A)
| Vis (X : Type) (e : E X) (k : result X -> free E A).
Arguments Ret {E A} a.
Arguments Vis {E A X} e k.

Fixpoint free_bind {E A B} (p : free E A) (f : A -> free E B) : free E B :=
  match p with
  | Ret a => f a
  | Vis e k => Vis e (fun r => free_bind (k r) f)
  end.

(** The monad of the Python code: a state [S] of objects that outlives an
    exception, a result or a raised exception, and collaborator calls. *)
Definition M (E : Type -> Type) (S A : Type) : Type := S -> free E (result A * S).

#[global] Instance M_ret {E S} : MRet (M E S) := fun A a s => Ret (Ok a, s).

#[global] Instance M_bind {E S} : MBind (M E S) := fun A B f m s =>
  free_bind (m s) (fun '(r, s') =>
    match r with
    | Ok a => f a s'
    | Raise e => Ret (Raise e, s')
    end).

Definition raise {E S A} (e : exn) : M E S A := fun s => Ret (Raise e, s).

(** A pure computation that may raise. *)
Definition lift {E S A} (r : result A) : M E S A := fun s => Ret (r, s).

(** A collaborator call; its exception, if any, is raised in the program. *)
Definition trigger {E S X} (e : E X) : M E S X := fun s => Vis e (fun r => Ret (r, s)).

Definition get {E S} : M E S S := fun s => Ret (Ok s, s).
Definition put {E S} (s : S) : M E S unit := fun _ => Ret (Ok tt, s).

(** [try: body except <classes>: handler]. [handler e] is [None] for an
    exception the clause does not name, which then propagates. *)
Definition try_except {E S A} (body : M E S A) (handler : exn -> option (M E S A))
    : M E S A := fun s =>
  free_bind (body s) (fun '(r, s') =>
    match r with
    | Ok a => Ret (Ok a, s')
    | Raise e =>
        match handler e with
        | Some h => h s'
        | None => Ret (Raise e, s')
        end
    end).

(** [for x in l: body x]. *)
Fixpoint for_each {E S X} (l : list X) (body : X -> M E S unit) : M E S unit :=
  match l with
  | [] => mret tt
  | x :: l' => body x ;; for_each l' body
  end.

(** One answered call. *)
Record io (E : Type -> Type) : Type := IO {
  io_type : Type;
  io_call : E io_type;
  io_answer : result io_type
}.
Arguments IO {E io_type} io_call io_answer.
Arguments io_call {E} i.
Arguments io_answer {E} i.

(** Running a program against an environment: a world [W] and the answer of
    the world to each call. The calls made are recorded in order. *)
Definition environment (E : Type -> Type) (W : Type) : Type :=
  forall X, E X -> W -> result X * W.

Fixpoint run {E W A} (env : environment E W) (p : free E A) (w : W)
    : A * W * list (io E) :=
  match p with
  | Ret a => (a, w, [])
  | Vis e k =>
      let '(r, w1) := env _ e w in
      let '(a, w2, t) := run env (k r) w1 in
      (a, w2, IO e r :: t)
  end.

End Eff.

(** ** The collaborators: ledger gateway, signing service, registries, oracle *)
Module Collaborators.
Import Py.

Definition bytes : Type := list Byte.byte.
Definition address : Type := string.

(** [ConfigManager] of gmx_utils.py. *)
Record ConfigManager : Type := {
  chain : string;
  rpc : string;
  chain_id : Z;
  user_wallet_address : address;
  private_key : string
}.

(** The dictionary handed to [build_transaction]. *)
Record tx_params : Type := {
  value : pyval;
  chainId : Z;
  gas : Z;
  maxFeePerGas : Z;
  maxPriorityFeePerGas : Z;
  nonce : Z
}.

(** What [build_transaction] returns: the parameters completed with the
    destination and the encoded call. *)
Record raw_txn : Type := {
  txn_to : address;
  txn_data : bytes;
  txn_params : tx_params
}.

(** What [sign_transaction] returns. An absent attribute is [None]: the
    attribute is [rawTransaction] or [raw_transaction] with the version of
    the web3 library. *)
Record signed_txn : Type := {
  rawTransaction : option bytes;
  raw_transaction : option bytes
}.

(** A gas-limit estimator of the Gas Limit Table: a contract function, read
    with [.call()]. *)
Definition estimator : Type := string.

(** The calls the code makes to code outside it, named after the callee. *)
Inductive call : Type -> Type :=
| Web3_isConnected (rpc : string) : call bool
| Web3_to_checksum_address (a : address) : call address
| Web3_toChecksumAddress (a : address) : call address
| convert_to_checksum_address (a : address) : call address
| load_token_approval_abi : call unit
| eth_getBalance (owner : address) : call Z
| eth_get_balance (owner : address) : call Z
| eth_get_transaction_count (owner : address) : call Z
| token_balanceOf (token owner : address) : call Z
| token_allowance (token owner spender : address) : call Z
| approve_build_transaction (token spender : address) (amount : Z) (p : tx_params)
    : call raw_txn
| multicall_build_transaction (args : list bytes) (p : tx_params) : call raw_txn
| sign_transaction (raw : raw_txn) (key : string) : call signed_txn
| send_raw_transaction (txn : bytes) : call bytes
| get_datastore_contract (chain : string) : call address
| get_gas_limits (datastore : address) : call (gmap string estimator)
| estimator_call (e : estimator) : call Z
| Markets_info (chain : string) : call pydict2
| get_recent_prices (chain : pyval) : call pydict2
| requests_get_tokens (url : string) : call (list pydict).

(** The steps that make a transaction: building, signing and sending it. *)
Definition is_build {X} (c : call X) : bool :=
  match c with
  | approve_build_transaction _ _ _ _ | multicall_build_transaction _ _ => true
  | _ => false
  end.

Definition is_sign {X} (c : call X) : bool :=
  match c with sign_transaction _ _ => true | _ => false end.

Definition is_send {X} (c : call X) : bool :=
  match c with send_raw_transaction _ => true | _ => false end.

Definition is_transaction_step {X} (c : call X) : bool :=
  is_build c || is_sign c || is_send c.

Abbreviation trace := (list (Eff.io call)).

(** The number of transactions sent in a trace. *)
Definition sends (t : trace) : nat :=
  length (List.filter (fun i => is_send (Eff.io_call i)) t).

(** What a recorded call reads or makes: the nonce, the balance and the
    allowance answered, the gas table and the estimate answered, the
    transaction built and the transaction signed. *)
Definition nonce_read (i : Eff.io call) : option Z :=
  match i with
  | Eff.IO c r =>
      match c in call X return result X -> option Z with
      | eth_get_transaction_count _ =>
          fun r => match r with Ok n => Some n | Raise _ => None end
      | _ => fun _ => None
      end r
  end.

Definition balance_read (i : Eff.io call) : option Z :=
  match i with
  | Eff.IO c r =>
      match c in call X return result X -> option Z with
      | eth_getBalance _ | eth_get_balance _ | token_balanceOf _ _ =>
          fun r => match r with Ok n => Some n | Raise _ => None end
      | _ => fun _ => None
      end r
  end.

Definition allowance_read (i : Eff.io call) : option Z :=
  match i with
  | Eff.IO c r =>
      match c in call X return result X -> option Z with
      | token_allowance _ _ _ =>
          fun r => match r with Ok n => Some n | Raise _ => None end
      | _ => fun _ => None
      end r
  end.

Definition gas_table_read (i : Eff.io call) : option (gmap string estimator) :=
  match i with
  | Eff.IO c r =>
      match c in call X return result X -> option (gmap string estimator) with
      | get_gas_limits _ =>
          fun r => match r with Ok t => Some t | Raise _ => None end
      | _ => fun _ => None
      end r
  end.

Definition estimate_read (i : Eff.io call) : option (estimator * Z) :=
  match i with
  | Eff.IO c r =>
      match c in call X return result X -> option (estimator * Z) with
      | estimator_call e =>
          fun r => match r with Ok n => Some (e, n) | Raise _ => None end
      | _ => fun _ => None
      end r
  end.

(** The arguments and the parameters of a multicall transaction that was
    built, with the raw transaction answered. *)
Definition multicall_built (i : Eff.io call)
    : option (list bytes * tx_params * result raw_txn) :=
  match i with
  | Eff.IO c r =>
      match c in call X return result X -> option (list bytes * tx_params * result raw_txn) with
      | multicall_build_transaction args p => fun r => Some (args, p, r)
      | _ => fun _ => None
      end r
  end.

(** The raw transaction and the key of a signing request. *)
Definition signing (i : Eff.io call) : option (raw_txn * string) :=
  match Eff.io_call i with
  | sign_transaction raw key => Some (raw, key)
  | _ => None
  end.

Definition is_step (i : Eff.io call) : bool := is_transaction_step (Eff.io_call i).

(** A run in which the balance read and the allowance read are both at
    least [amount]. *)
Definition sufficient (amount : Z) (t : trace) : Prop :=
  (exists b, In (Some b) (map balance_read t) /\ amount <= b) /\
  (exists al, In (Some al) (map allowance_read t) /\ amount <= al).

End Collaborators.

(** ** gmx_utils.py *)
Module gmx_utils.
Import Py Eff Collaborators.

(** Modelled from the spec: [PRECISION], a constant that order.py imports
    from gmx_utils and that src/ does not define; the spec scales prices by
    10^(token_decimals - 30). *)
Definition PRECISION : Z := 30.

Definition create_connection {S} (config : ConfigManager) : M call S unit :=
  _ ← trigger (Web3_isConnected (rpc config));
  mret tt.

(** The dictionary comprehension [{info['address']: info for info in infos}]:
    a later entry replaces an earlier one with the same address. *)
Fixpoint index_by_address (token_infos : list pydict) (acc : pydict2) : result pydict2 :=
  match token_infos with
  | [] => Ok acc
  | info :: rest =>
      a ← getitem info "address";
      match a with
      | PyStr k => index_by_address rest (<[k := info]> acc)
      | _ => Raise (Unmodelled "token address that is not a string")
      end
  end.

Definition tokens_url : gmap string string :=
  {[ "arbitrum" := "https://arbitrum-api.gmxinfra.io/tokens";
     "avalanche" := "https://avalanche-api.gmxinfra.io/tokens" ]}.

Definition get_tokens_address_dict {S} (chain : pyval) : M call S pydict2 :=
  fetched ← try_except
    (url ← lift (getitem_val tokens_url chain);
     token_infos ← trigger (requests_get_tokens url);
     mret (Some token_infos))
    (fun e => match e with
              | RequestException _ => Some (mret None)
              | _ => None
              end);
  match fetched with
  | None => mret ∅
  | Some token_infos => lift (index_by_address token_infos ∅)
  end.

End gmx_utils.

(** ** approve_token_for_spend.py *)
Module approve_token_for_spend.
Import Py Eff Collaborators gmx_utils.

(** The balance of the wallet: the native balance for wrapped ETH on
    Arbitrum, under either name of the web3 method, and [balanceOf]
    otherwise. *)
Definition wallet_balance (token_to_approve token_checksum_address user : address)
    : M call unit Z :=
  if decide (token_checksum_address = "0x82aF49447D8a07e3bd95BD0d56f35241523fBab1")
  then
    try_except (trigger (eth_getBalance user))
      (fun e => match e with
                | AttributeError _ => Some (trigger (eth_get_balance user))
                | _ => None
                end)
  else trigger (token_balanceOf token_to_approve user).

(** [signed_txn.rawTransaction], with [raw_transaction] tried on a
    [TypeError]; reading an absent attribute raises [AttributeError]. *)
Definition raw_bytes (signed : signed_txn) : result bytes :=
  match rawTransaction signed with
  | Some b => Ok b
  | None => Raise (AttributeError "rawTransaction")
  end.

Definition check_if_approved (config : ConfigManager) (spender token_to_approve : address)
    (amount_of_tokens_to_spend : Z) (max_fee_per_gas : pyval) (approve : bool)
    : M call unit unit :=
  create_connection config;;
  let token_to_approve :=
    if decide (token_to_approve = "0x47904963fc8b2340414262125aF798B9655E58Cd")
    then "0x2f2a2543B76A4166549F7aaB2e75Bef0aefC5B0f"
    else token_to_approve in
  spender_checksum_address ← trigger (convert_to_checksum_address spender);
  user_checksum_address ←
    trigger (convert_to_checksum_address (user_wallet_address config));
  token_checksum_address ← trigger (convert_to_checksum_address token_to_approve);
  trigger load_token_approval_abi;;
  balance_of ← wallet_balance token_to_approve token_checksum_address user_checksum_address;
  (if balance_of <? amount_of_tokens_to_spend
   then raise (Exception "Insufficient balance!")
   else mret tt);;
  amount_approved ←
    trigger (token_allowance token_to_approve user_checksum_address spender_checksum_address);
  (if (amount_approved <? amount_of_tokens_to_spend) && approve
   then
     nonce ← trigger (eth_get_transaction_count user_checksum_address);
     fee ← lift (int max_fee_per_gas);
     raw_txn ← trigger (approve_build_transaction token_to_approve
                          spender_checksum_address amount_of_tokens_to_spend
                          {| value := PyInt 0;
                             chainId := chain_id config;
                             gas := 4000000;
                             maxFeePerGas := fee;
                             maxPriorityFeePerGas := 0;
                             nonce := nonce |});
     signed_txn ← trigger (sign_transaction raw_txn (private_key config));
     txn ← lift (raw_bytes signed_txn);
     tx_hash ← trigger (send_raw_transaction txn);
     mret tt
   else mret tt);;
  (if (amount_approved <? amount_of_tokens_to_spend) && negb approve
   then raise (Exception "Token not approved for spend, please allow first!")
   else mret tt).

End approve_token_for_spend.

(** ** order/order.py, create_increase_order.py, create_decrease_order.py *)
Module order.
Import Py Eff Collaborators gmx_utils.

(** The attributes of an [Order] object. *)
Record Order : Type := {
  config : ConfigManager;
  market_key : address;
  collateral_address : address;
  index_token_address : address;
  is_long : bool;
  size_delta : pyval;
  initial_collateral_delta_amount : pyval;
  slippage_percent : pyval;
  swap_path : list string;
  max_fee_per_gas : pyval;
  auto_cancel : bool;
  debug_mode : bool;
  execution_buffer : pyval;
  _is_swap : bool;
  _gas_limits : option (gmap string estimator);
  _gas_limits_order_type : option estimator
}.

Definition set_gas_limits (v : gmap string estimator) (self : Order) : Order :=
  {| config := config self; market_key := market_key self;
     collateral_address := collateral_address self;
     index_token_address := index_token_address self; is_long := is_long self;
     size_delta := size_delta self;
     initial_collateral_delta_amount := initial_collateral_delta_amount self;
     slippage_percent := slippage_percent self; swap_path := swap_path self;
     max_fee_per_gas := max_fee_per_gas self; auto_cancel := auto_cancel self;
     debug_mode := debug_mode self; execution_buffer := execution_buffer self;
     _is_swap := _is_swap self;
     _gas_limits := Some v;
     _gas_limits_order_type := _gas_limits_order_type self |}.

Definition set_gas_limits_order_type (e : estimator) (self : Order) : Order :=
  {| config := config self; market_key := market_key self;
     collateral_address := collateral_address self;
     index_token_address := index_token_address self; is_long := is_long self;
     size_delta := size_delta self;
     initial_collateral_delta_amount := initial_collateral_delta_amount self;
     slippage_percent := slippage_percent self; swap_path := swap_path self;
     max_fee_per_gas := max_fee_per_gas self; auto_cancel := auto_cancel self;
     debug_mode := debug_mode self; execution_buffer := execution_buffer self;
     _is_swap := _is_swap self;
     _gas_limits := _gas_limits self;
     _gas_limits_order_type := Some e |}.

(** The two order kinds of the sources, with the key each reads in the Gas
    Limit Table. *)
Inductive order_kind : Type := IncreaseOrder | DecreaseOrder.

Definition gas_limits_key (k : order_kind) : string :=
  match k with
  | IncreaseOrder => "increase_order"
  | DecreaseOrder => "decrease_order"
  end.

(** [IncreaseOrder.determine_gas_limits] and
    [DecreaseOrder.determine_gas_limits]. *)
Definition determine_gas_limits (k : order_kind) : M call Order unit :=
  self ← get;
  datastore ← trigger (get_datastore_contract (chain (config self)));
  gas_limits ← trigger (get_gas_limits datastore);
  put (set_gas_limits gas_limits self);;
  e ← lift (getitem gas_limits (gas_limits_key k));
  self ← get;
  put (set_gas_limits_order_type e self).

(** [self._gas_limits_order_type.call()]. *)
Definition gas_limits_order_type_call : M call Order Z :=
  self ← get;
  match _gas_limits_order_type self with
  | Some e => trigger (estimator_call e)
  | None => raise (AttributeError "_gas_limits_order_type")
  end.

(** [signed_txn.rawTransaction if hasattr(signed_txn, 'rawTransaction') else
    signed_txn.raw_transaction]. *)
Definition raw_bytes (signed : signed_txn) : result bytes :=
  match rawTransaction signed with
  | Some b => Ok b
  | None =>
      match raw_transaction signed with
      | Some b => Ok b
      | None => Raise (AttributeError "raw_transaction")
      end
  end.

(** The body of the [try] block of [_submit_transaction]: the envelope is
    built, then signed and sent unless [debug_mode] is set. *)
Definition build_sign_send (value_amount : pyval) (multicall_args : list bytes)
    (nonce : Z) : M call Order unit :=
  self ← get;
  g1 ← gas_limits_order_type_call;
  g2 ← gas_limits_order_type_call;
  fee ← lift (int (max_fee_per_gas self));
  raw_txn ← trigger (multicall_build_transaction multicall_args
                       {| value := value_amount;
                          chainId := chain_id (config self);
                          gas := g1 + g2;
                          maxFeePerGas := fee;
                          maxPriorityFeePerGas := 0;
                          nonce := nonce |});
  if negb (debug_mode self)
  then
    signed_txn ← trigger (sign_transaction raw_txn (private_key (config self)));
    txn ← lift (raw_bytes signed_txn);
    tx_hash ← trigger (send_raw_transaction txn);
    mret tt
  else mret tt.

(** [Web3.to_checksum_address], under its older name when the attribute is
    absent. *)
Definition to_checksum_address (a : address) : M call Order address :=
  try_except (trigger (Web3_to_checksum_address a))
    (fun e => match e with
              | AttributeError _ => Some (trigger (Web3_toChecksumAddress a))
              | _ => None
              end).

(** The [except Exception] clause prints the exception and the method
    returns. *)
Definition _submit_transaction (user_wallet_address : address) (value_amount : pyval)
    (multicall_args : list bytes) (gas_limits : gmap string estimator)
    : M call Order unit :=
  wallet_address ← to_checksum_address user_wallet_address;
  nonce ← trigger (eth_get_transaction_count wallet_address);
  try_except (build_sign_send value_amount multicall_args nonce)
    (fun e => Some (mret tt)).

(** The price with the slippage applied, lines 131 to 136 of [_get_prices]. *)
Definition slippage_price (self : Order) (price : pyval) (is_open is_close : bool)
    : result pyval :=
  if is_open then
    if is_long self
    then f ← add (PyInt 1) (slippage_percent self); mul price f
    else f ← sub (PyInt 1) (slippage_percent self); mul price f
  else if is_close then
    if is_long self
    then f ← sub (PyInt 1) (slippage_percent self); mul price f
    else f ← add (PyInt 1) (slippage_percent self); mul price f
  else Ok (PyInt 0).

(** [np.median([float(max), float(min)])] of the quote of a token. *)
Definition median_price (prices : pydict2) (token : address) : result pyval :=
  q ← getitem prices token;
  hi ← (v ← getitem q "maxPriceFull"; to_float v);
  q ← getitem prices token;
  lo ← (v ← getitem q "minPriceFull"; to_float v);
  Ok (PyFloat (Float64.median2 hi lo)).

(** [int(slippage) * 10 ** (decimals - PRECISION)], line 140 of
    [_get_prices]. *)
Definition acceptable_price_in_usd (slippage decimals : pyval) : result pyval :=
  i ← int slippage;
  e ← sub decimals (PyInt PRECISION);
  p ← pow10 e;
  mul (PyInt i) p.

(** [_get_prices] returns the median price, the truncated price with
    slippage, and the acceptable price. Its [except] clause prints and
    raises the exception again. *)
Definition _get_prices (self : Order) (decimals : pyval) (prices : pydict2)
    (is_open is_close is_swap : bool) : result (pyval * Z * pyval) :=
  price ← median_price prices (index_token_address self);
  slippage ← slippage_price self price is_open is_close;
  acceptable ← acceptable_price_in_usd slippage decimals;
  i ← int slippage;
  Ok (price, i, acceptable).

End order.

(** ** order/order_argument_parser.py *)
Module order_argument_parser.
Import Py Eff Collaborators gmx_utils.

(** Dictionaries are objects on a heap: the parser keeps a reference to the
    dictionary it was passed and updates that object. *)
Definition ref : Type := positive.

(** The attributes of an [OrderArgumentParser]. [required_keys] is only set
    when one of the three flags is. *)
Record parser : Type := {
  config : ConfigManager;
  parameters_dict : option ref;
  is_increase : bool;
  is_decrease : bool;
  is_swap : bool;
  markets : pydict2;
  required_keys : option (list string)
}.

Record state : Type := {
  self : parser;
  heap : gmap ref pydict
}.

Abbreviation prog := (M call state).

Definition set_parameters_dict (r : ref) (st : state) : state :=
  {| self := {| config := config (self st);
                parameters_dict := Some r;
                is_increase := is_increase (self st);
                is_decrease := is_decrease (self st);
                is_swap := is_swap (self st);
                markets := markets (self st);
                required_keys := required_keys (self st) |};
     heap := heap st |}.

Definition store (r : ref) (d : pydict) (st : state) : state :=
  {| self := self st; heap := <[r := d]> (heap st) |}.

(** The dictionary a reference points to. *)
Definition deref (r : ref) : prog pydict :=
  st ← get;
  match heap st !! r with
  | Some d => mret d
  | None => raise (Unmodelled "dangling reference")
  end.

(** [self.parameters_dict], which is [None] until a dictionary is processed. *)
Definition the_parameters_dict : prog (ref * pydict) :=
  st ← get;
  match parameters_dict (self st) with
  | Some r => d ← deref r; mret (r, d)
  | None => raise (TypeError "'NoneType' object is not subscriptable")
  end.

(** [self.parameters_dict[k]] and [self.parameters_dict[k] = v]. *)
Definition param (k : string) : prog pyval :=
  '(_, d) ← the_parameters_dict;
  lift (getitem d k).

Definition set_param (k : string) (v : pyval) : prog unit :=
  '(r, d) ← the_parameters_dict;
  st ← get;
  put (store r (<[k := v]> d) st).

(** A method of the parser that the file leaves out: it reads the parser and
    the collaborators and updates the parameter dictionary in place. *)
Definition dict_method : Type :=
  parser -> pydict -> free call (result unit * pydict).

(** The methods that [OrderArgumentParser] refers to and that the file does
    not define. They are parameters of the development. *)
Record elided_methods : Type := {
  _handle_missing_start_token_address : dict_method;
  _handle_missing_out_token_address : dict_method;
  _handle_missing_collateral_address : dict_method;
  _handle_missing_swap_path : dict_method;
  _handle_missing_is_long : dict_method;
  _handle_missing_slippage_percent : dict_method;
  calculate_missing_position_size_info_keys : dict_method;
  _check_if_max_leverage_exceeded : dict_method;
  find_key_by_symbol : pydict2 -> pyval -> result pyval;
  find_market_key_by_index_address : pydict2 -> pyval -> result pyval
}.

(** Calling such a method on [self]. *)
Definition invoke (m : dict_method) : prog unit := fun st =>
  match parameters_dict (self st) with
  | Some r =>
      match heap st !! r with
      | Some d =>
          free_bind (m (self st) d) (fun '(res, d') => Ret (res, store r d' st))
      | None => Ret (Raise (Unmodelled "dangling reference"), st)
      end
  | None => Ret (Raise (TypeError "'NoneType' object is not subscriptable"), st)
  end.

(** [OrderArgumentParser.__init__]. *)
Definition __init__ (config : ConfigManager) (is_increase is_decrease is_swap : bool)
    : M call unit parser :=
  markets ← trigger (Markets_info (chain config));
  mret {| config := config;
          parameters_dict := None;
          is_increase := is_increase;
          is_decrease := is_decrease;
          is_swap := is_swap;
          markets := markets;
          required_keys :=
            if is_increase then
              Some ["chain"; "index_token_address"; "market_key";
                    "start_token_address"; "collateral_address"; "swap_path";
                    "is_long"; "size_delta_usd"; "initial_collateral_delta";
                    "slippage_percent"]
            else if is_decrease then
              Some ["chain"; "index_token_address"; "market_key";
                    "start_token_address"; "collateral_address"; "is_long";
                    "size_delta_usd"; "initial_collateral_delta";
                    "slippage_percent"]
            else if is_swap then
              Some ["chain"; "start_token_address"; "out_token_address";
                    "initial_collateral_delta"; "swap_path"; "slippage_percent"]
            else None |}.

(** The states of a parser [p] at work on the dictionary at [r]: the
    parser is unchanged, the dictionary is on the heap, and the other
    objects of the heap [h0] are untouched. *)
Definition at_work (p : parser) (r : ref) (h0 : gmap ref pydict) (st : state) : Prop :=
  self st = p /\
  parameters_dict p = Some r /\
  is_Some (heap st !! r) /\
  forall r', r' <> r -> heap st !! r' = h0 !! r'.

(** A step that keeps the parser at work on the same dictionary, whatever
    the environment answers. *)
Definition steady {W} (env : environment call W) (p : parser) (r : ref)
    (h0 : gmap ref pydict) {A} (m : prog A) : Prop :=
  forall st (w : W) res st' w' t,
    at_work p r h0 st ->
    run env (m st) w = (res, st', w', t) ->
    at_work p r h0 st'.

(** The order kind a parser was built for. *)
Definition flags (p : parser) : bool * bool * bool :=
  (is_increase p, is_decrease p, is_swap p).

Section Methods.
Context (elided : elided_methods).

Definition _determine_missing_keys (parameters_dict : ref) : prog (list string) :=
  st ← get;
  match required_keys (self st) with
  | None => raise (AttributeError "required_keys")
  | Some keys =>
      d ← deref parameters_dict;
      mret (filter (fun key => d !! key = None) keys)
  end.

Definition _handle_missing_chain : prog unit :=
  raise (Exception "Please pass chain name in parameters dictionary!").

Definition _handle_missing_index_token_address : prog unit :=
  token_symbol ← try_except
    (token_symbol ← param "index_token_symbol";
     mret (match token_symbol with
           | PyStr "BTC" => PyStr "WBTC.b"
           | _ => token_symbol
           end))
    (fun e => match e with
              | KeyError _ => Some (raise (Exception "Index Token Address and Symbol not provided!"))
              | _ => None
              end);
  chain ← param "chain";
  tokens ← get_tokens_address_dict chain;
  a ← lift (find_key_by_symbol elided tokens token_symbol);
  set_param "index_token_address" a.

Definition _handle_missing_market_key : prog unit :=
  index_token_address ← param "index_token_address";
  let index_token_address :=
    match index_token_address with
    | PyStr "0x2f2a2543B76A4166549F7aaB2e75Bef0aefC5B0f" =>
        PyStr "0x47904963fc8b2340414262125aF798B9655E58Cd"
    | _ => index_token_address
    end in
  st ← get;
  k ← lift (find_market_key_by_index_address elided (markets (self st)) index_token_address);
  set_param "market_key" k.

(** [self.missing_base_key_methods]. *)
Definition missing_base_key_methods (key : string) : option (prog unit) :=
  match key with
  | "chain" => Some _handle_missing_chain
  | "index_token_address" => Some _handle_missing_index_token_address
  | "market_key" => Some _handle_missing_market_key
  | "start_token_address" => Some (invoke (_handle_missing_start_token_address elided))
  | "out_token_address" => Some (invoke (_handle_missing_out_token_address elided))
  | "collateral_address" => Some (invoke (_handle_missing_collateral_address elided))
  | "swap_path" => Some (invoke (_handle_missing_swap_path elided))
  | "is_long" => Some (invoke (_handle_missing_is_long elided))
  | "slippage_percent" => Some (invoke (_handle_missing_slippage_percent elided))
  | _ => None
  end.

Definition _calculate_initial_collateral_usd : prog pyval :=
  initial_collateral_delta_amount ← param "initial_collateral_delta";
  chain ← param "chain";
  prices ← trigger (get_recent_prices chain);
  a ← param "start_token_address";
  hi ← lift (q ← getitem_val prices a; v ← getitem q "maxPriceFull"; to_float v);
  a ← param "start_token_address";
  lo ← lift (q ← getitem_val prices a; v ← getitem q "minPriceFull"; to_float v);
  let price := PyFloat (Float64.median2 hi lo) in
  chain ← param "chain";
  tokens ← get_tokens_address_dict chain;
  a ← param "start_token_address";
  decimals ← lift (info ← getitem_val tokens a; getitem info "decimals");
  oracle_factor ← lift (sub decimals (PyInt 30));
  price ← lift (p ← pow10 oracle_factor; mul price p);
  collateral_usd ← lift (mul price initial_collateral_delta_amount);
  mret collateral_usd.

Definition _format_size_info : prog unit :=
  st ← get;
  (if negb (is_swap (self st))
   then
     size_delta_usd ← param "size_delta_usd";
     size_delta ← lift (v ← mul size_delta_usd (PyInt (10 ^ 30)); int v);
     set_param "size_delta" (PyInt size_delta)
   else mret tt);;
  chain ← param "chain";
  tokens ← get_tokens_address_dict chain;
  a ← param "start_token_address";
  decimal ← lift (info ← getitem_val tokens a; getitem info "decimals");
  initial_collateral_delta ← param "initial_collateral_delta";
  scaled ← lift (p ← pow10 decimal; v ← mul initial_collateral_delta p; int v);
  set_param "initial_collateral_delta" (PyInt scaled);;
  param "size_delta";;
  param "initial_collateral_delta";;
  mret tt.

(** The steps of [process_parameters_dictionary] up to the leverage check
    (lines 90 to 104). *)
Definition fill_missing_parameters (parameters_dict : ref) : prog unit :=
  missing_keys ← _determine_missing_keys parameters_dict;
  st ← get;
  put (set_parameters_dict parameters_dict st);;
  for_each missing_keys (fun missing_key =>
    match missing_base_key_methods missing_key with
    | Some method => method
    | None => mret tt
    end);;
  st ← get;
  if negb (is_swap (self st))
  then invoke (calculate_missing_position_size_info_keys elided);;
       invoke (_check_if_max_leverage_exceeded elided)
  else mret tt.

(** The minimum collateral of an increase order (lines 107 to 111). *)
Definition check_minimum_collateral : prog unit :=
  st ← get;
  if is_increase (self st)
  then
    initial_collateral_usd ← _calculate_initial_collateral_usd;
    below ← lift (lt initial_collateral_usd (PyInt 2));
    if below : bool
    then raise (Exception "Position size must be backed by >$2 of collateral!")
    else mret tt
  else mret tt.

Definition process_parameters_dictionary (parameters_dict' : ref) : prog (option ref) :=
  fill_missing_parameters parameters_dict';;
  check_minimum_collateral;;
  _format_size_info;;
  st ← get;
  mret (parameters_dict (self st)).

End Methods.
End order_argument_parser.

(** ** A simulated ledger

    A small environment to run the code against: one wallet, one token, one
    spender, an oracle snapshot and a gas table. *)
Module Simulation.
Import Py Eff Collaborators.

Record ledger : Type := {
  wallet_balance : Z;
  allowance : Z;
  (** the allowance once a sent transaction is accepted *)
  allowance_on_send : Z;
  next_nonce : Z;
  gas_estimate : Z;
  (** the gateway rejects every broadcast *)
  rejects_broadcast : bool;
  oracle : pydict2;
  token_list : list pydict;
  sent : list bytes
}.

Definition accept (txn : bytes) (w : ledger) : ledger :=
  {| wallet_balance := wallet_balance w;
     allowance := allowance_on_send w;
     allowance_on_send := allowance_on_send w;
     next_nonce := next_nonce w + 1;
     gas_estimate := gas_estimate w;
     rejects_broadcast := rejects_broadcast w;
     oracle := oracle w;
     token_list := token_list w;
     sent := txn :: sent w |}.

Definition gas_table : gmap string estimator :=
  {[ "increase_order" := "increaseOrderGasLimit";
     "decrease_order" := "decreaseOrderGasLimit" ]}.

Definition gateway : environment call ledger := fun X c w =>
  match c in call X return result X * ledger with
  | Web3_isConnected _ => (Ok true, w)
  | Web3_to_checksum_address a => (Ok a, w)
  | Web3_toChecksumAddress a => (Ok a, w)
  | convert_to_checksum_address a => (Ok a, w)
  | load_token_approval_abi => (Ok tt, w)
  | eth_getBalance _ => (Raise (AttributeError "getBalance"), w)
  | eth_get_balance _ => (Ok (wallet_balance w), w)
  | eth_get_transaction_count _ => (Ok (next_nonce w), w)
  | token_balanceOf _ _ => (Ok (wallet_balance w), w)
  | token_allowance _ _ _ => (Ok (allowance w), w)
  | approve_build_transaction token _ _ p =>
      (Ok {| txn_to := token; txn_data := []; txn_params := p |}, w)
  | multicall_build_transaction args p =>
      (Ok {| txn_to := "ExchangeRouter"; txn_data := concat args; txn_params := p |}, w)
  | sign_transaction raw _ =>
      (Ok {| rawTransaction := Some (txn_data raw); raw_transaction := None |}, w)
  | send_raw_transaction txn =>
      if rejects_broadcast w
      then (Raise (Web3Error "nonce too low"), w)
      else (Ok txn, accept txn w)
  | get_datastore_contract _ => (Ok "DataStore", w)
  | get_gas_limits _ => (Ok gas_table, w)
  | estimator_call _ => (Ok (gas_estimate w), w)
  | Markets_info _ => (Ok ∅, w)
  | get_recent_prices _ => (Ok (oracle w), w)
  | requests_get_tokens _ => (Ok (token_list w), w)
  end.

Definition USDC : address := "0xaf88d065e77c8cC2239327C5EDb3A432268e5831".

(** A quote with the same bid and ask. *)
Definition quote (price : string) : pydict :=
  {[ "maxPriceFull" := PyStr price; "minPriceFull" := PyStr price ]}.

Definition token_info (a : address) (decimals : Z) : pydict :=
  {[ "address" := PyStr a; "decimals" := PyInt decimals ]}.

(** USDC at one dollar: 10^24 at the oracle's scale of 30 - 6 decimals. *)
Definition genesis : ledger :=
  {| wallet_balance := 1000;
     allowance := 0;
     allowance_on_send := 500;
     next_nonce := 7;
     gas_estimate := 2500000;
     rejects_broadcast := false;
     oracle := {[ USDC := quote "1000000000000000000000000" ]};
     token_list := [token_info USDC 6];
     sent := [] |}.

(** The same ledger with a gateway that rejects the broadcast. *)
Definition rejecting : ledger :=
  {| wallet_balance := 1000;
     allowance := 0;
     allowance_on_send := 500;
     next_nonce := 7;
     gas_estimate := 2500000;
     rejects_broadcast := true;
     oracle := {[ USDC := quote "1000000000000000000000000" ]};
     token_list := [token_info USDC 6];
     sent := [] |}.

Definition config : ConfigManager :=
  {| chain := "arbitrum";
     rpc := "https://arb1.arbitrum.io/rpc";
     chain_id := 42161;
     user_wallet_address := "0xWallet";
     private_key := "key" |}.

(** An order on the USDC market; its gas estimator is set when
    [determined] is. *)
Definition an_order (is_long debug_mode determined : bool) (slippage_percent : pyval)
    : order.Order :=
  {| order.config := config;
     order.market_key := "0xMarket";
     order.collateral_address := USDC;
     order.index_token_address := USDC;
     order.is_long := is_long;
     order.size_delta := PyInt 1000;
     order.initial_collateral_delta_amount := PyInt 50;
     order.slippage_percent := slippage_percent;
     order.swap_path := [];
     order.max_fee_per_gas := PyFloat (Float64.of_Z 135000000);
     order.auto_cancel := false;
     order.debug_mode := debug_mode;
     order.execution_buffer := PyFloat (Float64.div (Float64.of_Z 13) (Float64.of_Z 10));
     order._is_swap := false;
     order._gas_limits := if determined then Some gas_table else None;
     order._gas_limits_order_type :=
       if determined then Some "increaseOrderGasLimit" else None |}.

(** Two calls of [check_if_approved] in a row, for 500 units with
    [approve=True]: the first from [genesis], the second from the ledger
    the first one leaves. *)
Definition first_approval : result unit * unit * ledger * trace :=
  Eval vm_compute in
    run gateway
      (approve_token_for_spend.check_if_approved config "0xRouter" USDC 500
         (PyInt 135000000) true tt)
      genesis.

Definition second_approval : result unit * unit * ledger * trace :=
  Eval vm_compute in
    run gateway
      (approve_token_for_spend.check_if_approved config "0xRouter" USDC 500
         (PyInt 135000000) true tt)
      (snd (fst first_approval)).

(** The calls of [_submit_transaction] on the simulated ledger, for an order
    in debug mode and for the same order in live mode. *)
Definition debug_trace : trace :=
  Eval vm_compute in
    snd (run gateway
           (order._submit_transaction "0xWallet" (PyInt 0) [] gas_table
              (an_order true true true (PyInt 0)))
           genesis).

Definition live_trace : trace :=
  Eval vm_compute in
    snd (run gateway
           (order._submit_transaction "0xWallet" (PyInt 0) [] gas_table
              (an_order true false true (PyInt 0)))
           genesis).

(** Stand-ins for the methods the parser file leaves out: each leaves the
    dictionary as it is, and the two registries find nothing. *)
Definition unchanged : order_argument_parser.dict_method :=
  fun _ d => Ret (Ok tt, d).

Definition no_elided : order_argument_parser.elided_methods :=
  {| order_argument_parser._handle_missing_start_token_address := unchanged;
     order_argument_parser._handle_missing_out_token_address := unchanged;
     order_argument_parser._handle_missing_collateral_address := unchanged;
     order_argument_parser._handle_missing_swap_path := unchanged;
     order_argument_parser._handle_missing_is_long := unchanged;
     order_argument_parser._handle_missing_slippage_percent := unchanged;
     order_argument_parser.calculate_missing_position_size_info_keys := unchanged;
     order_argument_parser._check_if_max_leverage_exceeded := unchanged;
     order_argument_parser.find_key_by_symbol := fun _ _ => Raise (KeyError "symbol");
     order_argument_parser.find_market_key_by_index_address :=
       fun _ _ => Raise (KeyError "market") |}.

(** The parser [OrderArgumentParser(config, is_increase=True)] builds on
    the simulated ledger. *)
Definition increase_parser : order_argument_parser.parser :=
  {| order_argument_parser.config := config;
     order_argument_parser.parameters_dict := None;
     order_argument_parser.is_increase := true;
     order_argument_parser.is_decrease := false;
     order_argument_parser.is_swap := false;
     order_argument_parser.markets := ∅;
     order_argument_parser.required_keys :=
       Some ["chain"; "index_token_address"; "market_key";
             "start_token_address"; "collateral_address"; "swap_path";
             "is_long"; "size_delta_usd"; "initial_collateral_delta";
             "slippage_percent"] |}.

(** A complete request to open a long of 1000 USD on [collateral] USDC. *)
Definition increase_request (collateral : pyval) : pydict :=
  {[ "chain" := PyStr "arbitrum";
     "index_token_address" := PyStr USDC;
     "market_key" := PyStr "0xMarket";
     "start_token_address" := PyStr USDC;
     "collateral_address" := PyStr USDC;
     "swap_path" := PyList [];
     "is_long" := PyBool true;
     "size_delta_usd" := PyInt 1000;
     "initial_collateral_delta" := collateral;
     "slippage_percent" := PyFloat (Float64.div (Float64.of_Z 3) (Float64.of_Z 1000)) ]}.

(** A request that derives everything it can and omits [chain]. *)
Definition request_without_chain : pydict :=
  {[ "index_token_symbol" := PyStr "BTC";
     "is_long" := PyBool true;
     "size_delta_usd" := PyInt 1000;
     "initial_collateral_delta" := PyInt 50;
     "slippage_percent" := PyFloat (Float64.div (Float64.of_Z 3) (Float64.of_Z 1000)) ]}.

(** The parser with one dictionary on the heap, at reference 1. *)
Definition parsing (d : pydict) : order_argument_parser.state :=
  {| order_argument_parser.self := increase_parser;
     order_argument_parser.heap := {[ 1%positive := d ]} |}.

(** The two runs of [process_parameters_dictionary] on the complete request
    with 50 USDC: on the request, and again on the dictionary the first run
    leaves. *)
Definition processed_once
    : result (option order_argument_parser.ref) * order_argument_parser.state
      * ledger * trace :=
    run gateway
      (order_argument_parser.process_parameters_dictionary no_elided 1%positive
         (parsing (increase_request (PyInt 50))))
      genesis.

Definition processed_twice
    : result (option order_argument_parser.ref) * order_argument_parser.state
      * ledger * trace :=
    run gateway
      (order_argument_parser.process_parameters_dictionary no_elided 1%positive
         (snd (fst (fst processed_once))))
      (snd (fst processed_once)).

(** [n] zeros. *)
Fixpoint zeros (n : nat) : string :=
  match n with
  | O => ""
  | S n' => String "0" (zeros n')
  end.

(** A ledger whose oracle quotes USDC at 10^309, beyond the range of a
    double. *)
Definition overflowing : ledger :=
  {| wallet_balance := 1000;
     allowance := 0;
     allowance_on_send := 500;
     next_nonce := 7;
     gas_estimate := 2500000;
     rejects_broadcast := false;
     oracle := {[ USDC := quote (String "1" (zeros 309)) ]};
     token_list := [token_info USDC 6];
     sent := [] |}.

(** The run that fills in the missing parameters of a request with no
    collateral at all, on that ledger. *)
Definition filled_overflowing
    : result unit * order_argument_parser.state * ledger * trace :=
    run gateway
      (order_argument_parser.fill_missing_parameters no_elided 1%positive
         (parsing (increase_request (PyInt 0))))
      overflowing.

End Simulation.

(** ** Reading a trace

    What a recorded call was answered with, and the parts of the calls that
    build, sign and send a transaction. *)
Module Trace.
Import Py Eff Collaborators.

(** The exception a call was answered with. *)
Definition raised (i : io call) : option exn :=
  match io_answer i with
  | Raise e => Some e
  | Ok _ => None
  end.

(** The token, the spender, the amount and the parameters of an approval
    that was built, with the raw transaction answered. *)
Definition approve_built (i : io call)
    : option (address * address * Z * tx_params * result raw_txn) :=
  match i with
  | IO c r =>
      match c in call X
            return result X -> option (address * address * Z * tx_params * result raw_txn) with
      | approve_build_transaction token spender amount p =>
          fun r => Some (token, spender, amount, p, r)
      | _ => fun _ => None
      end r
  end.

(** The answer to a signing request. *)
Definition signed (i : io call) : option (raw_txn * string * result signed_txn) :=
  match i with
  | IO c r =>
      match c in call X return result X -> option (raw_txn * string * result signed_txn) with
      | sign_transaction raw key => fun r => Some (raw, key, r)
      | _ => fun _ => None
      end r
  end.

(** The bytes of a broadcast, with its answer. *)
Definition sent (i : io call) : option (bytes * result bytes) :=
  match i with
  | IO c r =>
      match c in call X return result X -> option (bytes * result bytes) with
      | send_raw_transaction txn => fun r => Some (txn, r)
      | _ => fun _ => None
      end r
  end.

(** A read of the token contract's [balanceOf]. *)
Definition is_balanceOf {X} (c : call X) : bool :=
  match c with token_balanceOf _ _ => true | _ => false end.

(** A read of the native balance, under either name. *)
Definition is_native_balance {X} (c : call X) : bool :=
  match c with eth_getBalance _ | eth_get_balance _ => true | _ => false end.

(** The value read at position [n] of a list of estimator readings, 0 where
    there is none. *)
Definition reading (n : nat) (l : list (option (estimator * Z))) : Z :=
  match nth n l None with
  | Some (_, g) => g
  | None => 0
  end.

End Trace.

(** ** More runs on the simulated ledger *)
Module Scenarios.
Import Py Eff Collaborators Simulation.

(** Wrapped ether on Arbitrum. *)
Definition WETH : address := "0x82aF49447D8a07e3bd95BD0d56f35241523fBab1".

(** [check_if_approved] for 2000 units, more than the wallet holds. *)
Definition poor_approval : result unit * unit * ledger * trace :=
  Eval vm_compute in
    run gateway
      (approve_token_for_spend.check_if_approved config "0xRouter" USDC 2000
         (PyInt 135000000) true tt)
      genesis.

(** The check alone: 500 units with [approve=False]. *)
Definition check_only : result unit * unit * ledger * trace :=
  Eval vm_compute in
    run gateway
      (approve_token_for_spend.check_if_approved config "0xRouter" USDC 500
         (PyInt 135000000) false tt)
      genesis.

(** The parameters of the approval the first call builds. *)
Definition approval_params : tx_params :=
  {| value := PyInt 0;
     chainId := 42161;
     gas := 4000000;
     maxFeePerGas := 135000000;
     maxPriorityFeePerGas := 0;
     nonce := 7 |}.

Definition approval_raw : raw_txn :=
  {| txn_to := USDC; txn_data := []; txn_params := approval_params |}.

(** A signing service that names the signed bytes [raw_transaction]
    only. *)
Definition renamed : environment call ledger := fun X c w =>
  match c in call X return result X * ledger with
  | sign_transaction raw _ =>
      (Ok {| rawTransaction := None; raw_transaction := Some (txn_data raw) |}, w)
  | c' => gateway _ c' w
  end.

Definition renamed_approval : result unit * unit * ledger * trace :=
  Eval vm_compute in
    run renamed
      (approve_token_for_spend.check_if_approved config "0xRouter" USDC 500
         (PyInt 135000000) true tt)
      genesis.

(** A node that is not connected, and answers all the same. *)
Definition disconnected : environment call ledger := fun X c w =>
  match c in call X return result X * ledger with
  | Web3_isConnected _ => (Ok false, w)
  | c' => gateway _ c' w
  end.

Definition disconnected_approval : result unit * unit * ledger * trace :=
  Eval vm_compute in
    run disconnected
      (approve_token_for_spend.check_if_approved config "0xRouter" USDC 500
         (PyInt 135000000) true tt)
      genesis.

(** An approval of wrapped ether. *)
Definition ether_approval : result unit * unit * ledger * trace :=
  Eval vm_compute in
    run gateway
      (approve_token_for_spend.check_if_approved config "0xRouter" WETH 500
         (PyInt 135000000) true tt)
      genesis.

(** A gateway that does not answer the read of the nonce. *)
Definition silent : environment call ledger := fun X c w =>
  match c in call X return result X * ledger with
  | eth_get_transaction_count _ => (Raise (Web3Error "timeout"), w)
  | c' => gateway _ c' w
  end.

Definition silent_submission : result unit * order.Order * ledger * trace :=
  Eval vm_compute in
    run silent
      (order._submit_transaction "0xWallet" (PyInt 0) [] gas_table
         (an_order true false true (PyInt 0)))
      genesis.

(** The submission of an order whose gas limits were not determined, and
    of the same order once they are. *)
Definition undetermined_submission : result unit * order.Order * ledger * trace :=
  Eval vm_compute in
    run gateway
      (order._submit_transaction "0xWallet" (PyInt 0) [] gas_table
         (an_order true false false (PyInt 0)))
      genesis.

Definition live_submission : result unit * order.Order * ledger * trace :=
  Eval vm_compute in
    run gateway
      (order._submit_transaction "0xWallet" (PyInt 0) [] gas_table
         (an_order true false true (PyInt 0)))
      genesis.

(** The envelope of that submission. *)
Definition envelope_params : tx_params :=
  {| value := PyInt 0;
     chainId := 42161;
     gas := 5000000;
     maxFeePerGas := 135000000;
     maxPriorityFeePerGas := 0;
     nonce := 7 |}.

Definition envelope_raw : raw_txn :=
  {| txn_to := "ExchangeRouter"; txn_data := []; txn_params := envelope_params |}.

(** A table of gas limits with no entry for decrease orders. *)
Definition short_table : gmap string estimator :=
  {[ "increase_order" := "increaseOrderGasLimit" ]}.

Definition short : environment call ledger := fun X c w =>
  match c in call X return result X * ledger with
  | get_gas_limits _ => (Ok short_table, w)
  | c' => gateway _ c' w
  end.

Definition short_run : result unit * order.Order * ledger * trace :=
  Eval vm_compute in
  run short
    (order.determine_gas_limits order.DecreaseOrder
       (an_order true false false (PyInt 0)))
    genesis.

(** A list of the registry that names USDC twice. *)
Definition twice_listed : list pydict :=
  [token_info USDC 6; token_info WETH 18; token_info USDC 8].

Definition twice_indexed : pydict2 :=
  <[USDC := token_info USDC 8]>
    (<[WETH := token_info WETH 18]> (<[USDC := token_info USDC 6]> ∅)).

(** A registry that is out of reach. *)
Definition unreachable : environment call ledger := fun X c w =>
  match c in call X return result X * ledger with
  | requests_get_tokens _ => (Raise (RequestException "503"), w)
  | c' => gateway _ c' w
  end.

Definition unreachable_registry : result pydict2 * unit * ledger * trace :=
  run unreachable (gmx_utils.get_tokens_address_dict (PyStr "arbitrum") tt) genesis.

(** The parsers [OrderArgumentParser(config)] and
    [OrderArgumentParser(config, is_swap=True)] build on the simulated
    ledger. *)
Definition plain_parser : order_argument_parser.parser :=
  {| order_argument_parser.config := config;
     order_argument_parser.parameters_dict := None;
     order_argument_parser.is_increase := false;
     order_argument_parser.is_decrease := false;
     order_argument_parser.is_swap := false;
     order_argument_parser.markets := ∅;
     order_argument_parser.required_keys := None |}.

Definition swap_parser : order_argument_parser.parser :=
  {| order_argument_parser.config := config;
     order_argument_parser.parameters_dict := None;
     order_argument_parser.is_increase := false;
     order_argument_parser.is_decrease := false;
     order_argument_parser.is_swap := true;
     order_argument_parser.markets := ∅;
     order_argument_parser.required_keys :=
       Some ["chain"; "start_token_address"; "out_token_address";
             "initial_collateral_delta"; "swap_path"; "slippage_percent"] |}.

(** A swap of 50 USDC for wrapped ether, with every required key, and the
    same request without its collateral. *)
Definition swap_request : pydict :=
  {[ "chain" := PyStr "arbitrum";
     "start_token_address" := PyStr USDC;
     "out_token_address" := PyStr WETH;
     "initial_collateral_delta" := PyInt 50;
     "swap_path" := PyList [];
     "slippage_percent" := PyFloat (Float64.div (Float64.of_Z 3) (Float64.of_Z 1000)) ]}.

Definition swap_request_without_collateral : pydict :=
  {[ "chain" := PyStr "arbitrum";
     "start_token_address" := PyStr USDC;
     "out_token_address" := PyStr WETH;
     "swap_path" := PyList [];
     "slippage_percent" := PyFloat (Float64.div (Float64.of_Z 3) (Float64.of_Z 1000)) ]}.

(** A request that names its chain and nothing of the index token, and one
    that names the index token by the symbol [BTC]. *)
Definition request_without_index_token : pydict :=
  {[ "chain" := PyStr "arbitrum";
     "is_long" := PyBool true;
     "size_delta_usd" := PyInt 1000;
     "initial_collateral_delta" := PyInt 50 ]}.

Definition request_by_symbol : pydict :=
  {[ "chain" := PyStr "arbitrum";
     "index_token_symbol" := PyStr "BTC";
     "index_token_address" := PyStr "0x2f2a2543B76A4166549F7aaB2e75Bef0aefC5B0f" ]}.

(** A parser of the given kind, at work on the dictionary [d] at
    reference 1. *)
Definition at_reference_1 (p : order_argument_parser.parser) (d : pydict)
    : order_argument_parser.state :=
  order_argument_parser.set_parameters_dict 1%positive
    {| order_argument_parser.self := p;
       order_argument_parser.heap := {[ 1%positive := d ]} |}.

(** The registry and the markets of two tokens, for the handlers that look
    a token up: [WBTC.b] is at 0x47904963fc8b2340414262125aF798B9655E58Cd and
    its market is [0xMarketBTC]. *)
Definition lookups : order_argument_parser.elided_methods :=
  {| order_argument_parser._handle_missing_start_token_address := unchanged;
     order_argument_parser._handle_missing_out_token_address := unchanged;
     order_argument_parser._handle_missing_collateral_address := unchanged;
     order_argument_parser._handle_missing_swap_path := unchanged;
     order_argument_parser._handle_missing_is_long := unchanged;
     order_argument_parser._handle_missing_slippage_percent := unchanged;
     order_argument_parser.calculate_missing_position_size_info_keys := unchanged;
     order_argument_parser._check_if_max_leverage_exceeded := unchanged;
     order_argument_parser.find_key_by_symbol := fun _ symbol =>
       match symbol with
       | PyStr "WBTC.b" => Ok (PyStr "0x47904963fc8b2340414262125aF798B9655E58Cd")
       | _ => Raise (KeyError "symbol")
       end;
     order_argument_parser.find_market_key_by_index_address := fun _ a =>
       match a with
       | PyStr "0x47904963fc8b2340414262125aF798B9655E58Cd" => Ok (PyStr "0xMarketBTC")
       | _ => Raise (KeyError "market")
       end |}.

(** The runs of the two handlers on the request by symbol, and of
    [process_parameters_dictionary] on the swap requests. *)
Definition index_token_found
    : result unit * order_argument_parser.state * ledger * trace :=
  run gateway
    (order_argument_parser._handle_missing_index_token_address lookups
       (at_reference_1 increase_parser request_by_symbol))
    genesis.

Definition market_key_found
    : result unit * order_argument_parser.state * ledger * trace :=
  run gateway
    (order_argument_parser._handle_missing_market_key lookups
       (at_reference_1 increase_parser request_by_symbol))
    genesis.

Definition swap_processed
    : result (option order_argument_parser.ref) * order_argument_parser.state
      * ledger * trace :=
  run gateway
    (order_argument_parser.process_parameters_dictionary no_elided 1%positive
       {| order_argument_parser.self := swap_parser;
          order_argument_parser.heap := {[ 1%positive := swap_request ]} |})
    genesis.

Definition swap_without_collateral_processed
    : result (option order_argument_parser.ref) * order_argument_parser.state
      * ledger * trace :=
  run gateway
    (order_argument_parser.process_parameters_dictionary no_elided 1%positive
       {| order_argument_parser.self := swap_parser;
          order_argument_parser.heap :=
            {[ 1%positive := swap_request_without_collateral ]} |})
    genesis.

Definition swap_unreachable_processed
    : result (option order_argument_parser.ref) * order_argument_parser.state
      * ledger * trace :=
  run unreachable
    (order_argument_parser.process_parameters_dictionary no_elided 1%positive
       {| order_argument_parser.self := swap_parser;
          order_argument_parser.heap := {[ 1%positive := swap_request ]} |})
    genesis.

(** A quote with a bid above the ask. *)
Definition bid_ask (bid ask : string) : pydict :=
  {[ "maxPriceFull" := PyStr bid; "minPriceFull" := PyStr ask ]}.

(** A slippage of 0.003, as [3 / 1000]. *)
Definition three_per_mille : pyval :=
  PyFloat (Float64.div (Float64.of_Z 3) (Float64.of_Z 1000)).

(** The ledger once the gas limit of the data store is raised by 100000. *)
Definition raise_gas_estimate (w : ledger) : ledger :=
  {| wallet_balance := wallet_balance w;
     allowance := allowance w;
     allowance_on_send := allowance_on_send w;
     next_nonce := next_nonce w;
     gas_estimate := gas_estimate w + 100000;
     rejects_broadcast := rejects_broadcast w;
     oracle := oracle w;
     token_list := token_list w;
     sent := sent w |}.

(** A chain on which the gas limit is raised between two readings of the
    estimator. *)
Definition drifting : environment call ledger := fun X c w =>
  match c in call X return result X * ledger with
  | estimator_call _ => (Ok (gas_estimate w), raise_gas_estimate w)
  | c' => gateway _ c' w
  end.

(** [determine_gas_limits] of a decrease order on that chain, and the
    submission that follows. *)
Definition drifting_gas_limits : result unit * order.Order * ledger * trace :=
  Eval vm_compute in
    run drifting
      (order.determine_gas_limits order.DecreaseOrder
         (an_order true false false (PyInt 0)))
      genesis.

Definition drifting_submission : result unit * order.Order * ledger * trace :=
  Eval vm_compute in
    run drifting
      (order._submit_transaction "0xWallet" (PyInt 0) [] gas_table
         (snd (fst (fst drifting_gas_limits))))
      (snd (fst drifting_gas_limits)).

(** [determine_gas_limits] of an order of each kind on the simulated ledger,
    and the submission that follows. *)
Definition increase_gas_limits : result unit * order.Order * ledger * trace :=
  run gateway
    (order.determine_gas_limits order.IncreaseOrder
       (an_order true false false (PyInt 0)))
    genesis.

Definition increase_submission : result unit * order.Order * ledger * trace :=
  Eval vm_compute in
    run gateway
      (order._submit_transaction "0xWallet" (PyInt 0) [] gas_table
         (snd (fst (fst increase_gas_limits))))
      (snd (fst increase_gas_limits)).

Definition decrease_gas_limits : result unit * order.Order * ledger * trace :=
  run gateway
    (order.determine_gas_limits order.DecreaseOrder
       (an_order true false false (PyInt 0)))
    genesis.

Definition decrease_submission : result unit * order.Order * ledger * trace :=
  Eval vm_compute in
    run gateway
      (order._submit_transaction "0xWallet" (PyInt 0) [] gas_table
         (snd (fst (fst decrease_gas_limits))))
      (snd (fst decrease_gas_limits)).

(** The run that fills in the missing parameters of the complete request
    with [collateral] USDC, and the valuation of the collateral that
    follows. *)
Definition filled_with (collateral : pyval)
    : result unit * order_argument_parser.state * ledger * trace :=
  run gateway
    (order_argument_parser.fill_missing_parameters no_elided 1%positive
       (parsing (increase_request collateral)))
    genesis.

Definition valued_with (collateral : pyval)
    : result pyval * order_argument_parser.state * ledger * trace :=
  run gateway
    (order_argument_parser._calculate_initial_collateral_usd
       (snd (fst (fst (filled_with collateral)))))
    (snd (fst (filled_with collateral))).

Definition processed_with (collateral : pyval)
    : result (option order_argument_parser.ref) * order_argument_parser.state
      * ledger * trace :=
  run gateway
    (order_argument_parser.process_parameters_dictionary no_elided 1%positive
       (parsing (increase_request collateral)))
    genesis.

End Scenarios.


(** ** gmx_utils.py, [ConfigManager] *)
Module config_manager.
Import Py Eff.

(** What [yaml.safe_load] reads in a configuration file: top-level keys
    that hold a value, or a mapping from chain names to values. Deeper
    nesting does not occur in the file [set_config] reads. *)
Inductive entry : Type :=
| Value (v : pyval)
| Mapping (m : pydict).

(** The document of a file: [None] for an empty file. *)
Definition document : Type := option (gmap string entry).

(** [open(filepath, 'r')] and [yaml.safe_load(file)]. *)
Inductive file_call : Type -> Type :=
| safe_load (filepath : string) : file_call document.

(** The document a load was answered with. *)
Definition loaded (i : io file_call) : option document :=
  match i with
  | IO c r =>
      match c in file_call X return result X -> option document with
      | safe_load _ => fun r => match r with Ok doc => Some doc | Raise _ => None end
      end r
  end.

(** The attributes of a [ConfigManager]. *)
Record ConfigManager : Type := {
  chain : string;
  rpc : pyval;
  chain_id : pyval;
  user_wallet_address : entry;
  private_key : entry;
  tg_bot_token : pyval
}.

Definition __init__ (chain : string) : ConfigManager :=
  {| chain := chain;
     rpc := PyNone;
     chain_id := PyNone;
     user_wallet_address := Value PyNone;
     private_key := Value PyNone;
     tg_bot_token := PyNone |}.

(** [config_file[key]]. *)
Definition top_level (config_file : document) (key : string) : result entry :=
  match config_file with
  | Some m => getitem m key
  | None => Raise (TypeError "'NoneType' object is not subscriptable")
  end.

(** [section[key]] for a string key. *)
Definition subscript (section : entry) (key : string) : result pyval :=
  match section with
  | Mapping m => getitem m key
  | Value (PyStr _) => Raise (TypeError "string indices must be integers")
  | Value (PyList _) => Raise (TypeError "list indices must be integers or slices, not str")
  | Value _ => Raise (TypeError "object is not subscriptable")
  end.

Definition set_rpc (value : pyval) : M file_call ConfigManager unit :=
  self ← get;
  put {| chain := chain self; rpc := value; chain_id := chain_id self;
         user_wallet_address := user_wallet_address self;
         private_key := private_key self; tg_bot_token := tg_bot_token self |}.

Definition set_chain_id (value : pyval) : M file_call ConfigManager unit :=
  self ← get;
  put {| chain := chain self; rpc := rpc self; chain_id := value;
         user_wallet_address := user_wallet_address self;
         private_key := private_key self; tg_bot_token := tg_bot_token self |}.

Definition set_wallet_address (value : entry) : M file_call ConfigManager unit :=
  self ← get;
  put {| chain := chain self; rpc := rpc self; chain_id := chain_id self;
         user_wallet_address := value;
         private_key := private_key self; tg_bot_token := tg_bot_token self |}.

Definition set_private_key (value : entry) : M file_call ConfigManager unit :=
  self ← get;
  put {| chain := chain self; rpc := rpc self; chain_id := chain_id self;
         user_wallet_address := user_wallet_address self;
         private_key := value; tg_bot_token := tg_bot_token self |}.

Definition set_config (filepath : string) : M file_call ConfigManager unit :=
  config_file ← trigger (safe_load filepath);
  self ← get;
  value ← lift (rpcs ← top_level config_file "rpcs"; subscript rpcs (chain self));
  set_rpc value;;
  self ← get;
  value ← lift (ids ← top_level config_file "chain_ids"; subscript ids (chain self));
  set_chain_id value;;
  value ← lift (top_level config_file "user_wallet_address");
  set_wallet_address value;;
  value ← lift (top_level config_file "private_key");
  set_private_key value.

(** A configuration file for two chains, and one that gives the chain id of
    one of them only. *)
Definition rpcs_yaml : pydict :=
  {[ "arbitrum" := PyStr "https://arb1.arbitrum.io/rpc";
     "avalanche" := PyStr "https://api.avax.network/ext/bc/C/rpc" ]}.

Definition chain_ids_yaml : pydict :=
  {[ "arbitrum" := PyInt 42161; "avalanche" := PyInt 43114 ]}.

Definition arbitrum_id_yaml : pydict := {[ "arbitrum" := PyInt 42161 ]}.

Definition config_yaml : gmap string entry :=
  {[ "rpcs" := Mapping rpcs_yaml;
     "chain_ids" := Mapping chain_ids_yaml;
     "user_wallet_address" := Value (PyStr "0xWallet");
     "private_key" := Value (PyStr "key") ]}.

Definition partial_yaml : gmap string entry :=
  {[ "rpcs" := Mapping rpcs_yaml;
     "chain_ids" := Mapping arbitrum_id_yaml;
     "user_wallet_address" := Value (PyStr "0xWallet");
     "private_key" := Value (PyStr "key") ]}.

(** A file system with one file. *)
Definition disk (doc : document) : environment file_call unit := fun X c w =>
  match c in file_call X return result X * unit with
  | safe_load _ => (Ok doc, w)
  end.

Definition configured : result unit * ConfigManager * unit * list (io file_call) :=
  run (disk (Some config_yaml)) (set_config "config.yaml" (__init__ "arbitrum")) tt.

Definition half_configured : result unit * ConfigManager * unit * list (io file_call) :=
  run (disk (Some partial_yaml)) (set_config "config.yaml" (__init__ "avalanche")) tt.

End config_manager.

(** * Properties *)

(** ** Floats and Python arithmetic *)
Module Float64_facts.
Import Float64.

(** A non-negative finite float has its sign bit clear or is a zero. *)
Lemma to_Q_nonneg_sign (s : bool) (m : positive) (e : Z) :
  (0 <= inject_Z (cond_Zopp s (Zpos m)) * 2 ^ e)%Q -> s = false.
Proof.
  destruct s; [|reflexivity]. intros H. exfalso.
  assert (Hp : (0 < 2 ^ e)%Q) by (apply Qpower_0_lt; reflexivity).
  assert (Hm : (0 < inject_Z (Zpos m) * 2 ^ e)%Q)
    by (apply Qmult_lt_0_compat; [reflexivity | exact Hp]).
  assert (Hn : (inject_Z (Zneg m) * 2 ^ e == - (inject_Z (Zpos m) * 2 ^ e))%Q).
  { change (inject_Z (Zneg m)) with (- inject_Z (Zpos m))%Q. ring. }
  simpl in H. rewrite Hn in H.
  apply (Qlt_not_le _ _ Hm). apply Qopp_le_compat in H.
  rewrite Qopp_involutive in H. exact H.
Qed.

Lemma Qfloor_shift (m : positive) (e : Z) :
  Qfloor (inject_Z (Zpos m) * 2 ^ e) = Z.shiftl (Zpos m) e.
Proof.
  destruct e as [|k|k].
  - rewrite <- (Qfloor_Z (Z.shiftl (Zpos m) 0)). apply Qfloor_comp.
    change (Z.shiftl (Zpos m) 0) with (Zpos m). change (2 ^ 0)%Q with 1%Q.
    apply Qmult_1_r.
  - rewrite Z.shiftl_mul_pow2 by lia.
    rewrite <- (Qfloor_Z (Zpos m * 2 ^ Zpos k)). apply Qfloor_comp.
    rewrite inject_Z_mult, Zpower_Qpower by lia. reflexivity.
  - change (Z.shiftl (Zpos m) (Zneg k)) with (Z.shiftr (Zpos m) (Zpos k)).
    rewrite Z.shiftr_div_pow2 by lia.
    rewrite Zdiv_Qdiv. apply Qfloor_comp.
    rewrite Zpower_Qpower by lia. reflexivity.
Qed.

(** On a non-negative finite float, truncation is the floor of its value. *)
Lemma trunc_floor (p : float) (q : Q) :
  to_Q p = Some q -> (0 <= q)%Q -> trunc p = Some (Qfloor q).
Proof.
  destruct p as [s|s| |s m e]; simpl; try discriminate.
  - intros [= <-] _. reflexivity.
  - intros [= <-] H. pose proof (to_Q_nonneg_sign _ _ _ H) as ->.
    simpl. f_equal. symmetry. apply Qfloor_shift.
Qed.

End Float64_facts.

(** ** The price calculation of order.py *)
Module price_facts.
Import Py Eff Collaborators gmx_utils order.

Lemma float_of_int_1 : float_of_int 1 = Ok (Float64.of_Z 1).
Proof. reflexivity. Qed.

Lemma float_of_int_0 : float_of_int 0 = Ok (S754_zero false).
Proof. reflexivity. Qed.

(** What [_get_prices] returns follows from its three steps. *)
Lemma _get_prices_inv self decimals prices is_open is_close is_swap price i acc :
  _get_prices self decimals prices is_open is_close is_swap = Ok (price, i, acc) ->
  exists slippage,
    median_price prices (index_token_address self) = Ok price /\
    slippage_price self price is_open is_close = Ok slippage /\
    acceptable_price_in_usd slippage decimals = Ok acc /\
    int slippage = Ok i.
Proof.
  unfold _get_prices. intros H.
  destruct (median_price prices (index_token_address self)) as [p|] eqn:Hp;
    [|discriminate].
  simpl in H.
  destruct (slippage_price self p is_open is_close) as [sl|] eqn:Hsl; [|discriminate].
  simpl in H.
  destruct (acceptable_price_in_usd sl decimals) as [a|] eqn:Ha; [|discriminate].
  simpl in H.
  destruct (int sl) as [j|] eqn:Hj; [|discriminate].
  simpl in H. injection H as <- <- <-. exists sl. auto.
Qed.

(** The median price is a float. *)
Lemma median_price_float prices token price :
  median_price prices token = Ok price -> exists P, price = PyFloat P.
Proof.
  unfold median_price. intros H.
  destruct (getitem prices token) as [q|]; [|discriminate]. simpl in H.
  destruct (getitem q "maxPriceFull") as [v|]; [|discriminate]. simpl in H.
  destruct (to_float v) as [hi|]; [|discriminate]. simpl in H.
  destruct (getitem q "minPriceFull") as [v'|]; [|discriminate]. simpl in H.
  destruct (to_float v') as [lo|]; [|discriminate]. simpl in H.
  injection H as <-. eauto.
Qed.

(** C5. For a median price [P] and a slippage fraction [s], the price with
    slippage that [_get_prices] computes is [P * (1 + s)] for an open long,
    [P * (1 - s)] for an open short, [P * (1 - s)] for a close long and
    [P * (1 + s)] for a close short, in the arithmetic of Python floats.
    [_get_prices] returns the median, the truncation [int] of that price and
    the acceptable price computed from it, and raises only when one of these
    two does. *)
Theorem slippage_direction_law (self : Order) (P s : Float64.float) :
  slippage_percent self = PyFloat s ->
  let up := PyFloat (Float64.mul P (Float64.add (Float64.of_Z 1) s)) in
  let down := PyFloat (Float64.mul P (Float64.sub (Float64.of_Z 1) s)) in
  (forall is_close,
     slippage_price self (PyFloat P) true is_close
     = Ok (if is_long self then up else down)) /\
  slippage_price self (PyFloat P) false true
  = Ok (if is_long self then down else up) /\
  (forall decimals prices is_open is_close is_swap,
     median_price prices (index_token_address self) = Ok (PyFloat P) ->
     is_open || is_close = true ->
     let slippage := if xorb is_open (is_long self) then down else up in
     _get_prices self decimals prices is_open is_close is_swap
     = (acceptable ← acceptable_price_in_usd slippage decimals;
        i ← int slippage;
        Ok (PyFloat P, i, acceptable))).
Proof.
  intros Hs up down.
  assert (Hopen : forall is_close, slippage_price self (PyFloat P) true is_close
                    = Ok (if is_long self then up else down)).
  { intros is_close. unfold slippage_price. rewrite Hs.
    destruct (is_long self); reflexivity. }
  assert (Hclose : slippage_price self (PyFloat P) false true
                   = Ok (if is_long self then down else up)).
  { unfold slippage_price. rewrite Hs. destruct (is_long self); reflexivity. }
  split; [exact Hopen|]. split; [exact Hclose|].
  intros decimals prices is_open is_close is_swap Hmed Hkind slippage.
  unfold _get_prices. rewrite Hmed. cbn [mbind result_bind].
  assert (Hsl : slippage_price self (PyFloat P) is_open is_close = Ok slippage).
  { subst slippage. destruct is_open.
    - rewrite Hopen. destruct (is_long self); reflexivity.
    - simpl in Hkind. subst is_close. rewrite Hclose.
      destruct (is_long self); reflexivity. }
  rewrite Hsl. reflexivity.
Qed.

(** C3, as the code has it. For a swap (neither open nor close),
    [_get_prices] returns the median as its first value, and 0 as the price
    with slippage; the acceptable price is 0 times the power of ten. With
    the quote of the token known and an integer decimal count, it returns. *)
Theorem swap_price_is_zero (self : Order) (prices : pydict2) (is_swap : bool) (price : pyval) :
  median_price prices (index_token_address self) = Ok price ->
  forall d : Z,
    _get_prices self (PyInt d) prices false false is_swap
    = Ok (price, 0,
          if PRECISION <=? d then PyInt 0
          else PyFloat (Float64.mul (S754_zero false)
                          (Float64.pow10_neg (Z.to_pos (PRECISION - d))))).
Proof.
  intros Hmed d. unfold _get_prices. rewrite Hmed. simpl.
  unfold acceptable_price_in_usd. simpl. unfold PRECISION.
  destruct (30 <=? d) eqn:Hd.
  - apply Z.leb_le in Hd. destruct (d - 30) as [|k|k] eqn:Hk; try lia; reflexivity.
  - apply Z.leb_gt in Hd. destruct (d - 30) as [|k|k] eqn:Hk; try lia.
    replace (Z.to_pos (30 - d)) with k by lia. reflexivity.
Qed.

(** C3, the claim as stated fails. With bid and ask at 100 the median is
    100, and a swap gets 0 as its price with slippage. *)
Lemma swap_price_not_median :
  exists P i acc,
    _get_prices (Simulation.an_order true false true (PyInt 0)) (PyInt 30)
      {[ Simulation.USDC := Simulation.quote "100" ]} false false true
    = Ok (PyFloat P, i, acc) /\
    int (PyFloat P) = Ok 100 /\ i = 0.
Proof. do 3 eexists. split; [vm_compute; reflexivity|]. split; reflexivity. Qed.

Lemma to_Q_int (v : pyval) (q : Q) :
  Py.to_Q v = Some q -> (0 <= q)%Q -> int v = Ok (Qfloor q).
Proof.
  destruct v as [|b|z|f|s|l]; simpl; try discriminate.
  - intros [= <-] _. rewrite Qfloor_Z. reflexivity.
  - intros [= <-] _. rewrite Qfloor_Z. reflexivity.
  - intros Hq Hpos. unfold Py.to_Q in Hq. simpl in Hq.
    rewrite (Float64_facts.trunc_floor f q Hq Hpos). reflexivity.
Qed.

(** C4, as the code has it. For a price with slippage of value [q >= 0] and
    a decimal count [d], [int] gives the floor of [q]; the acceptable price
    is the integer [floor q * 10^(d - 30)] when [d >= 30], and for [d < 30]
    the float product of [floor q] and the double [10 ** (d - 30)]. These
    are the values [_get_prices] returns. *)
Theorem acceptable_price_scaling (slippage : pyval) (q : Q) (d : Z) :
  Py.to_Q slippage = Some q -> (0 <= q)%Q ->
  int slippage = Ok (Qfloor q) /\
  (PRECISION <= d ->
     acceptable_price_in_usd slippage (PyInt d)
     = Ok (PyInt (Qfloor q * 10 ^ (d - PRECISION)))) /\
  (d < PRECISION ->
     acceptable_price_in_usd slippage (PyInt d)
     = (f ← float_of_int (Qfloor q);
        Ok (PyFloat (Float64.mul f (Float64.pow10_neg (Z.to_pos (PRECISION - d))))))) /\
  (forall self prices is_open is_close is_swap price i acc,
     slippage_price self price is_open is_close = Ok slippage ->
     _get_prices self (PyInt d) prices is_open is_close is_swap = Ok (price, i, acc) ->
     i = Qfloor q /\ acceptable_price_in_usd slippage (PyInt d) = Ok acc).
Proof.
  intros Hq Hpos. pose proof (to_Q_int _ _ Hq Hpos) as Hint.
  split; [exact Hint|]. unfold acceptable_price_in_usd, PRECISION.
  rewrite Hint. simpl. repeat split.
  - intros Hd. destruct (d - 30) as [|k|k] eqn:Hk; try lia; reflexivity.
  - intros Hd. destruct (d - 30) as [|k|k] eqn:Hk; try lia.
    replace (Z.to_pos (30 - d)) with k by lia. reflexivity.
  - apply _get_prices_inv in H0 as (sl & _ & Hsl & _ & Hi).
    rewrite H in Hsl. injection Hsl as <-. rewrite Hint in Hi. congruence.
  - apply _get_prices_inv in H0 as (sl & _ & Hsl & Hacc & Hi).
    rewrite H in Hsl. injection Hsl as <-.
    unfold acceptable_price_in_usd, PRECISION in Hacc. rewrite Hint in Hacc.
    exact Hacc.
Qed.

Lemma acceptable_price_scaling_witness :
  acceptable_price_in_usd (PyFloat (Float64.of_Z 3)) (PyInt 32) = Ok (PyInt 300).
Proof.
  apply (proj1 (proj2 (acceptable_price_scaling
                         (PyFloat (Float64.of_Z 3)) _ 32 eq_refl ltac:(vm_compute; discriminate)))).
  vm_compute. discriminate.
Defined.

(** C4, the claim as stated fails below 30 decimals. With a price of 3 and
    29 decimals, the acceptable price is the double 0.30000000000000004,
    not 3 * 10^(-1). *)
Lemma acceptable_price_inexact :
  exists P acc q,
    _get_prices (Simulation.an_order true false true (PyInt 0)) (PyInt 29)
      {[ Simulation.USDC := Simulation.quote "3" ]} true false false
    = Ok (PyFloat P, 3, acc) /\
    Py.to_Q acc = Some q /\
    ~ (q == 3 * 10 ^ (29 - 30))%Q.
Proof.
  do 3 eexists. split; [vm_compute; reflexivity|].
  split; [vm_compute; reflexivity|]. vm_compute. discriminate.
Qed.

Lemma slippage_direction_law_witness :
  let prices : pydict2 := {[ Simulation.USDC := Scenarios.bid_ask "60010" "60000" ]} in
  let long := Simulation.an_order true false true Scenarios.three_per_mille in
  let short := Simulation.an_order false false true Scenarios.three_per_mille in
  _get_prices long (PyInt 30) prices true false false
  = Ok (PyFloat (Float64.of_Z 60005), 60185, PyInt 60185) /\
  _get_prices short (PyInt 30) prices true false false
  = Ok (PyFloat (Float64.of_Z 60005), 59824, PyInt 59824) /\
  _get_prices long (PyInt 30) prices false true false
  = Ok (PyFloat (Float64.of_Z 60005), 59824, PyInt 59824) /\
  _get_prices short (PyInt 30) prices false true false
  = Ok (PyFloat (Float64.of_Z 60005), 60185, PyInt 60185).
Proof.
  intros prices long short.
  pose proof (proj2 (proj2 (slippage_direction_law long (Float64.of_Z 60005)
                              (Float64.div (Float64.of_Z 3) (Float64.of_Z 1000))
                              eq_refl))) as Hlong.
  pose proof (proj2 (proj2 (slippage_direction_law short (Float64.of_Z 60005)
                              (Float64.div (Float64.of_Z 3) (Float64.of_Z 1000))
                              eq_refl))) as Hshort.
  split; [|split; [|split]].
  - rewrite (Hlong (PyInt 30) prices true false false); vm_compute; reflexivity.
  - rewrite (Hshort (PyInt 30) prices true false false); vm_compute; reflexivity.
  - rewrite (Hlong (PyInt 30) prices false true false); vm_compute; reflexivity.
  - rewrite (Hshort (PyInt 30) prices false true false); vm_compute; reflexivity.
Defined.

Lemma swap_price_is_zero_witness :
  _get_prices (Simulation.an_order true false true (PyInt 0)) (PyInt 18)
    {[ Simulation.USDC := Simulation.quote "100" ]} false false true
  = Ok (PyFloat (Float64.of_Z 100), 0,
        if PRECISION <=? 18 then PyInt 0
        else PyFloat (Float64.mul (S754_zero false)
                        (Float64.pow10_neg (Z.to_pos (PRECISION - 18))))).
Proof.
  apply swap_price_is_zero. vm_compute. reflexivity.
Defined.

End price_facts.

(** ** Running programs *)
Module Eff_facts.
Import Eff.

Section Run.
Context {E : Type -> Type} {W S : Type} (env : environment E W).

Lemma run_free_bind {A B} (p : free E A) (f : A -> free E B) (w : W) :
  run env (free_bind p f) w
  = let '(a, w1, t1) := run env p w in
    let '(b, w2, t2) := run env (f a) w1 in
    (b, w2, t1 ++ t2).
Proof.
  revert w. induction p as [a|X e k IH]; intros w; simpl.
  - destruct (run env (f a) w) as [[b w2] t2]. reflexivity.
  - destruct (env X e w) as [r w1]. rewrite IH.
    destruct (run env (k r) w1) as [[a w2] t1].
    destruct (run env (f a) w2) as [[b w3] t2]. reflexivity.
Qed.

Lemma run_ret {A} (a : A) (s : S) (w : W) :
  run env (mret (M := M E S) a s) w = (Ok a, s, w, []).
Proof. reflexivity. Qed.

Lemma run_raise {A} (e : exn) (s : S) (w : W) :
  run env (raise (A := A) e s) w = (Raise e, s, w, []).
Proof. reflexivity. Qed.

Lemma run_lift {A} (r : result A) (s : S) (w : W) :
  run env (lift r s) w = (r, s, w, []).
Proof. reflexivity. Qed.

Lemma run_get (s : S) (w : W) :
  run env (get s) w = (Ok s, s, w, []).
Proof. reflexivity. Qed.

Lemma run_put (s' s : S) (w : W) :
  run env (put s' s) w = (Ok tt, s', w, []).
Proof. reflexivity. Qed.

Lemma run_trigger {X} (c : E X) (s : S) (w : W) :
  run env (trigger c s) w
  = let '(r, w1) := env X c w in (r, s, w1, [IO c r]).
Proof. simpl. destruct (env X c w). reflexivity. Qed.

Lemma run_bind {A B} (m : M E S A) (f : A -> M E S B) (s : S) (w : W) :
  run env ((m ≫= f) s) w
  = let '(r, s1, w1, t1) := run env (m s) w in
    match r with
    | Ok a => let '(x, w2, t2) := run env (f a s1) w1 in (x, w2, t1 ++ t2)
    | Raise e => (Raise e, s1, w1, t1)
    end.
Proof.
  unfold mbind, M_bind. rewrite run_free_bind.
  destruct (run env (m s) w) as [[[r s1] w1] t1].
  destruct r as [a|e]; simpl.
  - destruct (run env (f a s1) w1) as [[x w2] t2]. reflexivity.
  - rewrite app_nil_r. reflexivity.
Qed.

Lemma run_try_except {A} (body : M E S A) (handler : exn -> option (M E S A))
    (s : S) (w : W) :
  run env (try_except body handler s) w
  = let '(r, s1, w1, t1) := run env (body s) w in
    match r with
    | Ok a => (Ok a, s1, w1, t1)
    | Raise e =>
        match handler e with
        | Some h => let '(x, w2, t2) := run env (h s1) w1 in (x, w2, t1 ++ t2)
        | None => (Raise e, s1, w1, t1)
        end
    end.
Proof.
  unfold try_except. rewrite run_free_bind.
  destruct (run env (body s) w) as [[[r s1] w1] t1].
  destruct r as [a|e]; simpl.
  - rewrite app_nil_r. reflexivity.
  - destruct (handler e) as [h|]; simpl.
    + destruct (run env (h s1) w1) as [[x w2] t2]. reflexivity.
    + rewrite app_nil_r. reflexivity.
Qed.

End Run.

(** A run whose result is known is the tuple of that result, the state, the
    world and the trace it leaves. *)
Lemma run_eta {A B C D : Type} (x : A * B * C * D) (a : A) :
  fst (fst (fst x)) = a -> x = (a, snd (fst (fst x)), snd (fst x), snd x).
Proof. destruct x as [[[a' b] c] d]. cbn. intros ->. reflexivity. Qed.

Create Rewrite HintDb run.
#[export] Hint Rewrite @run_bind @run_try_except @run_trigger @run_ret @run_raise
  @run_lift @run_get @run_put : run.

Ltac run_simpl := repeat (autorewrite with run; cbn [app]).

(** Case analysis on the answer to the next call. *)
Ltac run_case env :=
  match goal with
  | |- context [env ?X ?c ?w] =>
      let E := fresh "E" in
      destruct (env X c w) as [[?|?] ?] eqn:E; run_simpl
  end.

End Eff_facts.

(** ** Submitting the transaction (order.py) *)
Module submit_facts.
Import Py Eff Collaborators gmx_utils order Eff_facts.

Section Run.
Context {W : Type} (env : environment call W).

(** A [try] whose handler catches every exception and does nothing returns
    normally. *)
Lemma run_try_except_pass {S} (body : M call S unit) (s : S) (w : W) :
  exists s' w',
    run env (try_except body (fun _ => Some (mret tt)) s) w
    = (Ok tt, s', w', snd (run env (body s) w)).
Proof.
  rewrite run_try_except.
  destruct (run env (body s) w) as [[[[[]|e] s1] w1] t1]; simpl.
  - eauto.
  - rewrite app_nil_r. eauto.
Qed.

(** The address conversion makes no transaction step and reads no nonce. *)
Lemma run_to_checksum_address a self w :
  exists r w1 t1,
    run env (to_checksum_address a self) w = (r, self, w1, t1) /\
    Forall (fun i => is_step i = false /\ nonce_read i = None
                     /\ estimate_read i = None /\ multicall_built i = None) t1.
Proof.
  unfold to_checksum_address. run_simpl. run_case env.
  - do 3 eexists. split; [reflexivity|]. repeat constructor.
  - destruct e; run_simpl;
      try (do 3 eexists; split; [reflexivity|]; repeat constructor).
    run_case env; do 3 eexists; (split; [reflexivity|]); repeat constructor.
Qed.

(** Once the nonce is read, [_submit_transaction] returns normally,
    whatever is answered to the estimator, to the building, to the signing
    and to the sending of the transaction. *)
Lemma _submit_transaction_returns a v args gl self w r self' w' t :
  run env (_submit_transaction a v args gl self) w = (r, self', w', t) ->
  (exists n, In (Some n) (map nonce_read t)) ->
  r = Ok tt.
Proof.
  unfold _submit_transaction. rewrite run_bind.
  destruct (run_to_checksum_address a self w) as (r0 & w1 & t1 & -> & Ht1).
  assert (Hno : ~ exists n, In (Some n) (map nonce_read t1)).
  { intros [n Hn]. apply in_map_iff in Hn as (i & Hi & Hin).
    rewrite List.Forall_forall in Ht1. apply Ht1 in Hin. intuition congruence. }
  destruct r0 as [x|e]; [|intros [= <- _ _ <-] H; contradiction].
  rewrite run_bind, run_trigger.
  destruct (env _ (eth_get_transaction_count x) w1) as [[n|e] w2].
  - destruct (run_try_except_pass (build_sign_send v args n) self w2)
      as (s2 & w3 & ->).
    intros [= <- _ _ _] _. reflexivity.
  - cbn [app]. intros [= <- _ _ <-] [n Hn]. exfalso. apply Hno.
    exists n. rewrite map_app, in_app_iff in Hn. destruct Hn as [Hn|[Hn|[]]].
    + exact Hn.
    + discriminate.
Qed.

End Run.

(** C1, the defect. The gateway rejects the broadcast and
    [_submit_transaction] returns as it does after a successful one: the
    exception raised by [send_raw_transaction] is caught and dropped. *)
Theorem rejected_broadcast_is_swallowed :
  exists self' w' t,
    run Simulation.gateway
      (_submit_transaction "0xWallet" (PyInt 0) [] Simulation.gas_table
         (Simulation.an_order true false true (PyInt 0)))
      Simulation.rejecting
    = (Ok tt, self', w', t) /\
    In (IO (send_raw_transaction []) (Raise (Web3Error "nonce too low"))) t.
Proof.
  do 3 eexists. split; [vm_compute; reflexivity|].
  do 6 right. left. reflexivity.
Qed.

(** The end of a pair of runs: both results are read off and the three
    parts of the statement follow by computation on the two traces. *)
Ltac leaf :=
  run_simpl;
  let H1 := fresh in let H2 := fresh in
  intros H1 H2; injection H1 as <- <- <- <-; injection H2 as <- <- <- <-;
  split; [repeat constructor|];
  split; [eexists; split; [cbn [app]; reflexivity | repeat constructor]|];
  let raw := fresh in let key := fresh in let Hin := fresh in
  intros raw key Hin; cbn in Hin;
  repeat (destruct Hin as [Hin|Hin]; [try discriminate|]); try contradiction;
  try (injection Hin as <- <-; eexists; cbn; eauto 10).
(** One more step of a run: the next answer, or the class of a caught
    exception, or the attribute of the signed transaction. *)
Ltac walk env :=
  first
    [ run_case env
    | match goal with
      | |- context [match ?e with AttributeError _ => _ | _ => _ end] =>
          is_var e; destruct e; run_simpl
      | |- context [raw_bytes ?x] => destruct (raw_bytes x); run_simpl
      end ].

Section Modes.
Context {W : Type} (env : environment call W).

(** C2, as the code has it. From the same gateway state, an order in debug
    mode and the same order in live mode read the nonce, evaluate the
    estimator and build the same raw transaction; the debug run stops
    there, without signing and without sending, and the live run goes on
    with the signing of that raw transaction and the sending. *)
Theorem debug_mode_builds_and_stops a v args gl (debug live : Order) w
    rd sd wd td rl sl wl tl :
  debug_mode debug = true ->
  debug_mode live = false ->
  config live = config debug ->
  max_fee_per_gas live = max_fee_per_gas debug ->
  _gas_limits_order_type live = _gas_limits_order_type debug ->
  run env (_submit_transaction a v args gl debug) w = (rd, sd, wd, td) ->
  run env (_submit_transaction a v args gl live) w = (rl, sl, wl, tl) ->
  Forall (fun i => is_sign (io_call i) = false /\ is_send (io_call i) = false) td /\
  (exists rest,
     tl = td ++ rest /\
     Forall (fun i => is_sign (io_call i) || is_send (io_call i) = true) rest) /\
  (forall raw key, In (Some (raw, key)) (map signing tl) ->
     exists p, In (Some (args, p, Ok raw)) (map multicall_built td)).
Proof.
  intros Hd Hl Hc Hf Hg.
  unfold _submit_transaction, to_checksum_address, build_sign_send,
    gas_limits_order_type_call.
  run_simpl.
  destruct (_gas_limits_order_type debug) as [e|] eqn:Hgd;
    destruct (int (max_fee_per_gas debug)) as [fee|ex] eqn:Hfee;
    repeat (rewrite ?Hd, ?Hl, ?Hc, ?Hf, ?Hg, ?Hgd, ?Hfee; cbn [negb]; run_simpl;
            walk env);
    rewrite ?Hd, ?Hl, ?Hc, ?Hf, ?Hg, ?Hgd, ?Hfee; cbn [negb]; leaf.
Qed.

(** After [determine_gas_limits], the estimator of the order is the entry of
    the Gas Limit Table under the key of its kind. *)
Lemma determine_gas_limits_sets kind self w self1 w1 t1 :
  run env (determine_gas_limits kind self) w = (Ok tt, self1, w1, t1) ->
  exists table e,
    In (Some table) (map gas_table_read t1) /\
    table !! gas_limits_key kind = Some e /\
    _gas_limits_order_type self1 = Some e /\
    config self1 = config self /\
    max_fee_per_gas self1 = max_fee_per_gas self /\
    debug_mode self1 = debug_mode self.
Proof.
  unfold determine_gas_limits. run_simpl. run_case env; [|discriminate].
  run_case env; [|discriminate].
  unfold getitem. destruct (_ !! gas_limits_key kind) as [e|] eqn:He; run_simpl;
    [|discriminate].
  intros [= <- <- <-]. exists a0, e. cbn. auto 10.
Qed.

(** C8, as the code has it. For both order kinds, the estimator that
    [determine_gas_limits] keeps is the entry of the Gas Limit Table it read,
    under ["increase_order"] for an increase order and under
    ["decrease_order"] for a decrease order. The gas of the envelope that
    [_submit_transaction] builds is the sum of two readings of that
    estimator, taken one after the other just before the build; it is twice
    the estimate when the two readings agree. *)
Theorem gas_ceiling_is_two_readings_summed (kind : order_kind) a v args gl
    self w self1 w1 t1 r self2 w2 t2 :
  run env (determine_gas_limits kind self) w = (Ok tt, self1, w1, t1) ->
  run env (_submit_transaction a v args gl self1) w1 = (r, self2, w2, t2) ->
  exists table e,
    In (Some table) (map gas_table_read t1) /\
    table !! (match kind with
              | IncreaseOrder => "increase_order"
              | DecreaseOrder => "decrease_order"
              end) = Some e /\
    forall args' p raw,
      In (Some (args', p, raw)) (map multicall_built t2) ->
      exists g1 g2 before after,
        t2 = before ++ IO (estimator_call e) (Ok g1)
                    :: IO (estimator_call e) (Ok g2)
                    :: IO (multicall_build_transaction args' p) raw :: after /\
        gas p = g1 + g2 /\
        (g1 = g2 -> gas p = 2 * g1).
Proof.
  intros Hgas Hrun.
  apply determine_gas_limits_sets in Hgas as (table & e & Htab & Hkey & Hest & _).
  exists table, e. split; [exact Htab|]. split; [destruct kind; exact Hkey|].
  intros args' p raw. revert Hrun.
  unfold _submit_transaction, to_checksum_address, build_sign_send,
    gas_limits_order_type_call.
  destruct (int (max_fee_per_gas self1)) as [fee|ex] eqn:Hfee;
    destruct (debug_mode self1) eqn:Hdebug.
  all: repeat (rewrite ?Hest, ?Hfee, ?Hdebug; cbn [negb]; run_simpl; walk env).
  all: rewrite ?Hest, ?Hfee, ?Hdebug; cbn [negb]; run_simpl.
  all: intros [= <- <- <- <-] Hin; cbn in Hin.
  all: repeat (destruct Hin as [Hin|Hin]; [try discriminate|]); try contradiction.
  all: injection Hin as <- <- <-.
  all: first
         [ eexists _, _, [_; _], _; split; [reflexivity|]
         | eexists _, _, [_; _; _], _; split; [reflexivity|] ].
  all: split; [reflexivity|intros ->; cbn; lia].
Qed.

End Modes.

Lemma debug_mode_builds_and_stops_witness :
  Forall (fun i => is_sign (io_call i) = false /\ is_send (io_call i) = false)
    Simulation.debug_trace.
Proof.
  refine (proj1 (debug_mode_builds_and_stops Simulation.gateway
                   "0xWallet" (PyInt 0) [] Simulation.gas_table
                   (Simulation.an_order true true true (PyInt 0))
                   (Simulation.an_order true false true (PyInt 0))
                   Simulation.genesis _ _ _ _ _ _ _ _
                   eq_refl eq_refl eq_refl eq_refl eq_refl _ _));
    vm_compute; reflexivity.
Defined.

(** C2, the claim as stated fails. In debug mode the run ends normally and
    nothing is signed: no signed transaction exists to compare with the one
    live mode sends. *)
Lemma debug_mode_does_not_sign :
  exists self' w',
    run Simulation.gateway
      (_submit_transaction "0xWallet" (PyInt 0) [] Simulation.gas_table
         (Simulation.an_order true true true (PyInt 0)))
      Simulation.genesis
    = (Ok tt, self', w', Simulation.debug_trace) /\
    existsb (fun i => is_sign (io_call i)) Simulation.debug_trace = false /\
    existsb (fun i => is_sign (io_call i)) Simulation.live_trace = true.
Proof.
  do 2 eexists. split; [vm_compute; reflexivity|]. split; reflexivity.
Qed.

(** The two readings of a trace that come just before the build. *)
Ltac two_readings Ht before g1 g2 :=
  let Hreads := fresh "Hreads" in
  pose proof (f_equal (map estimate_read) Ht) as Hreads;
  rewrite map_app in Hreads; vm_compute in Hreads;
  repeat (destruct before as [|? before]; vm_compute in Hreads;
          [try discriminate Hreads
          |first [discriminate Hreads | injection Hreads as _ Hreads]]);
  let H1 := fresh in
  let H2 := fresh in
  pose proof (f_equal (Trace.reading 0) Hreads) as H1;
  pose proof (f_equal (Trace.reading 1) Hreads) as H2;
  vm_compute in H1, H2; subst g1 g2; clear Hreads.

Lemma gas_ceiling_is_two_readings_summed_witness :
  (Simulation.gas_table !! "increase_order" = Some "increaseOrderGasLimit" /\
   exists before after,
     snd Scenarios.increase_submission
     = before ++ IO (estimator_call "increaseOrderGasLimit") (Ok 2500000)
              :: IO (estimator_call "increaseOrderGasLimit") (Ok 2500000)
              :: IO (multicall_build_transaction [] Scenarios.envelope_params)
                   (Ok Scenarios.envelope_raw) :: after) /\
  (Simulation.gas_table !! "decrease_order" = Some "decreaseOrderGasLimit" /\
   exists before after,
     snd Scenarios.decrease_submission
     = before ++ IO (estimator_call "decreaseOrderGasLimit") (Ok 2500000)
              :: IO (estimator_call "decreaseOrderGasLimit") (Ok 2500000)
              :: IO (multicall_build_transaction [] Scenarios.envelope_params)
                   (Ok Scenarios.envelope_raw) :: after) /\
  gas Scenarios.envelope_params = 2 * 2500000.
Proof.
  destruct (gas_ceiling_is_two_readings_summed Simulation.gateway IncreaseOrder
              "0xWallet" (PyInt 0) [] Simulation.gas_table
              (Simulation.an_order true false false (PyInt 0))
              Simulation.genesis
              (snd (fst (fst Scenarios.increase_gas_limits)))
              (snd (fst Scenarios.increase_gas_limits))
              (snd Scenarios.increase_gas_limits)
              (Ok tt)
              (snd (fst (fst Scenarios.increase_submission)))
              (snd (fst Scenarios.increase_submission))
              (snd Scenarios.increase_submission)
              ltac:(apply (run_eta Scenarios.increase_gas_limits); vm_compute; reflexivity)
              ltac:(vm_compute; reflexivity))
    as (table & e & Htab & Hkey & Hbuilt).
  destruct (gas_ceiling_is_two_readings_summed Simulation.gateway DecreaseOrder
              "0xWallet" (PyInt 0) [] Simulation.gas_table
              (Simulation.an_order true false false (PyInt 0))
              Simulation.genesis
              (snd (fst (fst Scenarios.decrease_gas_limits)))
              (snd (fst Scenarios.decrease_gas_limits))
              (snd Scenarios.decrease_gas_limits)
              (Ok tt)
              (snd (fst (fst Scenarios.decrease_submission)))
              (snd (fst Scenarios.decrease_submission))
              (snd Scenarios.decrease_submission)
              ltac:(apply (run_eta Scenarios.decrease_gas_limits); vm_compute; reflexivity)
              ltac:(vm_compute; reflexivity))
    as (table' & e' & Htab' & Hkey' & Hbuilt').
  assert (table = Simulation.gas_table) as ->.
  { destruct Htab as [Htab|[Htab|[]]]; [discriminate Htab|].
    symmetry. exact (f_equal (default table) Htab). }
  assert (table' = Simulation.gas_table) as ->.
  { destruct Htab' as [Htab'|[Htab'|[]]]; [discriminate Htab'|].
    symmetry. exact (f_equal (default table') Htab'). }
  destruct (Hbuilt [] Scenarios.envelope_params (Ok Scenarios.envelope_raw))
    as (g1 & g2 & before & after & Ht & Hsum & Htwice);
    [cbn; auto 10|].
  destruct (Hbuilt' [] Scenarios.envelope_params (Ok Scenarios.envelope_raw))
    as (g1' & g2' & before' & after' & Ht' & Hsum' & Htwice');
    [cbn; auto 10|].
  two_readings Ht before g1 g2.
  two_readings Ht' before' g1' g2'.
  assert (He : e = "increaseOrderGasLimit")
    by (vm_compute in Hkey; injection Hkey as <-; reflexivity).
  assert (He' : e' = "decreaseOrderGasLimit")
    by (vm_compute in Hkey'; injection Hkey' as <-; reflexivity).
  rewrite He in Hkey, Ht. rewrite He' in Hkey', Ht'.
  split; [split; [exact Hkey|eauto]|].
  split; [split; [exact Hkey'|eauto]|].
  exact (Htwice eq_refl).
Defined.

(** C8, the claim as stated fails. The gas limit of the data store is
    raised between the two readings of the estimator of a decrease order:
    the readings are 2500000 and 2600000, and the gas of the envelope is
    5100000, which is twice neither. *)
Lemma gas_ceiling_of_a_changing_estimate :
  run Scenarios.drifting
    (determine_gas_limits DecreaseOrder (Simulation.an_order true false false (PyInt 0)))
    Simulation.genesis
  = Scenarios.drifting_gas_limits /\
  fst (fst (fst Scenarios.drifting_gas_limits)) = Ok tt /\
  run Scenarios.drifting
    (_submit_transaction "0xWallet" (PyInt 0) [] Simulation.gas_table
       (snd (fst (fst Scenarios.drifting_gas_limits))))
    (snd (fst Scenarios.drifting_gas_limits))
  = Scenarios.drifting_submission /\
  map estimate_read (snd Scenarios.drifting_submission)
  = [None; None; Some ("decreaseOrderGasLimit", 2500000);
     Some ("decreaseOrderGasLimit", 2600000); None; None; None] /\
  (exists p raw,
     map multicall_built (snd Scenarios.drifting_submission)
     = [None; None; None; None; Some ([], p, raw); None; None] /\
     gas p = 5100000 /\
     forall e base,
       In (Some (e, base)) (map estimate_read (snd Scenarios.drifting_submission)) ->
       gas p <> 2 * base).
Proof.
  split; [vm_compute; reflexivity|]. split; [reflexivity|].
  split; [vm_compute; reflexivity|]. split; [reflexivity|].
  do 2 eexists. split; [reflexivity|]. split; [reflexivity|].
  intros e base Hin. cbn in Hin.
  repeat (destruct Hin as [Hin|Hin]; [try discriminate Hin|]); try contradiction.
  all: injection Hin as _ <-; cbn; lia.
Qed.

End submit_facts.

(** ** The allowance check (approve_token_for_spend.py) *)
Module approve_facts.
Import Py Eff Collaborators gmx_utils approve_token_for_spend Eff_facts.
Import submit_facts.

(** One more step of a run of [check_if_approved]. *)
Ltac approve_walk env :=
  first
    [ run_case env
    | match goal with
      | |- context [match ?e with AttributeError _ => _ | _ => _ end] =>
          is_var e; destruct e; run_simpl
      | |- context [decide (?a = ?b)] => destruct (decide (a = b)); run_simpl
      | |- context [?a <? ?b] =>
          let H := fresh "Hlt" in destruct (a <? b) eqn:H;
          [apply Z.ltb_lt in H | apply Z.ltb_ge in H]; cbn [andb negb]; run_simpl
      | |- context [if ?b then _ else _] => is_var b; destruct b; cbn [andb negb]; run_simpl
      | |- context [int ?x] => destruct (int x); run_simpl
      | |- context [raw_bytes ?x] => destruct (raw_bytes x); run_simpl
      end ].

(** The token after the remapping of the legacy address is any address. *)
Ltac any_token tok :=
  match goal with
  | |- context [if decide (?t = ?legacy) then ?canonical else ?t] =>
      generalize (if decide (t = legacy) then canonical else t); intros tok
  end.

Lemma no_step_no_send (t : trace) :
  Forall (fun i => is_step i = false) t -> sends t = 0%nat.
Proof.
  unfold sends. induction 1 as [|i t Hi _ IH]; [reflexivity|].
  cbn [List.filter]. unfold is_step, is_transaction_step in Hi.
  destruct (is_send (io_call i)) eqn:Hs; [|exact IH].
  rewrite orb_true_r in Hi. discriminate.
Qed.

Lemma sends_app (t1 t2 : trace) : sends (t1 ++ t2) = (sends t1 + sends t2)%nat.
Proof. unfold sends. rewrite List.filter_app, length_app. reflexivity. Qed.

Section Run.
Context {W : Type} (env : environment call W).

(** A call of [check_if_approved] sends at most one transaction. *)
Lemma check_if_approved_sends_once config spender token amount fee approve w r s' w' t :
  run env (check_if_approved config spender token amount fee approve tt) w
  = (r, s', w', t) ->
  (sends t <= 1)%nat.
Proof.
  unfold check_if_approved, wallet_balance, create_connection.
  any_token tok. run_simpl.
  repeat (approve_walk env); intros [= <- <- <- <-]; vm_compute; lia.
Qed.

(** With a balance and an allowance that cover the amount, the call
    returns normally and no transaction is built, signed or sent. *)
Lemma check_if_approved_noop config spender token amount fee approve w r s' w' t :
  run env (check_if_approved config spender token amount fee approve tt) w
  = (r, s', w', t) ->
  sufficient amount t ->
  r = Ok tt /\ Forall (fun i => is_step i = false) t.
Proof.
  unfold check_if_approved, wallet_balance, create_connection, sufficient.
  any_token tok. run_simpl.
  repeat (approve_walk env); intros [= <- <- <- <-];
    intros [(b & Hb & Hbal) (al & Hal & Hall)]; cbn in Hb, Hal;
    try (exfalso; intuition (try discriminate; try congruence; try lia); fail).
  all: try (split; [reflexivity|repeat constructor]).
  all: exfalso; intuition (try discriminate);
    repeat match goal with H : Some _ = Some _ |- _ => injection H as -> end; lia.
Qed.

(** C9. A call of [check_if_approved] that reads a balance and an allowance
    of at least the required amount returns normally, and builds, signs and
    sends nothing. So two calls in a row with the same arguments send at
    most one approval, once the second call reads such an allowance. *)
Theorem sufficient_allowance_is_a_noop config spender token amount fee approve
    w r s' w' t :
  run env (check_if_approved config spender token amount fee approve tt) w
  = (r, s', w', t) ->
  sufficient amount t ->
  r = Ok tt /\
  Forall (fun i => is_step i = false) t /\
  forall w0 r0 s0 t0,
    run env (check_if_approved config spender token amount fee true tt) w0
    = (r0, s0, w, t0) ->
    (sends (t0 ++ t) <= 1)%nat.
Proof.
  intros Hrun Hsuff.
  destruct (check_if_approved_noop _ _ _ _ _ _ _ _ _ _ _ Hrun Hsuff) as [Hr Hquiet].
  split; [exact Hr|]. split; [exact Hquiet|].
  intros w0 r0 s0 t0 Hfirst.
  apply check_if_approved_sends_once in Hfirst.
  rewrite sends_app, (no_step_no_send t Hquiet). lia.
Qed.

End Run.

Lemma sufficient_allowance_is_a_noop_witness :
  sends (snd Simulation.first_approval) = 1%nat /\
  (sends (snd Simulation.first_approval ++ snd Simulation.second_approval) <= 1)%nat.
Proof.
  split; [reflexivity|].
  refine (proj2 (proj2 (sufficient_allowance_is_a_noop Simulation.gateway
                          Simulation.config "0xRouter" Simulation.USDC 500
                          (PyInt 135000000) true
                          (snd (fst Simulation.first_approval))
                          (Ok tt) tt (snd (fst Simulation.second_approval))
                          (snd Simulation.second_approval) _ _))
            Simulation.genesis (Ok tt) tt (snd Simulation.first_approval) _).
  - vm_compute. reflexivity.
  - split; [exists 1000|exists 500]; (split; [vm_compute; auto 10|lia]).
  - vm_compute. reflexivity.
Defined.

End approve_facts.


(** ** The argument parser (order_argument_parser.py) *)
Module parser_facts.
Import Py Eff Collaborators gmx_utils order_argument_parser Eff_facts.

(** *** Python arithmetic on floats *)

(** The product of a float and a number is a float. *)
Lemma mul_float (f : Float64.float) (x y : pyval) :
  mul (PyFloat f) x = Ok y -> exists g, y = PyFloat g.
Proof.
  unfold mul, arith. cbn. destruct (as_number x) as [[z|g]|]; try discriminate.
  - destruct (float_of_int z); cbn; [|discriminate]. intros [= <-]. eauto.
  - intros [= <-]. eauto.
Qed.

(** A float is below 2 or not; it is at least 2 when it is not below 2 and
    is a number. *)
Lemma lt_2_total (f : Float64.float) : exists b, lt (PyFloat f) (PyInt 2) = Ok b.
Proof. cbn. eauto. Qed.

Lemma not_below_2 (f : Float64.float) :
  lt (PyFloat f) (PyInt 2) = Ok false ->
  Float64.is_nan f = false ->
  le (PyInt 2) (PyFloat f) = Ok true.
Proof.
  cbn. destruct (compare_float_int f 2) as [[]|] eqn:Hc; intros H1 H2;
    try discriminate; try reflexivity.
  destruct f; cbn in *; discriminate.
Qed.

Lemma at_least_2 (f : Float64.float) :
  le (PyInt 2) (PyFloat f) = Ok true -> lt (PyFloat f) (PyInt 2) = Ok false.
Proof. cbn. destruct (compare_float_int f 2) as [[]|]; congruence. Qed.

Lemma below_2 (f : Float64.float) :
  lt (PyFloat f) (PyInt 2) = Ok true -> le (PyInt 2) (PyFloat f) = Ok false.
Proof. cbn. destruct (compare_float_int f 2) as [[]|]; congruence. Qed.

Section Run.
Context {W : Type} (env : environment call W) (elided : elided_methods).

(** *** The accessors of the parameter dictionary *)

Lemma run_deref r d st (w : W) :
  heap st !! r = Some d ->
  run env (deref r st) w = (Ok d, st, w, []).
Proof. intros H. unfold deref. run_simpl. rewrite H. reflexivity. Qed.

Lemma run_param k r d st (w : W) :
  parameters_dict (self st) = Some r ->
  heap st !! r = Some d ->
  run env (param k st) w = (getitem d k, st, w, []).
Proof.
  intros Hr Hd. unfold param, the_parameters_dict. run_simpl. rewrite Hr.
  run_simpl. rewrite (run_deref r d) by exact Hd. run_simpl.
  destruct (getitem d k); reflexivity.
Qed.

Lemma run_set_param k v r d st (w : W) :
  parameters_dict (self st) = Some r ->
  heap st !! r = Some d ->
  run env (set_param k v st) w = (Ok tt, store r (<[k := v]> d) st, w, []).
Proof.
  intros Hr Hd. unfold set_param, the_parameters_dict. run_simpl. rewrite Hr.
  run_simpl. rewrite (run_deref r d) by exact Hd. run_simpl. reflexivity.
Qed.

(** [get_tokens_address_dict] leaves the objects of the program as they
    are, and makes no transaction step. *)
Lemma run_get_tokens_address_dict {S} chain (w : W) :
  exists res w1 t1,
    (forall s : S, run env (get_tokens_address_dict chain s) w = (res, s, w1, t1)) /\
    Forall (fun i => is_step i = false) t1.
Proof.
  unfold get_tokens_address_dict.
  destruct (getitem_val tokens_url chain) as [url|e] eqn:Hurl.
  - destruct (env _ (requests_get_tokens url) w) as [[infos|e] w1] eqn:E.
    + exists (index_by_address infos ∅), w1, [IO (requests_get_tokens url) (Ok infos)].
      split; [|repeat constructor]. intros s. run_simpl.
      rewrite E. run_simpl. destruct (index_by_address infos ∅); reflexivity.
    + destruct e.
      7: { exists (Ok ∅), w1, [IO (requests_get_tokens url) (Raise (RequestException msg))].
           split; [|repeat constructor]. intros s. run_simpl.
           rewrite E. run_simpl. reflexivity. }
      all: eexists (Raise _), w1, [IO (requests_get_tokens url) (Raise _)].
      all: split; [|repeat constructor]; intros s; run_simpl.
      all: rewrite E; run_simpl; reflexivity.
  - destruct e.
    7: { exists (Ok ∅), w, []. split; [|constructor]. intros s. run_simpl.
         reflexivity. }
    all: eexists (Raise _), w, []; split; [|constructor]; intros s; run_simpl.
    all: reflexivity.
Qed.

(** *** The parser stays at work on the dictionary it was passed *)
Section Invariant.
Context (p : parser) (r : ref) (h0 : gmap ref pydict).

Lemma at_work_store st d :
  at_work p r h0 st -> at_work p r h0 (store r d st).
Proof.
  intros (Hs & Hr & Hd & Ho). split; [exact Hs|]. split; [exact Hr|]. split.
  - cbn. rewrite lookup_insert_eq. exists d. reflexivity.
  - intros r' Hne. cbn. rewrite lookup_insert_ne by congruence. apply Ho. exact Hne.
Qed.

Lemma steady_bind {A B} (m : prog A) (f : A -> prog B) :
  steady env p r h0 m -> (forall a, steady env p r h0 (f a)) ->
  steady env p r h0 (m ≫= f).
Proof.
  intros Hm Hf st w res st' w' t Hst. rewrite run_bind.
  destruct (run env (m st) w) as [[[ra s1] w1] t1] eqn:E.
  specialize (Hm _ _ _ _ _ _ Hst E). destruct ra as [a|e].
  - destruct (run env (f a s1) w1) as [[[rb s2] w2] t2] eqn:E2.
    intros [= <- <- <- <-]. exact (Hf a _ _ _ _ _ _ Hm E2).
  - intros [= <- <- <- <-]. exact Hm.
Qed.

Lemma steady_try_except {A} (m : prog A) (h : exn -> option (prog A)) :
  steady env p r h0 m -> (forall e k, h e = Some k -> steady env p r h0 k) ->
  steady env p r h0 (try_except m h).
Proof.
  intros Hm Hh st w res st' w' t Hst. rewrite run_try_except.
  destruct (run env (m st) w) as [[[ra s1] w1] t1] eqn:E.
  specialize (Hm _ _ _ _ _ _ Hst E). destruct ra as [a|e].
  - intros [= <- <- <- <-]. exact Hm.
  - destruct (h e) as [k|] eqn:Hk.
    + destruct (run env (k s1) w1) as [[[rb s2] w2] t2] eqn:E2.
      intros [= <- <- <- <-]. exact (Hh e k Hk _ _ _ _ _ _ Hm E2).
    + intros [= <- <- <- <-]. exact Hm.
Qed.

Lemma steady_ret {A} (a : A) : steady env p r h0 (mret a).
Proof. intros st w res st' w' t Hst [= <- <- <- <-]. exact Hst. Qed.

Lemma steady_raise {A} e : steady env p r h0 (raise (A := A) e).
Proof. intros st w res st' w' t Hst [= <- <- <- <-]. exact Hst. Qed.

Lemma steady_lift {A} (x : result A) : steady env p r h0 (lift x).
Proof. intros st w res st' w' t Hst [= <- <- <- <-]. exact Hst. Qed.

Lemma steady_get : steady env p r h0 get.
Proof. intros st w res st' w' t Hst [= <- <- <- <-]. exact Hst. Qed.

Lemma steady_trigger {X} (c : call X) : steady env p r h0 (trigger c).
Proof.
  intros st w res st' w' t Hst. rewrite run_trigger.
  destruct (env X c w). intros [= <- <- <- <-]. exact Hst.
Qed.

Lemma steady_param k : steady env p r h0 (param k).
Proof.
  intros st w res st' w' t Hst. pose proof Hst as (Hs & Hr & [d Hd] & _).
  rewrite (run_param k r d) by (rewrite ?Hs; assumption).
  intros [= <- <- <- <-]. exact Hst.
Qed.

Lemma steady_set_param k v : steady env p r h0 (set_param k v).
Proof.
  intros st w res st' w' t Hst. pose proof Hst as (Hs & Hr & [d Hd] & _).
  rewrite (run_set_param k v r d) by (rewrite ?Hs; assumption).
  intros [= <- <- <- <-]. apply at_work_store, Hst.
Qed.

Lemma steady_get_tokens_address_dict chain :
  steady env p r h0 (get_tokens_address_dict chain).
Proof.
  intros st w res st' w' t Hst.
  destruct (run_get_tokens_address_dict (S := state) chain w) as (x & w1 & t1 & -> & _).
  intros [= <- <- <- <-]. exact Hst.
Qed.

Lemma steady_invoke (m : dict_method) : steady env p r h0 (invoke m).
Proof.
  intros st w res st' w' t Hst. pose proof Hst as (Hs & Hr & [d Hd] & _).
  unfold invoke. rewrite Hs, Hr, Hd, run_free_bind.
  destruct (run env (m p d) w) as [[[x d'] w1] t1]. cbn.
  intros [= <- <- <- <-]. apply at_work_store, Hst.
Qed.

Lemma steady_for_each {X} (l : list X) (body : X -> prog unit) :
  (forall x, steady env p r h0 (body x)) -> steady env p r h0 (for_each l body).
Proof.
  intros Hbody. induction l as [|x l IH]; cbn [for_each].
  - apply steady_ret.
  - apply steady_bind; [apply Hbody|intros _; exact IH].
Qed.

End Invariant.

Create HintDb steady.
#[local] Hint Resolve steady_ret steady_raise steady_lift steady_get steady_trigger
  steady_param steady_set_param steady_get_tokens_address_dict steady_invoke : steady.

(** Builds a proof of [steady] along the structure of a program. *)
Ltac steadily :=
  repeat first
    [ progress eauto with steady
    | apply steady_bind; [|intros ?]
    | apply steady_try_except; [|intros ? ? ?]
    | apply steady_for_each; intros ?
    | match goal with
      | |- steady _ _ _ _ (match ?x with _ => _ end) => destruct x eqn:?
      | |- steady _ _ _ _ (let '(_, _) := ?x in _) => destruct x
      | H : match ?e with _ => _ end = Some _ |- _ => destruct e; try discriminate
      | H : Some _ = Some _ |- _ => injection H as <-
      end ].

Lemma steady_missing_base_key_method p r h0 key m :
  missing_base_key_methods elided key = Some m -> steady env p r h0 m.
Proof.
  unfold missing_base_key_methods. intros H.
  repeat match type of H with
         | match ?x with _ => _ end = Some _ => destruct x; try discriminate
         end.
  all: injection H as <-.
  all: unfold _handle_missing_chain, _handle_missing_index_token_address,
         _handle_missing_market_key; steadily.
Qed.

Lemma steady_check_minimum_collateral p r h0 :
  steady env p r h0 check_minimum_collateral.
Proof.
  unfold check_minimum_collateral, _calculate_initial_collateral_usd. steadily.
Qed.


(** *** Missing keys *)

Lemma run_determine_missing_keys r st (w : W) :
  run env (_determine_missing_keys r st) w
  = (match required_keys (self st) with
     | None => Raise (AttributeError "required_keys")
     | Some keys =>
         match heap st !! r with
         | Some d => Ok (filter (fun key => d !! key = None) keys)
         | None => Raise (Unmodelled "dangling reference")
         end
     end, st, w, []).
Proof.
  unfold _determine_missing_keys, deref. run_simpl.
  destruct (required_keys (self st)); run_simpl; [|reflexivity].
  destruct (heap st !! r); reflexivity.
Qed.

(** After [fill_missing_parameters] the parser is at work on the dictionary
    it was passed: the handlers, those the file leaves out included, update
    that dictionary and nothing else. *)
Lemma fill_missing_parameters_at_work r d st (w : W) st0 w0 t0 :
  heap st !! r = Some d ->
  run env (fill_missing_parameters elided r st) w = (Ok tt, st0, w0, t0) ->
  at_work (self (set_parameters_dict r st)) r (heap st) st0.
Proof.
  intros Hd. unfold fill_missing_parameters.
  rewrite run_bind, run_determine_missing_keys, Hd.
  destruct (required_keys (self st)) as [keys|]; [|discriminate].
  rewrite run_bind, run_get, run_bind, run_put.
  assert (Hst : at_work (self (set_parameters_dict r st)) r (heap st)
                  (set_parameters_dict r st)).
  { split; [reflexivity|]. split; [reflexivity|]. split; [exists d; exact Hd|].
    reflexivity. }
  match goal with
  | |- context [run env (?m (set_parameters_dict r st)) w] =>
      assert (Hm : steady env (self (set_parameters_dict r st)) r (heap st) m);
      [|destruct (run env (m (set_parameters_dict r st)) w) as [[[x s1] w1] t1] eqn:E;
        apply (Hm _ _ _ _ _ _ Hst) in E]
  end.
  { steadily. eapply steady_missing_base_key_method. eassumption. }
  intros [= _ <- _ _]. exact E.
Qed.

(** A swap request that has every required key is left as it is: no
    handler runs, the ones the file leaves out included. *)
Lemma fill_missing_parameters_complete_swap r d st (w : W) keys :
  heap st !! r = Some d ->
  required_keys (self st) = Some keys ->
  Forall (fun key => is_Some (d !! key)) keys ->
  is_swap (self st) = true ->
  run env (fill_missing_parameters elided r st) w
  = (Ok tt, set_parameters_dict r st, w, []).
Proof.
  intros Hd Hkeys Hall Hswap. unfold fill_missing_parameters.
  rewrite run_bind, run_determine_missing_keys, Hd, Hkeys.
  assert (Hnone : filter (fun key => d !! key = None) keys = []).
  { clear Hkeys. induction Hall as [|key keys [v Hv] _ IH]; [reflexivity|].
    rewrite filter_cons_False by congruence. exact IH. }
  rewrite Hnone. run_simpl. cbn [for_each]. run_simpl. cbn [self set_parameters_dict is_swap].
  rewrite Hswap. reflexivity.
Qed.

(** A parser built for one of the three kinds requires [chain] first. *)
Lemma __init___requires_chain config is_increase is_decrease is_swap
    (w0 : W) p w1 t0 :
  run env (__init__ config is_increase is_decrease is_swap tt) w0 = (Ok p, tt, w1, t0) ->
  is_increase || is_decrease || is_swap = true ->
  exists keys, required_keys p = Some ("chain" :: keys).
Proof.
  unfold __init__. run_simpl. run_case env; [|discriminate].
  intros [= <- _ _] Hkind.
  destruct is_increase; [cbn; eauto|]. destruct is_decrease; [cbn; eauto|].
  destruct is_swap; [cbn; eauto|discriminate].
Qed.

(** C7. A parser built for any of the three order kinds rejects a
    dictionary without [chain] with the exception of
    [_handle_missing_chain]: it makes no call, leaves the dictionary as it
    was, and runs no other handler, whatever the other fields are. *)
Theorem missing_chain_is_rejected config is_increase is_decrease is_swap
    (w0 : W) p w1 t0 (h : gmap ref pydict) (r : ref) (d : pydict) (w : W) :
  run env (__init__ config is_increase is_decrease is_swap tt) w0 = (Ok p, tt, w1, t0) ->
  is_increase || is_decrease || is_swap = true ->
  h !! r = Some d ->
  d !! "chain" = None ->
  run env (process_parameters_dictionary elided r {| self := p; heap := h |}) w
  = (Raise (Exception "Please pass chain name in parameters dictionary!"),
     set_parameters_dict r {| self := p; heap := h |}, w, []).
Proof.
  intros Hinit Hkind Hd Hchain.
  destruct (__init___requires_chain _ _ _ _ _ _ _ _ Hinit Hkind) as [keys Hkeys].
  unfold process_parameters_dictionary, fill_missing_parameters.
  rewrite !run_bind, run_determine_missing_keys. cbn [self heap].
  rewrite Hkeys, Hd. rewrite filter_cons_True by exact Hchain.
  run_simpl. cbn [for_each]. run_simpl. reflexivity.
Qed.


(** *** The collateral check *)

Lemma getitem_Ok {V} (d : gmap string V) k v : getitem d k = Ok v -> d !! k = Some v.
Proof. unfold getitem. destruct (d !! k); congruence. Qed.

(** One more step of a run of the parser on the dictionary [d] at [r]. *)
Ltac parser_step env r d :=
  first
    [ rewrite (run_param _ r d) by assumption
    | match goal with
      | |- context [run env (get_tokens_address_dict ?chain _) ?w] =>
          let Htok := fresh "Htok" in let Hquiet := fresh "Hquiet" in
          destruct (run_get_tokens_address_dict (S := state) chain w)
            as (? & ? & ? & Htok & Hquiet);
          rewrite Htok
      | |- context [env ?X ?c ?w] =>
          let E := fresh "E" in destruct (env X c w) as [[?|?] ?] eqn:E
      | |- context [match ?x with Ok _ => _ | Raise _ => _ end] =>
          first [ match goal with H : x = _ |- _ => rewrite H end
                | let E := fresh "E" in destruct x eqn:E ]
      end ]; run_simpl.

(** The calls of a trace are no transaction steps. *)
Ltac quiet :=
  rewrite ?app_nil_r;
  repeat first [ assumption | apply Forall_app_2 | constructor ].

Lemma run_calculate_initial_collateral_usd r d st (w : W) :
  parameters_dict (self st) = Some r ->
  heap st !! r = Some d ->
  exists res w1 t1,
    run env (_calculate_initial_collateral_usd st) w = (res, st, w1, t1) /\
    Forall (fun i => is_step i = false) t1 /\
    forall usd, res = Ok usd ->
      exists amount chain a prices tokens hi lo decimals factor scale price,
        d !! "initial_collateral_delta" = Some amount /\
        d !! "chain" = Some chain /\
        d !! "start_token_address" = Some a /\
        In (IO (get_recent_prices chain) (Ok prices)) t1 /\
        (exists w2 w3 t3, forall s : state,
            run env (get_tokens_address_dict chain s) w2 = (Ok tokens, s, w3, t3)) /\
        (q ← getitem_val prices a; v ← getitem q "maxPriceFull"; to_float v) = Ok hi /\
        (q ← getitem_val prices a; v ← getitem q "minPriceFull"; to_float v) = Ok lo /\
        (info ← getitem_val tokens a; getitem info "decimals") = Ok decimals /\
        sub decimals (PyInt 30) = Ok factor /\
        pow10 factor = Ok scale /\
        mul (PyFloat (Float64.median2 hi lo)) scale = Ok price /\
        mul price amount = Ok usd.
Proof.
  intros Hr Hd. unfold _calculate_initial_collateral_usd. run_simpl.
  repeat (parser_step env r d).
  all: do 3 eexists; split; [reflexivity|]; split; [quiet|].
  all: intros usd Husd; try discriminate; injection Husd as <-.
  match goal with
  | H : (pow10 ?f ≫= _) = Ok _ |- _ =>
      destruct (pow10 f) as [scale|] eqn:Hscale; [cbn in H|discriminate]
  end.
  repeat match goal with H : getitem d _ = Ok _ |- _ => apply getitem_Ok in H end.
  do 11 eexists. repeat split; try eassumption.
  - left. reflexivity.
  - do 3 eexists. eassumption.
Qed.

(** *** Formatting *)

Lemma heap_store r d st : heap (store r d st) !! r = Some d.
Proof. cbn. apply lookup_insert_eq. Qed.

(** One more step of a run of [_format_size_info], which updates the
    dictionary as it goes. *)
Ltac format_step env :=
  first
    [ erewrite run_param by (first [eassumption | apply heap_store])
    | erewrite run_set_param by (first [eassumption | apply heap_store])
    | match goal with
      | |- context [run env (get_tokens_address_dict ?chain _) ?w] =>
          let Htok := fresh "Htok" in let Hquiet := fresh "Hquiet" in
          destruct (run_get_tokens_address_dict (S := state) chain w)
            as (? & ? & ? & Htok & Hquiet);
          rewrite Htok
      | |- context [match ?x with Ok _ => _ | Raise _ => _ end] =>
          first [ match goal with H : x = _ |- _ => rewrite H end
                | let E := fresh "E" in destruct x eqn:E ]
      end ]; run_simpl.

Lemma run_format_size_info r d st (w : W) :
  parameters_dict (self st) = Some r ->
  heap st !! r = Some d ->
  exists res st' w1 t1,
    run env (_format_size_info st) w = (res, st', w1, t1) /\
    Forall (fun i => is_step i = false) t1 /\
    (res = Ok tt ->
     exists sized chain a tokens decimals old scale v scaled,
       (if is_swap (self st) then sized = d
        else exists size_delta_usd v' size_delta,
            d !! "size_delta_usd" = Some size_delta_usd /\
            mul size_delta_usd (PyInt (10 ^ 30)) = Ok v' /\
            int v' = Ok size_delta /\
            sized = <["size_delta" := PyInt size_delta]> d) /\
       sized !! "chain" = Some chain /\
       sized !! "start_token_address" = Some a /\
       (exists w2, forall s : state,
           run env (get_tokens_address_dict chain s) w2 = (Ok tokens, s, w1, t1)) /\
       (info ← getitem_val tokens a; getitem info "decimals") = Ok decimals /\
       sized !! "initial_collateral_delta" = Some old /\
       pow10 decimals = Ok scale /\
       mul old scale = Ok v /\
       int v = Ok scaled /\
       self st' = self st /\
       heap st' = <[r := <["initial_collateral_delta" := PyInt scaled]> sized]> (heap st)).
Proof.
  intros Hr Hd. unfold _format_size_info. run_simpl.
  destruct (is_swap (self st)) eqn:Hswap; cbn [negb]; run_simpl.
  all: repeat (format_step env).
  all: do 4 eexists; split; [reflexivity|]; split; [quiet|].
  all: intros Hres; try discriminate.
  all: repeat match goal with
         | H : (pow10 ?x ≫= _) = Ok _ |- _ =>
             destruct (pow10 x) eqn:?; [cbn in H|discriminate H]
         | H : (mul ?x ?y ≫= _) = Ok _ |- _ =>
             destruct (mul x y) eqn:?; [cbn in H|discriminate H]
         | H : getitem _ _ = Ok _ |- _ => apply getitem_Ok in H
         end.
  - do 9 eexists. split; [reflexivity|].
    repeat split; try eassumption.
    all: try (eexists; rewrite app_nil_r; eassumption).
  - do 9 eexists. split; [do 3 eexists; repeat split; eassumption|].
    repeat split; try eassumption.
    all: try (eexists; rewrite app_nil_r; eassumption).
    all: cbn; rewrite insert_insert_eq; reflexivity.
Qed.

(** *** The whole of [process_parameters_dictionary] *)

(** After the missing parameters are filled in, the result is that of the
    collateral check and of the formatting. *)
Lemma run_process_parameters_dictionary r st (w : W) st0 w0 t0 :
  run env (fill_missing_parameters elided r st) w = (Ok tt, st0, w0, t0) ->
  run env (process_parameters_dictionary elided r st) w
  = let '(cr, s1, w1, t1) := run env (check_minimum_collateral st0) w0 in
    match cr with
    | Raise e => (Raise e, s1, w1, t0 ++ t1)
    | Ok _ =>
        let '(fr, s2, w2, t2) := run env (_format_size_info s1) w1 in
        match fr with
        | Raise e => (Raise e, s2, w2, t0 ++ t1 ++ t2)
        | Ok _ => (Ok (parameters_dict (self s2)), s2, w2, t0 ++ t1 ++ t2)
        end
    end.
Proof.
  intros Hfill. unfold process_parameters_dictionary.
  rewrite run_bind, Hfill, run_bind.
  destruct (run env (check_minimum_collateral st0) w0) as [[[[[]|e] s1] w1] t1];
    [|reflexivity].
  rewrite run_bind.
  destruct (run env (_format_size_info s1) w1) as [[[[[]|e] s2] w2] t2];
    [|reflexivity].
  run_simpl. rewrite app_nil_r. reflexivity.
Qed.

(** The collateral check of an increase order is the comparison of the
    value [_calculate_initial_collateral_usd] returns with 2. *)
Lemma run_check_minimum_collateral st (w : W) cres w1 t1 :
  is_increase (self st) = true ->
  run env (_calculate_initial_collateral_usd st) w = (cres, st, w1, t1) ->
  run env (check_minimum_collateral st) w
  = (match cres with
     | Raise e => Raise e
     | Ok usd =>
         match lt usd (PyInt 2) with
         | Raise e => Raise e
         | Ok true => Raise (Exception "Position size must be backed by >$2 of collateral!")
         | Ok false => Ok tt
         end
     end, st, w1, t1).
Proof.
  intros Hinc Hcalc. unfold check_minimum_collateral.
  rewrite run_bind, run_get, Hinc, run_bind, Hcalc.
  destruct cres as [usd|e]; [|reflexivity].
  rewrite run_bind, run_lift. destruct (lt usd (PyInt 2)) as [[]|e]; run_simpl;
    rewrite ?app_nil_r; reflexivity.
Qed.

(** The collateral check reads: it leaves the parser and the dictionary as
    they are and makes no transaction step. *)
Lemma check_minimum_collateral_reads r d st (w : W) res s1 w1 t1 :
  parameters_dict (self st) = Some r ->
  heap st !! r = Some d ->
  run env (check_minimum_collateral st) w = (res, s1, w1, t1) ->
  s1 = st /\ Forall (fun i => is_step i = false) t1.
Proof.
  intros Hr Hd.
  destruct (is_increase (self st)) eqn:Hinc.
  - destruct (run_calculate_initial_collateral_usd r d st w Hr Hd)
      as (cres & w2 & t2 & Hcalc & Hquiet & _).
    rewrite (run_check_minimum_collateral _ _ _ _ _ Hinc Hcalc).
    intros [= _ <- _ <-]. split; [reflexivity|exact Hquiet].
  - unfold check_minimum_collateral. rewrite run_bind, run_get, Hinc. run_simpl.
    intros [= _ <- _ <-]. split; [reflexivity|constructor].
Qed.

(** C6, as the code has it. For an increase order whose missing parameters
    were filled in, [process_parameters_dictionary] computes the collateral
    value with reads only: the median of the oracle's bid and ask for the
    start token, times 10^(decimals - 30), times the collateral delta, a
    float. When that float is below 2 the run ends there with the
    collateral exception, before any formatting and without any transaction
    step. When it is at least 2 the check passes, and the outcome is that
    of the formatting. A float that is a number is one or the other, so
    that a request that resolves with such a value has one of at least 2.
    An exception of the valuation itself is passed on. *)
Theorem minimum_collateral_is_enforced r d st (w : W) st0 w0 t0 :
  is_increase (self st) = true ->
  heap st !! r = Some d ->
  run env (fill_missing_parameters elided r st) w = (Ok tt, st0, w0, t0) ->
  exists d0 cres w1 t1,
    heap st0 !! r = Some d0 /\
    run env (_calculate_initial_collateral_usd st0) w0 = (cres, st0, w1, t1) /\
    Forall (fun i => is_step i = false) t1 /\
    (forall e, cres = Raise e ->
       run env (process_parameters_dictionary elided r st) w
       = (Raise e, st0, w1, t0 ++ t1)) /\
    forall usd, cres = Ok usd ->
      (exists amount chain a prices tokens hi lo decimals factor scale price,
          d0 !! "initial_collateral_delta" = Some amount /\
          d0 !! "chain" = Some chain /\
          d0 !! "start_token_address" = Some a /\
          In (IO (get_recent_prices chain) (Ok prices)) t1 /\
          (exists w2 w3 t3, forall s : state,
              run env (get_tokens_address_dict chain s) w2 = (Ok tokens, s, w3, t3)) /\
          (q ← getitem_val prices a; v ← getitem q "maxPriceFull"; to_float v) = Ok hi /\
          (q ← getitem_val prices a; v ← getitem q "minPriceFull"; to_float v) = Ok lo /\
          (info ← getitem_val tokens a; getitem info "decimals") = Ok decimals /\
          sub decimals (PyInt 30) = Ok factor /\
          pow10 factor = Ok scale /\
          mul (PyFloat (Float64.median2 hi lo)) scale = Ok price /\
          mul price amount = Ok usd) /\
      exists f,
        usd = PyFloat f /\
        (lt usd (PyInt 2) = Ok true ->
         run env (process_parameters_dictionary elided r st) w
         = (Raise (Exception "Position size must be backed by >$2 of collateral!"),
            st0, w1, t0 ++ t1)) /\
        (le (PyInt 2) usd = Ok true ->
         run env (check_minimum_collateral st0) w0 = (Ok tt, st0, w1, t1) /\
         run env (process_parameters_dictionary elided r st) w
         = let '(fr, s2, w2, t2) := run env (_format_size_info st0) w1 in
           match fr with
           | Raise e => (Raise e, s2, w2, t0 ++ t1 ++ t2)
           | Ok _ => (Ok (parameters_dict (self s2)), s2, w2, t0 ++ t1 ++ t2)
           end) /\
        (Float64.is_nan f = false ->
         (exists below,
             lt usd (PyInt 2) = Ok below /\ le (PyInt 2) usd = Ok (negb below)) /\
         forall res st' w' t,
           run env (process_parameters_dictionary elided r st) w = (Ok res, st', w', t) ->
           le (PyInt 2) usd = Ok true).
Proof.
  intros Hinc Hd Hfill.
  pose proof (fill_missing_parameters_at_work _ _ _ _ _ _ _ Hd Hfill)
    as (Hs & Hr & [d0 Hd0] & _).
  assert (Hr0 : parameters_dict (self st0) = Some r) by (rewrite Hs; exact Hr).
  assert (Hinc0 : is_increase (self st0) = true) by (rewrite Hs; exact Hinc).
  destruct (run_calculate_initial_collateral_usd r d0 st0 w0 Hr0 Hd0)
    as (cres & w1 & t1 & Hcalc & Hquiet & Hvalue).
  exists d0, cres, w1, t1. do 3 (split; [assumption|]).
  rewrite (run_process_parameters_dictionary _ _ _ _ _ _ Hfill).
  rewrite (run_check_minimum_collateral _ _ _ _ _ Hinc0 Hcalc).
  split; [intros e ->; reflexivity|].
  intros usd ->. pose proof (Hvalue usd eq_refl) as Hv. split; [exact Hv|].
  destruct Hv as (amount & chain & a & prices & tokens & hi & lo & decimals
                  & factor & scale & price & _ & _ & _ & _ & _ & _ & _ & _ & _ & _
                  & Hprice & Husd).
  destruct (mul_float _ _ _ Hprice) as [g ->].
  destruct (mul_float _ _ _ Husd) as [f ->].
  exists f. split; [reflexivity|].
  destruct (lt_2_total f) as [[] Hlt]; rewrite Hlt.
  - split; [reflexivity|]. split.
    + intros Hle. apply at_least_2 in Hle. congruence.
    + intros _. split.
      * exists true. split; [reflexivity|]. apply below_2, Hlt.
      * intros res st' w' t. discriminate.
  - split; [discriminate|]. split.
    + intros _. split; reflexivity.
    + intros Hnan. split.
      * exists false. split; [reflexivity|]. apply not_below_2; assumption.
      * intros res st' w' t _. apply not_below_2; assumption.
Qed.

(** C10. When [process_parameters_dictionary] returns, it returns the
    reference it was passed, and the dictionary at that reference is the
    one the missing parameters were filled into, with [size_delta] set to
    [int(size_delta_usd * 10**30)] unless the order is a swap, and with
    [initial_collateral_delta] replaced by
    [int(initial_collateral_delta * 10**decimals)] for the decimals of the
    start token; no other object changes. An integer value is multiplied by
    10^decimals exactly: so is the value a first run has left, in a second
    run. For a swap with every required key, the dictionary the parameters
    were filled into is the one passed. *)
Theorem process_parameters_dictionary_in_place r d st (w : W) res st' w' t :
  heap st !! r = Some d ->
  run env (process_parameters_dictionary elided r st) w = (Ok res, st', w', t) ->
  res = Some r /\
  parameters_dict (self st') = Some r /\
  flags (self st') = flags (self st) /\
  (forall r', r' <> r -> heap st' !! r' = heap st !! r') /\
  exists st0 w0 t0 d0 sized chain a tokens decimals old scale v scaled,
    run env (fill_missing_parameters elided r st) w = (Ok tt, st0, w0, t0) /\
    heap st0 !! r = Some d0 /\
    (if is_swap (self st) then sized = d0
     else exists size_delta_usd v' size_delta,
         d0 !! "size_delta_usd" = Some size_delta_usd /\
         mul size_delta_usd (PyInt (10 ^ 30)) = Ok v' /\
         int v' = Ok size_delta /\
         sized = <["size_delta" := PyInt size_delta]> d0) /\
    sized !! "chain" = Some chain /\
    sized !! "start_token_address" = Some a /\
    (exists w2 w3 t3, forall s : state,
        run env (get_tokens_address_dict chain s) w2 = (Ok tokens, s, w3, t3)) /\
    (info ← getitem_val tokens a; getitem info "decimals") = Ok decimals /\
    sized !! "initial_collateral_delta" = Some old /\
    pow10 decimals = Ok scale /\
    mul old scale = Ok v /\
    int v = Ok scaled /\
    heap st' !! r = Some (<["initial_collateral_delta" := PyInt scaled]> sized) /\
    (forall n k, old = PyInt n -> decimals = PyInt k -> 0 <= k ->
       scaled = n * 10 ^ k) /\
    (forall keys, is_swap (self st) = true ->
       required_keys (self st) = Some keys ->
       Forall (fun key => is_Some (d !! key)) keys ->
       d0 = d).
Proof.
  intros Hd Hrun.
  destruct (run env (fill_missing_parameters elided r st) w)
    as [[[[[]|e] st0] w0] t0] eqn:Hfill.
  2: { unfold process_parameters_dictionary in Hrun.
       rewrite run_bind, Hfill in Hrun. discriminate. }
  pose proof (fill_missing_parameters_at_work _ _ _ _ _ _ _ Hd Hfill)
    as Hwork.
  rewrite (run_process_parameters_dictionary _ _ _ _ _ _ Hfill) in Hrun.
  destruct (run env (check_minimum_collateral st0) w0)
    as [[[[[]|e] s1] w1] t1] eqn:Hcheck; [|discriminate].
  destruct Hwork as (Hs & Hr & [d0 Hd0] & Ho).
  assert (Hr0 : parameters_dict (self st0) = Some r) by (rewrite Hs; exact Hr).
  destruct (check_minimum_collateral_reads r d0 _ _ _ _ _ _ Hr0 Hd0 Hcheck)
    as [-> _].
  destruct (run_format_size_info r d0 st0 w1 Hr0 Hd0)
    as (fres & s2 & w2 & t2 & Hformat & _ & Hsized).
  rewrite Hformat in Hrun. destruct fres as [[]|e]; [|discriminate].
  injection Hrun as <- <- <- <-.
  destruct (Hsized eq_refl)
    as (sized & chain & a & tokens & decimals & old & scale & v & scaled
        & Hsize & Hchain & Ha & Htok & Hdec & Hold & Hscale & Hv & Hint
        & Hself & Hheap).
  assert (Hswap : is_swap (self st0) = is_swap (self st)) by (rewrite Hs; reflexivity).
  split; [rewrite Hself; exact Hr0|]. split; [rewrite Hself; exact Hr0|].
  split; [rewrite Hself, Hs; reflexivity|].
  split.
  { intros r' Hne. rewrite Hheap, lookup_insert_ne by congruence. apply Ho, Hne. }
  exists st0, w0, t0, d0, sized, chain, a, tokens, decimals, old, scale, v, scaled.
  split; [reflexivity|]. split; [exact Hd0|].
  split; [rewrite <- Hswap; exact Hsize|].
  do 2 (split; [assumption|]).
  split; [destruct Htok as [wt Htok]; eauto|].
  do 5 (split; [assumption|]).
  split; [rewrite Hheap; apply lookup_insert_eq|].
  split.
  - intros n k -> -> Hk.
    assert (scale = PyInt (10 ^ k)) as ->.
    { destruct k; cbn in Hscale; try lia; congruence. }
    cbn in Hv. injection Hv as <-. cbn in Hint. congruence.
  - intros keys Hsw Hkeys Hall.
    rewrite (fill_missing_parameters_complete_swap r d st w keys Hd Hkeys Hall Hsw)
      in Hfill.
    injection Hfill as <- _ _. cbn in Hd0. congruence.
Qed.

End Run.

Lemma missing_chain_is_rejected_witness :
  run Simulation.gateway
    (process_parameters_dictionary Simulation.no_elided 1%positive
       {| self := Simulation.increase_parser;
          heap := {[ 1%positive := Simulation.request_without_chain ]} |})
    Simulation.genesis
  = (Raise (Exception "Please pass chain name in parameters dictionary!"),
     set_parameters_dict 1%positive
       {| self := Simulation.increase_parser;
          heap := {[ 1%positive := Simulation.request_without_chain ]} |},
     Simulation.genesis, []).
Proof.
  eapply (missing_chain_is_rejected Simulation.gateway Simulation.no_elided
            Simulation.config true false false Simulation.genesis
            Simulation.increase_parser Simulation.genesis _
            _ 1%positive Simulation.request_without_chain).
  - vm_compute. reflexivity.
  - reflexivity.
  - apply lookup_singleton_eq.
  - vm_compute. reflexivity.
Defined.

(** The value [_calculate_initial_collateral_usd] returns in a run. *)
Ltac valued Hcalc cres w1 t1 :=
  let Hc := fresh in
  let Hw := fresh in
  let Ht := fresh in
  pose proof (f_equal (fun x => fst (fst (fst x))) Hcalc) as Hc;
  pose proof (f_equal (fun x => snd (fst x)) Hcalc) as Hw;
  pose proof (f_equal snd Hcalc) as Ht;
  cbn [fst snd] in Hc, Hw, Ht; vm_compute in Hc; subst cres w1 t1.

Lemma minimum_collateral_is_enforced_witness :
  Scenarios.processed_with (PyInt 1)
  = (Raise (Exception "Position size must be backed by >$2 of collateral!"),
     snd (fst (fst (Scenarios.filled_with (PyInt 1)))),
     snd (fst (Scenarios.valued_with (PyInt 1))),
     snd (Scenarios.filled_with (PyInt 1)) ++ snd (Scenarios.valued_with (PyInt 1))) /\
  fst (fst (fst (Scenarios.processed_with (PyInt 50)))) = Ok (Some 1%positive).
Proof.
  destruct (minimum_collateral_is_enforced Simulation.gateway Simulation.no_elided
              1%positive (Simulation.increase_request (PyInt 1))
              (Simulation.parsing (Simulation.increase_request (PyInt 1)))
              Simulation.genesis
              (snd (fst (fst (Scenarios.filled_with (PyInt 1)))))
              (snd (fst (Scenarios.filled_with (PyInt 1))))
              (snd (Scenarios.filled_with (PyInt 1)))
              eq_refl (lookup_singleton_eq _ _)
              ltac:(apply (run_eta (Scenarios.filled_with (PyInt 1)));
                    vm_compute; reflexivity))
    as (d0 & cres & w1 & t1 & _ & Hcalc & _ & _ & Hvalue).
  destruct (minimum_collateral_is_enforced Simulation.gateway Simulation.no_elided
              1%positive (Simulation.increase_request (PyInt 50))
              (Simulation.parsing (Simulation.increase_request (PyInt 50)))
              Simulation.genesis
              (snd (fst (fst (Scenarios.filled_with (PyInt 50)))))
              (snd (fst (Scenarios.filled_with (PyInt 50))))
              (snd (Scenarios.filled_with (PyInt 50)))
              eq_refl (lookup_singleton_eq _ _)
              ltac:(apply (run_eta (Scenarios.filled_with (PyInt 50)));
                    vm_compute; reflexivity))
    as (d0' & cres' & w1' & t1' & _ & Hcalc' & _ & _ & Hvalue').
  valued Hcalc cres w1 t1. valued Hcalc' cres' w1' t1'.
  destruct (Hvalue _ eq_refl) as (_ & f & _ & Hbelow & _).
  destruct (Hvalue' _ eq_refl) as (_ & f' & _ & _ & Habove & _).
  split.
  - apply Hbelow. vm_compute. reflexivity.
  - unfold Scenarios.processed_with.
    rewrite (proj2 (Habove ltac:(vm_compute; reflexivity))).
    vm_compute. reflexivity.
Defined.

(** C6, the claim as stated fails. The oracle quotes USDC, a token of 6
    decimals, at 10^24, which is one dollar, and the request puts up 2 USDC:
    the collateral is worth 2 dollars. The float product is
    1.9999999999999998, which is below 2, and the request is rejected. *)
Lemma two_dollars_are_rejected :
  Simulation.oracle Simulation.genesis !! Simulation.USDC
  = Some (Simulation.quote "1000000000000000000000000") /\
  (inject_Z (10 ^ 24) * 10 ^ (6 - 30) * 2 == 2)%Q /\
  (exists f q,
     fst (fst (fst (Scenarios.valued_with (PyInt 2)))) = Ok (PyFloat f) /\
     Float64.to_Q f = Some q /\
     (q < 2)%Q) /\
  fst (fst (fst (Scenarios.processed_with (PyInt 2))))
  = Raise (Exception "Position size must be backed by >$2 of collateral!").
Proof.
  split; [vm_compute; reflexivity|]. split; [vm_compute; reflexivity|].
  split; [|vm_compute; reflexivity].
  do 2 eexists. split; [vm_compute; reflexivity|].
  split; [vm_compute; reflexivity|]. vm_compute. reflexivity.
Qed.

(** The guard misses a value that is not a number. The oracle quotes the
    start token at 10^309, which [float] reads as an infinity; the request
    puts up no collateral at all, and infinity times zero is a NaN, which
    does not compare below 2: the request passes the check. *)
Lemma nan_collateral_is_accepted :
  fst (fst (fst Simulation.filled_overflowing)) = Ok tt /\
  fst (fst (fst (run Simulation.gateway
                   (_calculate_initial_collateral_usd
                      (snd (fst (fst Simulation.filled_overflowing))))
                   (snd (fst Simulation.filled_overflowing)))))
  = Ok (PyFloat S754_nan) /\
  fst (fst (fst (run Simulation.gateway
                   (process_parameters_dictionary Simulation.no_elided 1%positive
                      (Simulation.parsing (Simulation.increase_request (PyInt 0))))
                   Simulation.overflowing)))
  = Ok (Some 1%positive) /\
  le (PyInt 2) (PyFloat S754_nan) = Ok false.
Proof. repeat split; vm_compute; reflexivity. Qed.

Lemma process_parameters_dictionary_in_place_witness :
  parameters_dict (self (snd (fst (fst Simulation.processed_once)))) = Some 1%positive /\
  (heap (snd (fst (fst Simulation.processed_once))) !! 1%positive
     ≫= fun d => d !! "initial_collateral_delta")
  = Some (PyInt (50 * 10 ^ 6)) /\
  (heap (snd (fst (fst Simulation.processed_twice))) !! 1%positive
     ≫= fun d => d !! "initial_collateral_delta")
  = Some (PyInt (50 * 10 ^ 6 * 10 ^ 6)).
Proof.
  split; [|split; vm_compute; reflexivity].
  refine (proj1 (proj2 (process_parameters_dictionary_in_place
                          Simulation.gateway Simulation.no_elided 1%positive
                          (Simulation.increase_request (PyInt 50))
                          (Simulation.parsing (Simulation.increase_request (PyInt 50)))
                          Simulation.genesis
                          (Some 1%positive)
                          (snd (fst (fst Simulation.processed_once)))
                          (snd (fst Simulation.processed_once))
                          (snd Simulation.processed_once) _ _))).
  - apply lookup_singleton_eq.
  - apply (run_eta Simulation.processed_once). vm_compute. reflexivity.
Defined.

End parser_facts.

(** ** The approval transaction (approve_token_for_spend.py) *)
Module approval_facts.
Import Py Eff Collaborators gmx_utils approve_token_for_spend Eff_facts Trace.
Import submit_facts approve_facts.

(** The address whose contract is called: the legacy address of a token
    is replaced before anything else is done. *)
#[local] Abbreviation remapped token :=
  (if decide (token = "0x47904963fc8b2340414262125aF798B9655E58Cd")
   then "0x2f2a2543B76A4166549F7aaB2e75Bef0aefC5B0f"
   else token).

#[local] Abbreviation WETH := "0x82aF49447D8a07e3bd95BD0d56f35241523fBab1".

(** The members of a trace that is known call by call. *)
Ltac members H :=
  cbn in H;
  repeat (destruct H as [H|H]; [try discriminate H|]); try contradiction H.

(** A call that is in a trace known call by call. *)
Ltac found := solve [cbn; repeat first [left; reflexivity | right]].

(** The remapped token address is any address, in the program and in the
    statement alike. *)
Ltac any_contract token tok :=
  pose (tok := remapped token);
  repeat match goal with
         | |- context C [if decide (token = ?legacy) then ?canonical else token] =>
             let g := context C [tok] in change g
         end;
  clearbody tok.

(** One more step of a run of [check_if_approved], keeping what is learnt
    of the signed transaction. *)
Ltac approval_walk env :=
  first
    [ match goal with
      | |- context [match rawTransaction ?s with _ => _ end] =>
          let H := fresh "Hraw" in destruct (rawTransaction s) eqn:H; run_simpl
      end
    | approve_walk env ].

Section Run.
Context {W : Type} (env : environment call W).

(** X1. A wallet balance below the amount stops [check_if_approved] with
    the balance exception: the allowance is not read, and nothing is built,
    signed or sent, whatever [approve] is. *)
Theorem insufficient_balance_is_rejected config spender token amount fee approve
    w r s' w' t :
  run env (check_if_approved config spender token amount fee approve tt) w
  = (r, s', w', t) ->
  (exists b, In (Some b) (map balance_read t) /\ b < amount) ->
  r = Raise (Exception "Insufficient balance!") /\
  Forall (fun i => is_step i = false /\ allowance_read i = None) t.
Proof.
  unfold check_if_approved, wallet_balance, create_connection.
  any_token tok. run_simpl.
  repeat (approve_walk env); intros [= <- <- <- <-] (b & Hb & Hlow);
    members Hb; try (injection Hb as ->; lia).
  all: split; [reflexivity|repeat constructor].
Qed.

(** X2. With [approve=False], an allowance below the amount stops
    [check_if_approved] with the allowance exception, and nothing is built,
    signed or sent. *)
Theorem unapproved_spend_is_rejected config spender token amount fee
    w r s' w' t :
  run env (check_if_approved config spender token amount fee false tt) w
  = (r, s', w', t) ->
  (exists al, In (Some al) (map allowance_read t) /\ al < amount) ->
  r = Raise (Exception "Token not approved for spend, please allow first!") /\
  Forall (fun i => is_step i = false) t.
Proof.
  unfold check_if_approved, wallet_balance, create_connection.
  any_token tok. run_simpl.
  repeat (approve_walk env); intros [= <- <- <- <-] (al & Hal & Hlow);
    members Hal; try (injection Hal as ->; lia).
  all: split; [reflexivity|repeat constructor].
Qed.

(** X3. The approval that [check_if_approved] builds: only with
    [approve=True], after a balance that covers the amount and an allowance
    of the owner to the spender that does not; on the contract at the
    remapped token address, for the checksum address of the spender and
    for the amount itself; with no value, the chain id of the
    configuration, 4000000 of gas, [int(max_fee_per_gas)] as the fee cap, no
    priority fee, and the nonce read for the owner. *)
Theorem approval_envelope config spender token amount fee approve w r s' w' t
    token' spender' amount' p raw :
  let contract := remapped token in
  run env (check_if_approved config spender token amount fee approve tt) w
  = (r, s', w', t) ->
  In (Some (token', spender', amount', p, raw)) (map approve_built t) ->
  approve = true /\
  token' = contract /\
  amount' = amount /\
  In (IO (convert_to_checksum_address spender) (Ok spender')) t /\
  value p = PyInt 0 /\
  chainId p = chain_id config /\
  gas p = 4000000 /\
  int fee = Ok (maxFeePerGas p) /\
  maxPriorityFeePerGas p = 0 /\
  (exists owner al,
     In (IO (convert_to_checksum_address (user_wallet_address config)) (Ok owner)) t /\
     In (IO (eth_get_transaction_count owner) (Ok (nonce p))) t /\
     In (IO (token_allowance contract owner spender') (Ok al)) t /\
     al < amount) /\
  (exists b, In (Some b) (map balance_read t) /\ amount <= b).
Proof.
  unfold check_if_approved, wallet_balance, create_connection.
  any_contract token tok.
  destruct (int fee) as [cap|ex] eqn:Hfee. all: run_simpl.
  all: repeat (approve_walk env); intros [= <- <- <- <-] Hin; members Hin.
  all: injection Hin as <- <- <- <- <-.
  all: split; [reflexivity|]; split; [reflexivity|]; split; [reflexivity|].
  all: split; [found|]; do 5 (split; [reflexivity|]).
  all: split; [do 2 eexists; split; [found|]; split; [found|]; split; [found|]; lia|].
  all: eexists; split; [cbn; eauto 10|lia].
Qed.

(** X4. What [check_if_approved] sends is the [rawTransaction] of the
    signed approval it built, signed with the private key of the
    configuration. It sends one transaction, the broadcast is its last
    call, and its outcome is the outcome of the broadcast: an accepted
    broadcast is a normal return, with no wait and no second read of the
    allowance, and a rejected one raises the exception of the gateway. *)
Theorem approval_is_signed_and_sent config spender token amount fee approve
    w r s' w' t txn ans :
  run env (check_if_approved config spender token amount fee approve tt) w
  = (r, s', w', t) ->
  In (Some (txn, ans)) (map sent t) ->
  (exists token' spender' amount' p raw sig,
     In (Some (token', spender', amount', p, Ok raw)) (map approve_built t) /\
     In (Some (raw, private_key config, Ok sig)) (map signed t) /\
     rawTransaction sig = Some txn) /\
  sends t = 1%nat /\
  r = match ans with Ok _ => Ok tt | Raise e => Raise e end /\
  exists t0, t = t0 ++ [IO (send_raw_transaction txn) ans].
Proof.
  unfold check_if_approved, wallet_balance, create_connection, raw_bytes.
  any_token tok. run_simpl.
  repeat (approval_walk env); intros [= <- <- <- <-] Hin; members Hin.
  all: injection Hin as <- <-.
  all: split; [do 6 eexists; split; [found|]; split; [found|]; assumption|].
  all: split; [reflexivity|]; split; [reflexivity|].
  all: match goal with
       | |- exists t0, ?l = _ => exists (removelast l); reflexivity
       end.
Qed.

(** X5. A signed transaction without the attribute [rawTransaction] stops
    [check_if_approved] with [AttributeError]: the [except TypeError] clause
    does not catch it, [raw_transaction] is not read, and nothing is
    sent. *)
Theorem approval_needs_rawTransaction config spender token amount fee approve
    w r s' w' t raw key sig :
  run env (check_if_approved config spender token amount fee approve tt) w
  = (r, s', w', t) ->
  In (Some (raw, key, Ok sig)) (map signed t) ->
  rawTransaction sig = None ->
  r = Raise (AttributeError "rawTransaction") /\ sends t = 0%nat.
Proof.
  unfold check_if_approved, wallet_balance, create_connection, raw_bytes.
  any_token tok. run_simpl.
  repeat (approval_walk env); intros [= <- <- <- <-] Hin Hnone; members Hin.
  all: injection Hin as <- <- <-; try congruence.
  all: split; reflexivity.
Qed.

(** X6. Which balance is compared with the amount, for a gateway that
    converts an address to [checksum] of it. When the checksum address of
    the token is that of wrapped ether on Arbitrum, it is the native
    balance of the owner, read with [getBalance], or with [get_balance]
    when the first name is absent, and [balanceOf] is not called; for every
    other token it is [balanceOf] of the owner on the contract at the
    remapped address, and the native balance is not read. *)
Theorem native_balance_for_wrapped_ether (checksum : address -> address)
    config spender token amount fee approve w r s' w' t :
  let contract := remapped token in
  let owner := checksum (user_wallet_address config) in
  (forall a w0, fst (env _ (convert_to_checksum_address a) w0) = Ok (checksum a)) ->
  run env (check_if_approved config spender token amount fee approve tt) w
  = (r, s', w', t) ->
  if decide (checksum contract = WETH)
  then
    Forall (fun i => is_balanceOf (io_call i) = false) t /\
    forall b, In (Some b) (map balance_read t) ->
      In (IO (eth_getBalance owner) (Ok b)) t \/
      exists name,
        In (IO (eth_getBalance owner) (Raise (AttributeError name))) t /\
        In (IO (eth_get_balance owner) (Ok b)) t
  else
    Forall (fun i => is_native_balance (io_call i) = false) t /\
    forall b, In (Some b) (map balance_read t) ->
      In (IO (token_balanceOf contract owner) (Ok b)) t.
Proof.
  unfold check_if_approved, wallet_balance, create_connection.
  any_contract token tok. intros Hck. run_simpl.
  repeat (first
    [ match goal with
      | |- context [env _ (convert_to_checksum_address ?a) ?w0] =>
          let E := fresh "E" in
          pose proof (Hck a w0) as E;
          destruct (env _ (convert_to_checksum_address a) w0) as [? ?];
          cbn in E; subst; run_simpl
      end
    | approve_walk env ]).
  all: intros [= <- <- <- <-].
  all: repeat match goal with
              | |- context [decide (?a = ?b)] => destruct (decide (a = b)); try congruence
              end.
  all: split; [repeat constructor|].
  all: intros b Hb; members Hb; injection Hb as <-.
  all: first [found | left; found | right; eexists; split; found].
Qed.

(** X7. [create_connection] does not act on the answer of
    [isConnected]: connected or not, [check_if_approved] goes on with the
    conversion of the spender address. Only an exception raised by
    [isConnected] itself stops it, before any other call. *)
Theorem connection_is_not_checked config spender token amount fee approve
    w r s' w' t :
  run env (check_if_approved config spender token amount fee approve tt) w
  = (r, s', w', t) ->
  exists ans rest,
    t = IO (Web3_isConnected (rpc config)) ans :: rest /\
    match ans with
    | Ok _ =>
        exists ans' rest',
          rest = IO (convert_to_checksum_address spender) ans' :: rest'
    | Raise e => rest = [] /\ r = Raise e
    end.
Proof.
  unfold check_if_approved, wallet_balance, create_connection.
  any_contract token tok. run_simpl.
  repeat (approve_walk env); intros [= <- <- <- <-].
  all: do 2 eexists; (split; [reflexivity|]);
    first [split; reflexivity | do 2 eexists; reflexivity].
Qed.

End Run.

Lemma insufficient_balance_is_rejected_witness :
  fst (fst (fst Scenarios.poor_approval)) = Raise (Exception "Insufficient balance!") /\
  Forall (fun i => is_step i = false /\ allowance_read i = None)
    (snd Scenarios.poor_approval).
Proof.
  apply (insufficient_balance_is_rejected Simulation.gateway Simulation.config
           "0xRouter" Simulation.USDC 2000 (PyInt 135000000) true Simulation.genesis
           _ (snd (fst (fst Scenarios.poor_approval)))
           (snd (fst Scenarios.poor_approval)) _).
  - vm_compute. reflexivity.
  - exists 1000. split; [vm_compute; auto 10|lia].
Defined.

Lemma unapproved_spend_is_rejected_witness :
  fst (fst (fst Scenarios.check_only))
  = Raise (Exception "Token not approved for spend, please allow first!") /\
  Forall (fun i => is_step i = false) (snd Scenarios.check_only).
Proof.
  apply (unapproved_spend_is_rejected Simulation.gateway Simulation.config
           "0xRouter" Simulation.USDC 500 (PyInt 135000000) Simulation.genesis
           _ (snd (fst (fst Scenarios.check_only)))
           (snd (fst Scenarios.check_only)) _).
  - vm_compute. reflexivity.
  - exists 0. split; [vm_compute; auto 10|lia].
Defined.

Lemma approval_envelope_witness :
  gas Scenarios.approval_params = 4000000 /\
  int (PyInt 135000000) = Ok (maxFeePerGas Scenarios.approval_params) /\
  exists b, In (Some b) (map balance_read (snd Simulation.first_approval)) /\ 500 <= b.
Proof.
  destruct (approval_envelope Simulation.gateway Simulation.config
              "0xRouter" Simulation.USDC 500 (PyInt 135000000) true Simulation.genesis
              (Ok tt) tt (snd (fst Simulation.first_approval))
              (snd Simulation.first_approval)
              Simulation.USDC "0xRouter" 500 Scenarios.approval_params
              (Ok Scenarios.approval_raw))
    as (_ & _ & _ & _ & _ & _ & Hgas & Hfee & _ & _ & Hbalance).
  - vm_compute. reflexivity.
  - vm_compute. auto 12.
  - auto.
Defined.

Lemma approval_is_signed_and_sent_witness :
  sends (snd Simulation.first_approval) = 1%nat /\
  fst (fst (fst Simulation.first_approval)) = Ok tt.
Proof.
  destruct (approval_is_signed_and_sent Simulation.gateway Simulation.config
              "0xRouter" Simulation.USDC 500 (PyInt 135000000) true Simulation.genesis
              (fst (fst (fst Simulation.first_approval))) tt
              (snd (fst Simulation.first_approval))
              (snd Simulation.first_approval) [] (Ok []))
    as (_ & Hsends & Hr & _).
  - vm_compute. reflexivity.
  - vm_compute. auto 12.
  - auto.
Defined.

Lemma approval_needs_rawTransaction_witness :
  fst (fst (fst Scenarios.renamed_approval)) = Raise (AttributeError "rawTransaction") /\
  sends (snd Scenarios.renamed_approval) = 0%nat.
Proof.
  apply (approval_needs_rawTransaction Scenarios.renamed Simulation.config
           "0xRouter" Simulation.USDC 500 (PyInt 135000000) true Simulation.genesis
           _ (snd (fst (fst Scenarios.renamed_approval)))
           (snd (fst Scenarios.renamed_approval)) _
           Scenarios.approval_raw "key"
           {| rawTransaction := None; raw_transaction := Some [] |}).
  - vm_compute. reflexivity.
  - vm_compute. auto 12.
  - reflexivity.
Defined.

Lemma native_balance_for_wrapped_ether_witness :
  Forall (fun i => is_balanceOf (io_call i) = false) (snd Scenarios.ether_approval).
Proof.
  pose proof (native_balance_for_wrapped_ether Simulation.gateway (fun a => a)
                Simulation.config "0xRouter" Scenarios.WETH 500 (PyInt 135000000) true
                Simulation.genesis
                (fst (fst (fst Scenarios.ether_approval)))
                (snd (fst (fst Scenarios.ether_approval)))
                (snd (fst Scenarios.ether_approval))
                (snd Scenarios.ether_approval)
                ltac:(intros a w0; reflexivity)
                ltac:(vm_compute; reflexivity)) as H.
  cbv zeta in H.
  match type of H with
  | context [decide (?a = ?b)] => destruct (decide (a = b)) as [_|Hne]
  end.
  - exact (proj1 H).
  - exfalso. apply Hne. vm_compute. reflexivity.
Defined.

Lemma connection_is_not_checked_witness :
  exists rest,
    snd Scenarios.disconnected_approval
    = IO (Web3_isConnected "https://arb1.arbitrum.io/rpc") (Ok false) :: rest /\
    sends rest = 1%nat.
Proof.
  destruct (connection_is_not_checked Scenarios.disconnected Simulation.config
              "0xRouter" Simulation.USDC 500 (PyInt 135000000) true Simulation.genesis
              (fst (fst (fst Scenarios.disconnected_approval)))
              (snd (fst (fst Scenarios.disconnected_approval)))
              (snd (fst Scenarios.disconnected_approval))
              (snd Scenarios.disconnected_approval))
    as (ans & rest & Ht & _).
  - vm_compute. reflexivity.
  - eexists. split; reflexivity.
Defined.

End approval_facts.

(** ** The envelope and the broadcast (order.py) *)
Module submission_facts.
Import Py Eff Collaborators gmx_utils order Eff_facts Trace.
Import submit_facts.

(** The members of a trace that is known call by call. *)
Ltac members H :=
  cbn in H;
  repeat (destruct H as [H|H]; [try discriminate H|]); try contradiction H.

(** A call that is in a trace known call by call. *)
Ltac found := solve [cbn; repeat first [left; reflexivity | right]].

(** One more step of a run of [_submit_transaction], keeping what is
    learnt of the signed transaction. *)
Ltac submission_walk env :=
  first
    [ match goal with
      | |- context [raw_bytes ?x] =>
          let H := fresh "Hraw" in destruct (raw_bytes x) eqn:H; run_simpl
      end
    | walk env ].

(** The three attributes of the order that decide the course of a run are
    fixed first, then the run is followed call by call. *)
Ltac submission env self :=
  unfold _submit_transaction, to_checksum_address, build_sign_send,
    gas_limits_order_type_call;
  let Hest := fresh "Hest" in
  let Hfee := fresh "Hfee" in
  let Hdebug := fresh "Hdebug" in
  destruct (_gas_limits_order_type self) as [?|] eqn:Hest;
  destruct (int (max_fee_per_gas self)) as [?|?] eqn:Hfee;
  destruct (debug_mode self) eqn:Hdebug;
  repeat (rewrite ?Hest, ?Hfee, ?Hdebug; cbn [negb]; run_simpl;
          submission_walk env);
  rewrite ?Hest, ?Hfee, ?Hdebug; cbn [negb]; run_simpl.

Section Run.
Context {W : Type} (env : environment call W).

(** X8. When [_submit_transaction] raises, it does so before its [try]
    block: the exception is the answer to its last call, the conversion of
    the wallet address or the read of the nonce, and nothing was estimated,
    built, signed or sent. *)
Theorem early_failure_propagates a v args gl self w e self' w' t :
  run env (_submit_transaction a v args gl self) w = (Raise e, self', w', t) ->
  self' = self /\
  Forall (fun i => is_step i = false /\ estimate_read i = None) t /\
  exists t0 i, t = t0 ++ [i] /\ raised i = Some e.
Proof.
  submission env self.
  all: intros [= <- <- <- <-] || (intros H; discriminate H).
  all: split; [reflexivity|]; split; [repeat constructor|].
  all: match goal with
       | |- exists t0 i, ?l = _ /\ _ =>
           exists (removelast l), (List.last l (IO (Web3_isConnected "") (Ok true)));
           split; reflexivity
       end.
Qed.

(** X9. An order whose gas estimator was never set, as
    [Order.determine_gas_limits] leaves it, submits nothing: no estimate is
    read and nothing is built, signed or sent, and once the nonce is read
    the method returns normally all the same. *)
Theorem undetermined_gas_limits_submit_nothing a v args gl self w r self' w' t :
  _gas_limits_order_type self = None ->
  run env (_submit_transaction a v args gl self) w = (r, self', w', t) ->
  self' = self /\
  Forall (fun i => is_step i = false /\ estimate_read i = None) t /\
  (forall n, In (Some n) (map nonce_read t) -> r = Ok tt).
Proof.
  intros Hnone. submission env self; try discriminate.
  all: intros [= <- <- <- <-].
  all: split; [reflexivity|]; split; [repeat constructor|].
  all: intros n Hn; members Hn; reflexivity.
Qed.

(** X10. What [_submit_transaction] sends: only with [debug_mode] off, one
    transaction, the bytes of the signed envelope, read from its attribute
    [rawTransaction] when it has one and from [raw_transaction] otherwise;
    the envelope signed is the one built from the arguments, and the key is
    the private key of the configuration. *)
Theorem what_is_sent a v args gl self w r self' w' t txn ans :
  run env (_submit_transaction a v args gl self) w = (r, self', w', t) ->
  In (Some (txn, ans)) (map sent t) ->
  debug_mode self = false /\
  sends t = 1%nat /\
  exists p raw sig,
    In (Some (args, p, Ok raw)) (map multicall_built t) /\
    In (Some (raw, private_key (config self), Ok sig)) (map signed t) /\
    match rawTransaction sig with
    | Some b => txn = b
    | None => raw_transaction sig = Some txn
    end.
Proof.
  submission env self.
  all: intros [= <- <- <- <-] Hin; members Hin.
  all: injection Hin as <- <-.
  all: split; [reflexivity|]; split; [reflexivity|].
  all: do 3 eexists; split; [found|]; split; [found|].
  all: match goal with
       | H : raw_bytes ?s = Ok _ |- _ =>
           unfold raw_bytes in H; destruct (rawTransaction s);
           [congruence|destruct (raw_transaction s); congruence]
       end.
Qed.

(** X11. The envelope [_submit_transaction] builds: the multicall
    arguments and the value it was passed, the chain id of the
    configuration, [int(max_fee_per_gas)] as the fee cap, no priority fee
    and the nonce it read. Its gas is the sum of two readings of the
    estimator of the order, taken one after the other just before the
    build, which is the first transaction step and the only build. *)
Theorem envelope_of_the_order a v args gl self w r self' w' t args' p raw :
  run env (_submit_transaction a v args gl self) w = (r, self', w', t) ->
  In (Some (args', p, raw)) (map multicall_built t) ->
  args' = args /\
  value p = v /\
  chainId p = chain_id (config self) /\
  maxPriorityFeePerGas p = 0 /\
  int (max_fee_per_gas self) = Ok (maxFeePerGas p) /\
  exists e g1 g2 t1 t2,
    _gas_limits_order_type self = Some e /\
    t = t1 ++ IO (estimator_call e) (Ok g1) :: IO (estimator_call e) (Ok g2)
           :: IO (multicall_build_transaction args p) raw :: t2 /\
    gas p = g1 + g2 /\
    In (Some (nonce p)) (map nonce_read t1) /\
    Forall (fun i => is_step i = false /\ estimate_read i = None) t1 /\
    Forall (fun i => is_build (io_call i) = false) t2.
Proof.
  submission env self.
  all: intros [= <- <- <- <-] Hin; members Hin.
  all: injection Hin as <- <- <-.
  all: do 5 (split; [reflexivity|]).
  all: first
         [ eexists _, _, _, [_; _], _; split; [reflexivity|];
           split; [reflexivity|]; split; [reflexivity|];
           split; [cbn; auto|]; split; repeat constructor
         | eexists _, _, _, [_; _; _], _; split; [reflexivity|];
           split; [reflexivity|]; split; [reflexivity|];
           split; [cbn; auto|]; split; repeat constructor ].
Qed.

(** X12. The nonce is read for the checksum form of the wallet address:
    the answer of [Web3.to_checksum_address], or of
    [Web3.toChecksumAddress] when the first name is absent. *)
Theorem nonce_of_the_checksum_address a v args gl self w r self' w' t n :
  run env (_submit_transaction a v args gl self) w = (r, self', w', t) ->
  In (Some n) (map nonce_read t) ->
  exists wallet,
    In (IO (eth_get_transaction_count wallet) (Ok n)) t /\
    (In (IO (Web3_to_checksum_address a) (Ok wallet)) t \/
     exists name,
       In (IO (Web3_to_checksum_address a) (Raise (AttributeError name))) t /\
       In (IO (Web3_toChecksumAddress a) (Ok wallet)) t).
Proof.
  submission env self.
  all: intros [= <- <- <- <-] Hin; members Hin.
  all: injection Hin as <-.
  all: eexists; split; [found|].
  all: first [left; found | right; eexists; split; found].
Qed.

(** X13. When the table of gas limits has no entry for the kind of the
    order, [determine_gas_limits] raises [KeyError] for the key of the
    kind: the table is already stored in [_gas_limits], and the estimator
    of the order is left as it was. *)
Theorem missing_gas_limit_is_a_KeyError kind self w r self' w' t table :
  run env (determine_gas_limits kind self) w = (r, self', w', t) ->
  In (Some table) (map gas_table_read t) ->
  table !! gas_limits_key kind = None ->
  r = Raise (KeyError (gas_limits_key kind)) /\
  _gas_limits self' = Some table /\
  _gas_limits_order_type self' = _gas_limits_order_type self /\
  Forall (fun i => is_step i = false /\ estimate_read i = None) t.
Proof.
  unfold determine_gas_limits. run_simpl. run_case env.
  2: { intros [= <- <- <- <-] Hin; members Hin. }
  run_case env.
  2: { intros [= <- <- <- <-] Hin; members Hin. }
  unfold getitem.
  match goal with
  | |- context [?m !! gas_limits_key kind] =>
      destruct (m !! gas_limits_key kind) eqn:Hkey; run_simpl
  end.
  all: intros [= <- <- <- <-] Hin Hnone; members Hin; injection Hin as <-.
  - congruence.
  - split; [reflexivity|]. split; [reflexivity|]. split; [reflexivity|].
    repeat constructor.
Qed.

End Run.

Lemma early_failure_propagates_witness :
  snd (fst (fst Scenarios.silent_submission))
  = Simulation.an_order true false true (PyInt 0) /\
  exists t0 i,
    snd Scenarios.silent_submission = t0 ++ [i] /\
    raised i = Some (Web3Error "timeout").
Proof.
  destruct (early_failure_propagates Scenarios.silent "0xWallet" (PyInt 0) []
              Simulation.gas_table (Simulation.an_order true false true (PyInt 0))
              Simulation.genesis (Web3Error "timeout")
              (snd (fst (fst Scenarios.silent_submission)))
              (snd (fst Scenarios.silent_submission))
              (snd Scenarios.silent_submission))
    as (Hself & _ & Hlast).
  - vm_compute. reflexivity.
  - split; assumption.
Defined.

Lemma undetermined_gas_limits_submit_nothing_witness :
  Forall (fun i => is_step i = false /\ estimate_read i = None)
    (snd Scenarios.undetermined_submission) /\
  fst (fst (fst Scenarios.undetermined_submission)) = Ok tt.
Proof.
  destruct (undetermined_gas_limits_submit_nothing Simulation.gateway "0xWallet"
              (PyInt 0) [] Simulation.gas_table
              (Simulation.an_order true false false (PyInt 0)) Simulation.genesis
              (fst (fst (fst Scenarios.undetermined_submission)))
              (snd (fst (fst Scenarios.undetermined_submission)))
              (snd (fst Scenarios.undetermined_submission))
              (snd Scenarios.undetermined_submission))
    as (_ & Hquiet & Hreturns).
  - reflexivity.
  - vm_compute. reflexivity.
  - split; [exact Hquiet|]. apply (Hreturns 7). vm_compute. auto.
Defined.

Lemma what_is_sent_witness :
  sends (snd Scenarios.live_submission) = 1%nat.
Proof.
  destruct (what_is_sent Simulation.gateway "0xWallet" (PyInt 0) []
              Simulation.gas_table (Simulation.an_order true false true (PyInt 0))
              Simulation.genesis
              (fst (fst (fst Scenarios.live_submission)))
              (snd (fst (fst Scenarios.live_submission)))
              (snd (fst Scenarios.live_submission))
              (snd Scenarios.live_submission) [] (Ok []))
    as (_ & Hsends & _).
  - vm_compute. reflexivity.
  - vm_compute. auto 12.
  - exact Hsends.
Defined.

Lemma envelope_of_the_order_witness :
  int (PyFloat (Float64.of_Z 135000000)) = Ok (maxFeePerGas Scenarios.envelope_params) /\
  exists e g1 g2,
    In (Some (e, g1)) (map estimate_read (snd Scenarios.live_submission)) /\
    In (Some (e, g2)) (map estimate_read (snd Scenarios.live_submission)) /\
    gas Scenarios.envelope_params = g1 + g2.
Proof.
  destruct (envelope_of_the_order Simulation.gateway "0xWallet" (PyInt 0) []
              Simulation.gas_table (Simulation.an_order true false true (PyInt 0))
              Simulation.genesis
              (fst (fst (fst Scenarios.live_submission)))
              (snd (fst (fst Scenarios.live_submission)))
              (snd (fst Scenarios.live_submission))
              (snd Scenarios.live_submission)
              [] Scenarios.envelope_params (Ok Scenarios.envelope_raw))
    as (_ & _ & _ & _ & Hfee & e & g1 & g2 & t1 & t2 & _ & Ht & Hgas & _).
  - vm_compute. reflexivity.
  - vm_compute. auto 12.
  - split; [exact Hfee|]. exists e, g1, g2. rewrite Ht, map_app.
    split; [apply in_or_app; right; left; reflexivity|].
    split; [apply in_or_app; right; right; left; reflexivity|exact Hgas].
Defined.

Lemma nonce_of_the_checksum_address_witness :
  exists wallet,
    In (IO (eth_get_transaction_count wallet) (Ok 7)) (snd Scenarios.live_submission).
Proof.
  destruct (nonce_of_the_checksum_address Simulation.gateway "0xWallet" (PyInt 0) []
              Simulation.gas_table (Simulation.an_order true false true (PyInt 0))
              Simulation.genesis
              (fst (fst (fst Scenarios.live_submission)))
              (snd (fst (fst Scenarios.live_submission)))
              (snd (fst Scenarios.live_submission))
              (snd Scenarios.live_submission) 7)
    as (wallet & Hnonce & _).
  - vm_compute. reflexivity.
  - vm_compute. auto 12.
  - exists wallet. exact Hnonce.
Defined.

Lemma missing_gas_limit_is_a_KeyError_witness :
  fst (fst (fst Scenarios.short_run)) = Raise (KeyError "decrease_order") /\
  _gas_limits (snd (fst (fst Scenarios.short_run))) = Some Scenarios.short_table.
Proof.
  destruct (missing_gas_limit_is_a_KeyError Scenarios.short DecreaseOrder
              (Simulation.an_order true false false (PyInt 0)) Simulation.genesis
              (fst (fst (fst Scenarios.short_run)))
              (snd (fst (fst Scenarios.short_run)))
              (snd (fst Scenarios.short_run))
              (snd Scenarios.short_run) Scenarios.short_table)
    as (Hr & Htable & _).
  - vm_compute. reflexivity.
  - right. left. reflexivity.
  - vm_compute. reflexivity.
  - split; assumption.
Defined.

End submission_facts.

(** ** The token registry (gmx_utils.py) and the quotes (order.py) *)
Module registry_facts.
Import Py Eff Collaborators gmx_utils order Eff_facts Trace.

(** The addresses the comprehension has not met are as in the dictionary it
    started from. *)
Lemma index_by_address_other infos acc d a :
  index_by_address infos acc = Ok d ->
  Forall (fun info => info !! "address" <> Some (PyStr a)) infos ->
  d !! a = acc !! a.
Proof.
  revert acc. induction infos as [|info infos IH]; intros acc; cbn.
  - intros [= <-] _. reflexivity.
  - unfold getitem. destruct (info !! "address") as [[| | | |k|]|] eqn:Hk;
      cbn; try discriminate.
    intros Hd Hall. inversion Hall as [|? ? Hne Hrest]; subst.
    rewrite (IH _ Hd Hrest). apply lookup_insert_ne. congruence.
Qed.

(** An entry of the result is an entry of the list, under its own address,
    or an entry of the dictionary the comprehension started from. *)
Lemma index_by_address_entry infos acc d a info :
  index_by_address infos acc = Ok d ->
  d !! a = Some info ->
  (In info infos /\ info !! "address" = Some (PyStr a)) \/ acc !! a = Some info.
Proof.
  revert acc. induction infos as [|i infos IH]; intros acc; cbn.
  - intros [= <-] H. right. exact H.
  - unfold getitem. destruct (i !! "address") as [[| | | |k|]|] eqn:Hk;
      cbn; try discriminate.
    intros Hd Ha. destruct (IH _ Hd Ha) as [[Hin Hadd]|Hacc].
    + left. split; [right; exact Hin|exact Hadd].
    + destruct (decide (k = a)) as [->|Hne].
      * rewrite lookup_insert_eq in Hacc. injection Hacc as <-.
        left. split; [left; reflexivity|exact Hk].
      * rewrite lookup_insert_ne in Hacc by exact Hne. right. exact Hacc.
Qed.

(** X14. The dictionary [get_tokens_address_dict] builds from the list of
    the registry: every entry is an element of the list, stored under its
    own address, and of the elements that share an address the last one is
    the one kept. *)
Theorem registry_is_keyed_by_address infos d :
  index_by_address infos ∅ = Ok d ->
  (forall a info, d !! a = Some info ->
     In info infos /\ info !! "address" = Some (PyStr a)) /\
  (forall l1 info l2 a,
     infos = l1 ++ info :: l2 ->
     info !! "address" = Some (PyStr a) ->
     Forall (fun later => later !! "address" <> Some (PyStr a)) l2 ->
     d !! a = Some info).
Proof.
  intros Hd. split.
  - intros a info Ha.
    destruct (index_by_address_entry _ _ _ _ _ Hd Ha) as [H|H]; [exact H|].
    rewrite lookup_empty in H. discriminate.
  - intros l1 info l2 a -> Hadd Hlater. revert Hd. generalize (∅ : pydict2).
    induction l1 as [|i l1 IH]; intros acc; cbn.
    + unfold getitem. rewrite Hadd. cbn. intros Hd.
      rewrite (index_by_address_other _ _ _ _ Hd Hlater). apply lookup_insert_eq.
    + unfold getitem. destruct (i !! "address") as [[| | | |k|]|]; cbn;
        try discriminate.
      apply IH.
Qed.

Section Run.
Context {W : Type} (env : environment call W).

(** X15. For a chain that is neither [arbitrum] nor [avalanche],
    [get_tokens_address_dict] raises [KeyError] for the chain: the clause
    for [requests.RequestException] does not catch it, and no request is
    made. *)
Theorem unknown_chain_is_a_KeyError {S} (chain : string) (s : S) (w : W) :
  chain <> "arbitrum" ->
  chain <> "avalanche" ->
  run env (get_tokens_address_dict (PyStr chain) s) w
  = (Raise (KeyError chain), s, w, []).
Proof.
  intros H1 H2. unfold get_tokens_address_dict. run_simpl.
  assert (Hnone : tokens_url !! chain = None).
  { unfold tokens_url. rewrite lookup_insert_ne by congruence.
    apply lookup_singleton_ne. congruence. }
  cbn [getitem_val]. unfold getitem. rewrite Hnone. reflexivity.
Qed.

(** What [get_tokens_address_dict] returns when a call of its run was
    answered with an exception. *)
Lemma get_tokens_address_dict_raised {S} chain (s : S) (w : W) r s' w' t e :
  run env (get_tokens_address_dict chain s) w = (r, s', w', t) ->
  In (Some e) (map raised t) ->
  r = match e with
      | RequestException _ => Ok ∅
      | _ => Raise e
      end.
Proof.
  unfold get_tokens_address_dict. run_simpl.
  destruct (getitem_val tokens_url chain) as [url|ex]; run_simpl.
  - destruct (env _ (requests_get_tokens url) w) as [[infos|ex] w1] eqn:E; run_simpl.
    + destruct (index_by_address infos ∅); intros [= <- <- <- <-] Hin;
        cbn in Hin; destruct Hin as [Hin|[]]; discriminate.
    + destruct ex; run_simpl; intros [= <- <- <- <-] Hin;
        cbn in Hin; destruct Hin as [Hin|[]]; injection Hin as <-; reflexivity.
  - destruct ex; run_simpl; intros [= <- <- <- <-] [].
Qed.

(** X16. The answer [get_tokens_address_dict] gives to a failed request:
    the empty dictionary for a [requests.RequestException], and the
    exception itself for any other one. It makes one request at most. *)
Theorem failed_request_is_an_empty_registry {S} chain (s : S) (w : W) r s' w' t e :
  run env (get_tokens_address_dict chain s) w = (r, s', w', t) ->
  In (Some e) (map raised t) ->
  r = match e with
      | RequestException _ => Ok ∅
      | _ => Raise e
      end /\
  s' = s /\
  (length t <= 1)%nat.
Proof.
  unfold get_tokens_address_dict. run_simpl.
  destruct (getitem_val tokens_url chain) as [url|ex]; run_simpl.
  - destruct (env _ (requests_get_tokens url) w) as [[infos|ex] w1] eqn:E; run_simpl.
    + destruct (index_by_address infos ∅); intros [= <- <- <- <-] Hin;
        cbn in Hin; destruct Hin as [Hin|[]]; discriminate.
    + destruct ex; run_simpl; intros [= <- <- <- <-] Hin;
        cbn in Hin; destruct Hin as [Hin|[]]; injection Hin as <-;
        (split; [reflexivity|split; [reflexivity|cbn; lia]]).
  - destruct ex; run_simpl; intros [= <- <- <- <-] [].
Qed.

End Run.

(** X17. [_get_prices] raises [KeyError] when the quotes lack the index
    token of the order, or when the quote of the token lacks one of the two
    prices, for a swap as for an open or a close: the exception is printed
    and raised again. *)
Theorem missing_quote_is_a_KeyError (self : Order) decimals (prices : pydict2)
    is_open is_close is_swap :
  (prices !! index_token_address self = None ->
   _get_prices self decimals prices is_open is_close is_swap
   = Raise (KeyError (index_token_address self))) /\
  (forall q : pydict,
     prices !! index_token_address self = Some q ->
     q !! "maxPriceFull" = None ->
     _get_prices self decimals prices is_open is_close is_swap
     = Raise (KeyError "maxPriceFull")) /\
  (forall (q : pydict) hi f,
     prices !! index_token_address self = Some q ->
     q !! "maxPriceFull" = Some hi ->
     to_float hi = Ok f ->
     q !! "minPriceFull" = None ->
     _get_prices self decimals prices is_open is_close is_swap
     = Raise (KeyError "minPriceFull")).
Proof.
  unfold _get_prices, median_price, getitem, address. repeat split.
  - intros ->. reflexivity.
  - intros q -> Hhi. cbn. rewrite Hhi. reflexivity.
  - intros q hi f -> Hhi Hf Hlo. cbn. rewrite Hhi. cbn. rewrite Hf. cbn.
    rewrite Hlo. reflexivity.
Qed.

(** X18. A median price that is not a number stops [_get_prices] for an
    open or a close order, with the [ValueError] of [int] on a NaN: the
    price with slippage is a NaN too. *)
Theorem nan_price_is_a_ValueError (self : Order) decimals prices
    is_open is_close is_swap (s : Float64.float) :
  median_price prices (index_token_address self) = Ok (PyFloat S754_nan) ->
  slippage_percent self = PyFloat s ->
  is_open || is_close = true ->
  _get_prices self decimals prices is_open is_close is_swap
  = Raise (ValueError "cannot convert float NaN to integer").
Proof.
  intros Hmed Hs Hkind. unfold _get_prices. rewrite Hmed. cbn.
  assert (Hsl : slippage_price self (PyFloat S754_nan) is_open is_close
                = Ok (PyFloat S754_nan)).
  { unfold slippage_price. rewrite Hs.
    destruct is_open, is_close, (is_long self); try discriminate; reflexivity. }
  rewrite Hsl. reflexivity.
Qed.

Lemma registry_is_keyed_by_address_witness :
  Scenarios.twice_indexed !! Simulation.USDC
  = Some (Simulation.token_info Simulation.USDC 8).
Proof.
  refine (proj2 (registry_is_keyed_by_address Scenarios.twice_listed
                   Scenarios.twice_indexed _)
            [Simulation.token_info Simulation.USDC 6;
             Simulation.token_info Scenarios.WETH 18]
            (Simulation.token_info Simulation.USDC 8) [] Simulation.USDC _ _ _).
  - reflexivity.
  - reflexivity.
  - vm_compute. reflexivity.
  - constructor.
Defined.

Lemma unknown_chain_is_a_KeyError_witness :
  run Simulation.gateway (get_tokens_address_dict (PyStr "optimism") tt)
    Simulation.genesis
  = (Raise (KeyError "optimism"), tt, Simulation.genesis, []).
Proof.
  apply (unknown_chain_is_a_KeyError Simulation.gateway "optimism" tt
           Simulation.genesis); discriminate.
Defined.

Lemma failed_request_is_an_empty_registry_witness :
  fst (fst (fst Scenarios.unreachable_registry)) = Ok ∅.
Proof.
  refine (proj1 (failed_request_is_an_empty_registry Scenarios.unreachable
                   (PyStr "arbitrum") tt Simulation.genesis
                   (fst (fst (fst Scenarios.unreachable_registry)))
                   (snd (fst (fst Scenarios.unreachable_registry)))
                   (snd (fst Scenarios.unreachable_registry))
                   (snd Scenarios.unreachable_registry)
                   (RequestException "503") _ _)).
  - vm_compute. reflexivity.
  - vm_compute. auto.
Defined.

Lemma nan_price_is_a_ValueError_witness :
  _get_prices
    (Simulation.an_order true false true (PyFloat (Float64.pow10_neg 2)))
    (PyInt 30) {[ Simulation.USDC := Simulation.quote "nan" ]} true false false
  = Raise (ValueError "cannot convert float NaN to integer").
Proof.
  apply (nan_price_is_a_ValueError
           (Simulation.an_order true false true (PyFloat (Float64.pow10_neg 2)))
           (PyInt 30) {[ Simulation.USDC := Simulation.quote "nan" ]}
           true false false (Float64.pow10_neg 2)).
  - vm_compute. reflexivity.
  - reflexivity.
  - reflexivity.
Defined.

End registry_facts.

(** ** Resolving the parameters (order_argument_parser.py) *)
Module resolution_facts.
Import Py Eff Collaborators gmx_utils order_argument_parser Eff_facts Trace.
Import parser_facts.

Lemma getitem_Some {V} (d : gmap string V) k v : d !! k = Some v -> getitem d k = Ok v.
Proof. unfold getitem. intros ->. reflexivity. Qed.

Lemma getitem_None {V} (d : gmap string V) k :
  d !! k = None -> getitem d k = Raise (KeyError k).
Proof. unfold getitem. intros ->. reflexivity. Qed.

Section Run.
Context {W : Type} (env : environment call W) (elided : elided_methods).

(** One more step of a run of a handler on the dictionary [d] at [r]. *)
Ltac resolve_step r d :=
  first
    [ rewrite (run_param env _ r d) by assumption
    | rewrite (run_set_param env _ _ r d) by assumption
    | match goal with
      | |- context [run env (get_tokens_address_dict ?chain _) ?w] =>
          let Htok := fresh "Htok" in let Hquiet := fresh "Hquiet" in
          destruct (run_get_tokens_address_dict env (S := state) chain w)
            as (? & ? & ? & Htok & Hquiet);
          rewrite Htok
      | |- context [match ?x with Ok _ => _ | Raise _ => _ end] =>
          first [ match goal with H : x = _ |- _ => rewrite H end
                | let E := fresh "E" in destruct x eqn:E ]
      end ]; run_simpl.

(** A string that is compared with a short literal, character by
    character: it differs at some character, or is the literal. *)
Ltac other_string :=
  repeat match goal with
         | |- match ?s with EmptyString => _ | String _ _ => _ end = _ =>
             destruct s as [|[[] [] [] [] [] [] [] []] ?]; try reflexivity
         end.

(** The calls of a trace are no transaction steps. *)
Ltac quiet :=
  rewrite ?app_nil_r;
  repeat first [ assumption | apply Forall_app_2 | constructor ].

(** X19. A parser built with none of the three kinds has no list of
    required keys: [process_parameters_dictionary] raises [AttributeError]
    before it keeps the dictionary, makes no call and changes nothing. *)
Theorem parser_without_a_kind config (w0 : W) p w1 t0
    (h : gmap ref pydict) (r : ref) (w : W) :
  run env (__init__ config false false false tt) w0 = (Ok p, tt, w1, t0) ->
  run env (process_parameters_dictionary elided r {| self := p; heap := h |}) w
  = (Raise (AttributeError "required_keys"), {| self := p; heap := h |}, w, []).
Proof.
  unfold __init__. run_simpl. run_case env; [|discriminate].
  intros [= <- _ _].
  unfold process_parameters_dictionary, fill_missing_parameters.
  rewrite !run_bind, run_determine_missing_keys. reflexivity.
Qed.

(** The required keys of an increase or a decrease order start with the
    chain and the address of the index token. *)
Lemma __init___requires_index_token config is_increase is_decrease is_swap
    (w0 : W) p w1 t0 :
  run env (__init__ config is_increase is_decrease is_swap tt) w0 = (Ok p, tt, w1, t0) ->
  is_increase || is_decrease = true ->
  exists keys, required_keys p = Some ("chain" :: "index_token_address" :: keys).
Proof.
  unfold __init__. run_simpl. run_case env; [|discriminate].
  intros [= <- _ _] Hkind.
  destruct is_increase; [cbn; eauto|]. destruct is_decrease; [cbn; eauto|discriminate].
Qed.

(** X20. An increase or a decrease request that names its chain and gives
    neither the address nor the symbol of the index token is rejected with
    the exception of [_handle_missing_index_token_address]: no call is
    made, no other handler runs, and the dictionary is left as it was. *)
Theorem index_token_needs_address_or_symbol config is_increase is_decrease is_swap
    (w0 : W) p w1 t0 (h : gmap ref pydict) (r : ref) (d : pydict) (w : W) :
  run env (__init__ config is_increase is_decrease is_swap tt) w0 = (Ok p, tt, w1, t0) ->
  is_increase || is_decrease = true ->
  h !! r = Some d ->
  is_Some (d !! "chain") ->
  d !! "index_token_address" = None ->
  d !! "index_token_symbol" = None ->
  run env (process_parameters_dictionary elided r {| self := p; heap := h |}) w
  = (Raise (Exception "Index Token Address and Symbol not provided!"),
     set_parameters_dict r {| self := p; heap := h |}, w, []).
Proof.
  intros Hinit Hkind Hd [c Hc] Haddr Hsym.
  destruct (__init___requires_index_token _ _ _ _ _ _ _ _ Hinit Hkind) as [keys Hkeys].
  unfold process_parameters_dictionary, fill_missing_parameters.
  rewrite !run_bind, run_determine_missing_keys. cbn [self heap].
  rewrite Hkeys, Hd. rewrite filter_cons_False by (rewrite Hc; congruence).
  rewrite filter_cons_True by exact Haddr.
  run_simpl. cbn [for_each]. run_simpl.
  change (missing_base_key_methods elided "index_token_address")
    with (Some (_handle_missing_index_token_address elided)).
  unfold _handle_missing_index_token_address. run_simpl.
  rewrite (run_param env "index_token_symbol" r d) by (first [reflexivity|exact Hd]).
  unfold getitem. rewrite Hsym. run_simpl. reflexivity.
Qed.

(** X21. [_handle_missing_index_token_address] finds the address of the
    index token by its symbol in the token registry of the chain of the
    request, with the symbol [BTC] replaced by [WBTC.b], and stores it in
    the dictionary under [index_token_address]; it makes no transaction
    step. *)
Theorem index_token_is_found_by_symbol r d st (w : W) res st' w' t symbol :
  parameters_dict (self st) = Some r ->
  heap st !! r = Some d ->
  d !! "index_token_symbol" = Some symbol ->
  run env (_handle_missing_index_token_address elided st) w = (res, st', w', t) ->
  Forall (fun i => is_step i = false) t /\
  (res = Ok tt ->
   exists chain tokens looked a,
     d !! "chain" = Some chain /\
     (exists w2 w3 t3, forall s : state,
         run env (get_tokens_address_dict chain s) w2 = (Ok tokens, s, w3, t3)) /\
     (symbol = PyStr "BTC" -> looked = PyStr "WBTC.b") /\
     (symbol <> PyStr "BTC" -> looked = symbol) /\
     find_key_by_symbol elided tokens looked = Ok a /\
     st' = store r (<["index_token_address" := a]> d) st).
Proof.
  intros Hr Hd Hsym. unfold _handle_missing_index_token_address. run_simpl.
  rewrite (run_param env "index_token_symbol" r d) by assumption.
  unfold getitem at 1. rewrite Hsym. run_simpl.
  repeat (resolve_step r d).
  all: intros [= <- <- <- <-]; split; [quiet|]; intros Hres; try discriminate.
  apply getitem_Ok in E.
  do 4 eexists. split; [exact E|]. split; [do 3 eexists; eassumption|].
  split; [|split; [|split; [eassumption|reflexivity]]].
  - intros ->. reflexivity.
  - intros Hne. destruct symbol as [| | | |s|]; try reflexivity.
    other_string. contradiction Hne; reflexivity.
Qed.

(** X22. [_handle_missing_market_key] finds the market of the index token
    among the markets the parser fetched when it was built, with the
    address 0x2f2a...5B0f replaced by 0x4790...58Cd, and stores its key in
    the dictionary under [market_key]; it makes no call. *)
Theorem market_key_is_found_by_index_token r d st (w : W) res st' w' t a :
  parameters_dict (self st) = Some r ->
  heap st !! r = Some d ->
  d !! "index_token_address" = Some a ->
  run env (_handle_missing_market_key elided st) w = (res, st', w', t) ->
  let looked :=
    match a with
    | PyStr "0x2f2a2543B76A4166549F7aaB2e75Bef0aefC5B0f" =>
        PyStr "0x47904963fc8b2340414262125aF798B9655E58Cd"
    | _ => a
    end in
  t = [] /\
  w' = w /\
  match find_market_key_by_index_address elided (markets (self st)) looked with
  | Ok k => res = Ok tt /\ st' = store r (<["market_key" := k]> d) st
  | Raise e => res = Raise e /\ st' = st
  end.
Proof.
  intros Hr Hd Ha. unfold _handle_missing_market_key. run_simpl.
  rewrite (run_param env "index_token_address" r d) by assumption.
  unfold getitem at 1. rewrite Ha. run_simpl.
  match goal with
  | |- context [find_market_key_by_index_address elided _ ?x] => set (looked := x)
  end.
  repeat match goal with
         | |- context C [find_market_key_by_index_address elided ?m ?y] =>
             lazymatch y with
             | looked => fail
             | _ => let g := context C [find_market_key_by_index_address elided m looked] in
                    change g
             end
         end.
  destruct (find_market_key_by_index_address elided (markets (self st)) looked)
    as [k|e] eqn:Hfind; run_simpl.
  - rewrite (run_set_param env _ _ r d) by assumption.
    intros [= <- <- <- <-]. tauto.
  - intros [= <- <- <- <-]. tauto.
Qed.

(** *** Swap requests *)

(** The parser [OrderArgumentParser(config, is_swap=True)] builds. *)
Lemma __init___swap config (w0 : W) p w1 t0 :
  run env (__init__ config false false true tt) w0 = (Ok p, tt, w1, t0) ->
  is_increase p = false /\
  is_swap p = true /\
  parameters_dict p = None /\
  required_keys p
  = Some ["chain"; "start_token_address"; "out_token_address";
          "initial_collateral_delta"; "swap_path"; "slippage_percent"].
Proof.
  unfold __init__. run_simpl. run_case env; [|discriminate].
  intros [= <- _ _]. cbn. auto.
Qed.

(** [initial_collateral_delta] has no handler: when a swap request lacks
    no other required key, no handler runs and no call is made. *)
Lemma fill_missing_parameters_swap r d st (w : W) :
  heap st !! r = Some d ->
  is_swap (self st) = true ->
  required_keys (self st)
  = Some ["chain"; "start_token_address"; "out_token_address";
          "initial_collateral_delta"; "swap_path"; "slippage_percent"] ->
  Forall (fun key => is_Some (d !! key))
    ["chain"; "start_token_address"; "out_token_address"; "swap_path";
     "slippage_percent"] ->
  run env (fill_missing_parameters elided r st) w
  = (Ok tt, set_parameters_dict r st, w, []).
Proof.
  intros Hd Hswap Hkeys Hall. unfold fill_missing_parameters.
  rewrite run_bind, run_determine_missing_keys, Hd, Hkeys.
  repeat match goal with
         | H : Forall _ (_ :: _) |- _ => inversion H as [|? ? [? ?] ?]; subst; clear H
         end.
  assert (Hmissing :
    filter (fun key => d !! key = None)
      ["chain"; "start_token_address"; "out_token_address";
       "initial_collateral_delta"; "swap_path"; "slippage_percent"]
    = match d !! "initial_collateral_delta" with
      | Some _ => []
      | None => ["initial_collateral_delta"]
      end).
  { do 3 (rewrite filter_cons_False by congruence).
    destruct (d !! "initial_collateral_delta") eqn:Hdelta.
    - rewrite filter_cons_False by congruence.
      do 2 (rewrite filter_cons_False by congruence). reflexivity.
    - rewrite filter_cons_True by exact Hdelta.
      do 2 (rewrite filter_cons_False by congruence). reflexivity. }
  rewrite Hmissing.
  destruct (d !! "initial_collateral_delta"); run_simpl; cbn [for_each];
    change (missing_base_key_methods elided "initial_collateral_delta")
      with (@None (prog unit));
    run_simpl; cbn [self set_parameters_dict is_swap]; rewrite Hswap; reflexivity.
Qed.

(** The run of [_format_size_info] for a swap: it reads the registry of the
    chain once, scales the collateral by the decimals of the start token,
    stores it, and then reads [size_delta] to print it. *)
Lemma run_format_size_info_swap r d st (w : W) :
  parameters_dict (self st) = Some r ->
  heap st !! r = Some d ->
  is_swap (self st) = true ->
  run env (_format_size_info st) w
  = match getitem d "chain" with
    | Raise e => (Raise e, st, w, [])
    | Ok chain =>
        let '(tr, _, w1, t1) := run env (get_tokens_address_dict chain st) w in
        match (tokens ← tr;
               a ← getitem d "start_token_address";
               decimal ← (info ← getitem_val tokens a; getitem info "decimals");
               old ← getitem d "initial_collateral_delta";
               p ← pow10 decimal;
               v ← mul old p;
               int v) with
        | Raise e => (Raise e, st, w1, t1)
        | Ok scaled =>
            let d' := <["initial_collateral_delta" := PyInt scaled]> d in
            (getitem d' "size_delta" ≫= fun _ => Ok tt, store r d' st, w1, t1)
        end
    end.
Proof.
  intros Hr Hd Hswap. unfold _format_size_info. run_simpl.
  rewrite Hswap. cbn [negb]. run_simpl.
  rewrite (run_param env "chain" r d) by assumption.
  destruct (getitem d "chain") as [chain|e]; [|reflexivity]. run_simpl.
  destruct (run_get_tokens_address_dict env (S := state) chain w)
    as (tr & w1 & t1 & Htok & _).
  rewrite !Htok.
  assert (Hstored : forall d', heap (store r d' st) !! r = Some d')
    by (intros d'; apply heap_store).
  destruct tr as [tokens|e]; [|reflexivity]. run_simpl.
  rewrite (run_param env "start_token_address" r d) by assumption.
  cbn [mbind result_bind].
  destruct (getitem d "start_token_address") as [a|e];
    cbn [mbind result_bind]; run_simpl; rewrite ?app_nil_r; [|reflexivity].
  destruct (getitem_val tokens a) as [info|e];
    cbn [mbind result_bind]; run_simpl; rewrite ?app_nil_r; [|reflexivity].
  destruct (getitem info "decimals") as [decimal|e];
    cbn [mbind result_bind]; run_simpl; rewrite ?app_nil_r; [|reflexivity].
  rewrite (run_param env "initial_collateral_delta" r d) by assumption.
  destruct (getitem d "initial_collateral_delta") as [old|e];
    cbn [mbind result_bind]; run_simpl; rewrite ?app_nil_r; [|reflexivity].
  destruct (pow10 decimal) as [p|e];
    cbn [mbind result_bind]; run_simpl; rewrite ?app_nil_r; [|reflexivity].
  destruct (mul old p) as [v|e];
    cbn [mbind result_bind]; run_simpl; rewrite ?app_nil_r; [|reflexivity].
  destruct (int v) as [scaled|e];
    cbn [mbind result_bind]; run_simpl; rewrite ?app_nil_r; [|reflexivity].
  rewrite (run_set_param env _ _ r d) by assumption. run_simpl.
  rewrite (run_param env "size_delta" r _ (store r _ st) _ Hr (Hstored _)).
  destruct (getitem _ "size_delta") as [x|e];
    cbn [mbind result_bind]; run_simpl; rewrite ?app_nil_r; [|reflexivity].
  rewrite (run_param env "initial_collateral_delta" r _ (store r _ st) _ Hr (Hstored _)).
  unfold getitem at 1. rewrite lookup_insert_eq. run_simpl.
  rewrite ?app_nil_r. reflexivity.
Qed.

(** A parser that is not for an increase order checks no collateral. *)
Lemma run_check_minimum_collateral_skipped st (w : W) :
  is_increase (self st) = false ->
  run env (check_minimum_collateral st) w = (Ok tt, st, w, []).
Proof.
  intros Hinc. unfold check_minimum_collateral. rewrite run_bind, run_get, Hinc.
  reflexivity.
Qed.

(** The run of [process_parameters_dictionary] on a swap request that lacks
    no required key, [initial_collateral_delta] apart: it is the run of
    [_format_size_info] on the dictionary as it was passed. *)
Lemma run_process_swap config (w0 : W) p w1 t0 (h : gmap ref pydict) r d (w : W) :
  run env (__init__ config false false true tt) w0 = (Ok p, tt, w1, t0) ->
  h !! r = Some d ->
  Forall (fun key => is_Some (d !! key))
    ["chain"; "start_token_address"; "out_token_address"; "swap_path";
     "slippage_percent"] ->
  let st := set_parameters_dict r {| self := p; heap := h |} in
  run env (process_parameters_dictionary elided r {| self := p; heap := h |}) w
  = (let '(fr, s2, w2, t2) := run env (_format_size_info st) w in
     (fr ≫= fun _ => Ok (Some r), s2, w2, t2)) /\
  parameters_dict (self st) = Some r /\
  heap st !! r = Some d /\
  is_swap (self st) = true.
Proof.
  intros Hinit Hd Hall st.
  destruct (__init___swap _ _ _ _ _ Hinit) as (Hinc & Hswap & _ & Hkeys).
  assert (Hfill := fill_missing_parameters_swap r d {| self := p; heap := h |} w
                     Hd Hswap Hkeys Hall).
  fold st in Hfill.
  split; [|split; [reflexivity|split; [exact Hd|exact Hswap]]].
  rewrite (run_process_parameters_dictionary env elided _ _ _ _ _ _ Hfill).
  rewrite run_check_minimum_collateral_skipped by exact Hinc.
  assert (Hr : parameters_dict (self st) = Some r) by reflexivity.
  assert (Hd' : heap st !! r = Some d) by exact Hd.
  rewrite (run_format_size_info_swap r d st w Hr Hd' Hswap).
  destruct (getitem d "chain") as [chain|e]; [|reflexivity].
  destruct (run env (get_tokens_address_dict chain st) w) as [[[tr s1] w2] t2].
  match goal with
  | |- context [match ?x with Ok _ => _ | Raise _ => _ end] => destruct x as [scaled|e]
  end; [|reflexivity].
  cbv zeta. destruct (getitem _ "size_delta"); reflexivity.
Qed.

(** X23. A swap request that has every required key and no [size_delta]
    is never resolved: [process_parameters_dictionary] raises, whatever the
    registry answers, and makes no transaction step. Either the dictionary
    is as it was passed, or the exception is the [KeyError] of the last
    lines of [_format_size_info], which print [size_delta], and the
    collateral of the dictionary is already scaled. *)
Theorem swap_request_needs_size_delta config (w0 : W) p w1 t0
    (h : gmap ref pydict) (r : ref) (d : pydict) (w : W) res st' w' t :
  run env (__init__ config false false true tt) w0 = (Ok p, tt, w1, t0) ->
  h !! r = Some d ->
  Forall (fun key => is_Some (d !! key))
    ["chain"; "start_token_address"; "out_token_address";
     "initial_collateral_delta"; "swap_path"; "slippage_percent"] ->
  d !! "size_delta" = None ->
  run env (process_parameters_dictionary elided r {| self := p; heap := h |}) w
  = (res, st', w', t) ->
  (exists e, res = Raise e) /\
  Forall (fun i => is_step i = false) t /\
  (st' = set_parameters_dict r {| self := p; heap := h |} \/
   res = Raise (KeyError "size_delta") /\
   exists scaled,
     st' = store r (<["initial_collateral_delta" := PyInt scaled]> d)
             (set_parameters_dict r {| self := p; heap := h |})).
Proof.
  intros Hinit Hd Hall Hsize.
  assert (Hfive : Forall (fun key => is_Some (d !! key))
                    ["chain"; "start_token_address"; "out_token_address";
                     "swap_path"; "slippage_percent"]).
  { repeat match goal with
           | H : Forall _ (_ :: _) |- _ => inversion H; subst; clear H
           end.
    repeat constructor; assumption. }
  destruct (run_process_swap config w0 p w1 t0 h r d w Hinit Hd Hfive)
    as (-> & Hr & Hd' & Hswap).
  rewrite (run_format_size_info_swap r d _ w Hr Hd' Hswap).
  destruct (getitem d "chain") as [chain|e].
  2: { intros [= <- <- <- <-]. split; [eauto|]. split; [constructor|]. left. reflexivity. }
  destruct (run_get_tokens_address_dict env (S := state) chain w)
    as (tr & w2 & t2 & -> & Hquiet).
  match goal with
  | |- context [match ?x with Ok _ => _ | Raise _ => _ end] => destruct x as [scaled|e]
  end.
  2: { intros [= <- <- <- <-]. split; [eauto|]. split; [exact Hquiet|]. left. reflexivity. }
  cbv zeta. unfold getitem at 1. rewrite lookup_insert_ne by discriminate.
  rewrite Hsize. intros [= <- <- <- <-].
  split; [eauto|]. split; [exact Hquiet|]. right. split; [reflexivity|]. eauto.
Qed.

(** X24. The failed swap request changes the dictionary of the caller.
    With the chain, a start token the registry gives [k] decimals and an
    integer collateral [n], a request without [size_delta] ends in
    [KeyError] for [size_delta], and the collateral of the dictionary is
    [n * 10^k] by then. *)
Theorem failed_swap_request_is_scaled config (w0 : W) p w1 t0
    (h : gmap ref pydict) (r : ref) (d : pydict) (w : W)
    chain tokens a n k w2 t2 :
  run env (__init__ config false false true tt) w0 = (Ok p, tt, w1, t0) ->
  h !! r = Some d ->
  Forall (fun key => is_Some (d !! key))
    ["chain"; "start_token_address"; "out_token_address";
     "initial_collateral_delta"; "swap_path"; "slippage_percent"] ->
  d !! "size_delta" = None ->
  d !! "chain" = Some chain ->
  (forall s : state,
     run env (get_tokens_address_dict chain s) w = (Ok tokens, s, w2, t2)) ->
  d !! "start_token_address" = Some a ->
  (info ← getitem_val tokens a; getitem info "decimals") = Ok (PyInt k) ->
  0 <= k ->
  d !! "initial_collateral_delta" = Some (PyInt n) ->
  run env (process_parameters_dictionary elided r {| self := p; heap := h |}) w
  = (Raise (KeyError "size_delta"),
     store r (<["initial_collateral_delta" := PyInt (n * 10 ^ k)]> d)
       (set_parameters_dict r {| self := p; heap := h |}),
     w2, t2).
Proof.
  intros Hinit Hd Hall Hsize Hchain Htok Ha Hdec Hk Hn.
  assert (Hfive : Forall (fun key => is_Some (d !! key))
                    ["chain"; "start_token_address"; "out_token_address";
                     "swap_path"; "slippage_percent"]).
  { repeat match goal with
           | H : Forall _ (_ :: _) |- _ => inversion H; subst; clear H
           end.
    repeat constructor; assumption. }
  destruct (run_process_swap config w0 p w1 t0 h r d w Hinit Hd Hfive)
    as (-> & Hr & Hd' & Hswap).
  rewrite (run_format_size_info_swap r d _ w Hr Hd' Hswap).
  rewrite (getitem_Some _ _ _ Hchain), Htok.
  rewrite (getitem_Some _ _ _ Ha). cbn [mbind result_bind]. rewrite Hdec.
  rewrite (getitem_Some _ _ _ Hn). cbn [mbind result_bind].
  assert (Hscale : pow10 (PyInt k) = Ok (PyInt (10 ^ k)))
    by (destruct k; cbn; try lia; reflexivity).
  rewrite Hscale. cbn [mbind result_bind mul arith as_number int]. cbv zeta.
  rewrite getitem_None by (rewrite lookup_insert_ne by discriminate; exact Hsize).
  reflexivity.
Qed.

(** X25. [initial_collateral_delta] is a required key with no handler. A
    swap request that lacks it, and no other required key, passes the loop
    over the missing keys in silence and is never resolved:
    [process_parameters_dictionary] raises and leaves the dictionary as it
    was, and once the registry has given the decimals of the start token
    the exception is the [KeyError] of [_format_size_info] for
    [initial_collateral_delta]. *)
Theorem collateral_delta_has_no_handler config (w0 : W) p w1 t0
    (h : gmap ref pydict) (r : ref) (d : pydict) (w : W) res st' w' t :
  run env (__init__ config false false true tt) w0 = (Ok p, tt, w1, t0) ->
  h !! r = Some d ->
  Forall (fun key => is_Some (d !! key))
    ["chain"; "start_token_address"; "out_token_address"; "swap_path";
     "slippage_percent"] ->
  d !! "initial_collateral_delta" = None ->
  run env (process_parameters_dictionary elided r {| self := p; heap := h |}) w
  = (res, st', w', t) ->
  (exists e, res = Raise e) /\
  st' = set_parameters_dict r {| self := p; heap := h |} /\
  Forall (fun i => is_step i = false) t /\
  (forall chain tokens a decimals w2 t2,
     d !! "chain" = Some chain ->
     (forall s : state,
        run env (get_tokens_address_dict chain s) w = (Ok tokens, s, w2, t2)) ->
     d !! "start_token_address" = Some a ->
     (info ← getitem_val tokens a; getitem info "decimals") = Ok decimals ->
     res = Raise (KeyError "initial_collateral_delta")).
Proof.
  intros Hinit Hd Hfive Hnone.
  destruct (run_process_swap config w0 p w1 t0 h r d w Hinit Hd Hfive)
    as (-> & Hr & Hd' & Hswap).
  rewrite (run_format_size_info_swap r d _ w Hr Hd' Hswap).
  destruct (getitem d "chain") as [chain|e] eqn:Hchain.
  2: { intros [= <- <- <- <-]. split; [eauto|]. split; [reflexivity|].
       split; [constructor|]. intros chain tokens a decimals w2 t2 Hc.
       rewrite (getitem_Some _ _ _ Hc) in Hchain. discriminate. }
  destruct (run_get_tokens_address_dict env (S := state) chain w)
    as (tr & w2 & t2 & Htok & Hquiet).
  rewrite Htok.
  assert (Hfails : forall tokens,
    exists e,
      (a ← getitem d "start_token_address";
       decimal ← (info ← getitem_val tokens a; getitem info "decimals");
       old ← getitem d "initial_collateral_delta";
       p ← pow10 decimal; v ← mul old p; int v) = Raise e /\
      forall a decimals,
        d !! "start_token_address" = Some a ->
        (info ← getitem_val tokens a; getitem info "decimals") = Ok decimals ->
        e = KeyError "initial_collateral_delta").
  { intros tokens.
    destruct (getitem d "start_token_address") as [a|e] eqn:Hstart;
      cbn [mbind result_bind].
    - destruct (info ← getitem_val tokens a; getitem info "decimals")
        as [decimals|e] eqn:Hdec; cbn [mbind result_bind].
      + rewrite (getitem_None _ _ Hnone). cbn [mbind result_bind].
        eexists. split; [reflexivity|]. reflexivity.
      + eexists. split; [reflexivity|]. intros a' decs Ha'.
        rewrite (getitem_Some _ _ _ Ha') in Hstart. injection Hstart as ->.
        congruence.
    - eexists. split; [reflexivity|]. intros a' decs Ha'.
      rewrite (getitem_Some _ _ _ Ha') in Hstart. discriminate. }
  destruct tr as [tokens|e]; cbn [mbind result_bind].
  - destruct (Hfails tokens) as (e & -> & Hwhich).
    intros [= <- <- <- <-]. split; [eauto|]. split; [reflexivity|].
    split; [exact Hquiet|].
    intros chain' tokens' a decimals w3 t3 Hc Htok' Ha Hdec.
    rewrite (getitem_Some _ _ _ Hc) in Hchain. injection Hchain as ->.
    specialize (Htok' (set_parameters_dict r {| self := p; heap := h |})).
    rewrite Htok in Htok'. injection Htok' as -> _ _.
    f_equal. exact (Hwhich a decimals Ha Hdec).
  - intros [= <- <- <- <-]. split; [eauto|]. split; [reflexivity|].
    split; [exact Hquiet|].
    intros chain' tokens' a decimals w3 t3 Hc Htok' Ha Hdec.
    rewrite (getitem_Some _ _ _ Hc) in Hchain. injection Hchain as ->.
    specialize (Htok' (set_parameters_dict r {| self := p; heap := h |})).
    rewrite Htok in Htok'. discriminate.
Qed.

(** X26. A failed request to the token registry comes back as a [KeyError]
    on the token. For a swap request with every required key, when the
    request to the registry raised [requests.RequestException], the
    exception [process_parameters_dictionary] raises is [KeyError] for the
    start token address, and the dictionary is left as it was. *)
Theorem failed_registry_is_a_KeyError config (w0 : W) p w1 t0
    (h : gmap ref pydict) (r : ref) (d : pydict) (w : W) res st' w' t a msg :
  run env (__init__ config false false true tt) w0 = (Ok p, tt, w1, t0) ->
  h !! r = Some d ->
  Forall (fun key => is_Some (d !! key))
    ["chain"; "start_token_address"; "out_token_address";
     "initial_collateral_delta"; "swap_path"; "slippage_percent"] ->
  d !! "start_token_address" = Some (PyStr a) ->
  run env (process_parameters_dictionary elided r {| self := p; heap := h |}) w
  = (res, st', w', t) ->
  In (Some (RequestException msg)) (map raised t) ->
  res = Raise (KeyError a) /\
  st' = set_parameters_dict r {| self := p; heap := h |}.
Proof.
  intros Hinit Hd Hall Ha.
  assert (Hfive : Forall (fun key => is_Some (d !! key))
                    ["chain"; "start_token_address"; "out_token_address";
                     "swap_path"; "slippage_percent"]).
  { repeat match goal with
           | H : Forall _ (_ :: _) |- _ => inversion H; subst; clear H
           end.
    repeat constructor; assumption. }
  destruct (run_process_swap config w0 p w1 t0 h r d w Hinit Hd Hfive)
    as (-> & Hr & Hd' & Hswap).
  rewrite (run_format_size_info_swap r d _ w Hr Hd' Hswap).
  destruct (getitem d "chain") as [chain|e].
  2: { intros [= <- <- <- <-] []. }
  destruct (run env (get_tokens_address_dict chain
                       (set_parameters_dict r {| self := p; heap := h |})) w)
    as [[[tr s1] w2] t2] eqn:Htok.
  assert (Hfailed : In (Some (RequestException msg)) (map raised t2) -> tr = Ok ∅)
    by exact (registry_facts.get_tokens_address_dict_raised env _ _ _ _ _ _ _ _ Htok).
  destruct tr as [tokens|e]; cbn [mbind result_bind].
  - rewrite (getitem_Some _ _ _ Ha). cbn [mbind result_bind].
    destruct (getitem_val tokens (PyStr a)) as [info|e] eqn:Hinfo;
      cbn [mbind result_bind].
    + match goal with
      | |- context [match ?x with Ok _ => _ | Raise _ => _ end] => destruct x
      end; cbv zeta; intros [= <- <- <- <-] Hin;
        specialize (Hfailed Hin); injection Hfailed as ->;
        cbn in Hinfo; unfold getitem in Hinfo; rewrite lookup_empty in Hinfo;
        discriminate.
    + intros [= <- <- <- <-] Hin. specialize (Hfailed Hin). injection Hfailed as ->.
      cbn in Hinfo. unfold getitem in Hinfo. rewrite lookup_empty in Hinfo.
      injection Hinfo as <-. split; reflexivity.
  - intros [= <- <- <- <-] Hin. specialize (Hfailed Hin). discriminate.
Qed.

End Run.

Lemma parser_without_a_kind_witness :
  run Simulation.gateway
    (process_parameters_dictionary Simulation.no_elided 1%positive
       {| self := Scenarios.plain_parser;
          heap := {[ 1%positive := Scenarios.swap_request ]} |})
    Simulation.genesis
  = (Raise (AttributeError "required_keys"),
     {| self := Scenarios.plain_parser;
        heap := {[ 1%positive := Scenarios.swap_request ]} |},
     Simulation.genesis, []).
Proof.
  apply (parser_without_a_kind Simulation.gateway Simulation.no_elided
           Simulation.config Simulation.genesis Scenarios.plain_parser
           Simulation.genesis [IO (Markets_info "arbitrum") (Ok ∅)]).
  vm_compute. reflexivity.
Defined.

Lemma index_token_needs_address_or_symbol_witness :
  run Simulation.gateway
    (process_parameters_dictionary Simulation.no_elided 1%positive
       {| self := Simulation.increase_parser;
          heap := {[ 1%positive := Scenarios.request_without_index_token ]} |})
    Simulation.genesis
  = (Raise (Exception "Index Token Address and Symbol not provided!"),
     set_parameters_dict 1%positive
       {| self := Simulation.increase_parser;
          heap := {[ 1%positive := Scenarios.request_without_index_token ]} |},
     Simulation.genesis, []).
Proof.
  eapply (index_token_needs_address_or_symbol Simulation.gateway Simulation.no_elided
            Simulation.config true false false Simulation.genesis
            Simulation.increase_parser Simulation.genesis _
            _ 1%positive Scenarios.request_without_index_token).
  - vm_compute. reflexivity.
  - reflexivity.
  - apply lookup_singleton_eq.
  - exists (PyStr "arbitrum"). vm_compute. reflexivity.
  - vm_compute. reflexivity.
  - vm_compute. reflexivity.
Defined.

Lemma index_token_is_found_by_symbol_witness :
  exists tokens a,
    find_key_by_symbol Scenarios.lookups tokens (PyStr "WBTC.b") = Ok a /\
    snd (fst (fst Scenarios.index_token_found))
    = store 1%positive (<["index_token_address" := a]> Scenarios.request_by_symbol)
        (Scenarios.at_reference_1 Simulation.increase_parser
           Scenarios.request_by_symbol).
Proof.
  destruct (index_token_is_found_by_symbol Simulation.gateway Scenarios.lookups
              1%positive Scenarios.request_by_symbol
              (Scenarios.at_reference_1 Simulation.increase_parser
                 Scenarios.request_by_symbol)
              Simulation.genesis
              (fst (fst (fst Scenarios.index_token_found)))
              (snd (fst (fst Scenarios.index_token_found)))
              (snd (fst Scenarios.index_token_found))
              (snd Scenarios.index_token_found)
              (PyStr "BTC"))
    as (_ & Hfound).
  - reflexivity.
  - apply lookup_singleton_eq.
  - vm_compute. reflexivity.
  - apply (run_eta Scenarios.index_token_found
             (fst (fst (fst Scenarios.index_token_found)))).
    reflexivity.
  - destruct Hfound as (chain & tokens & looked & a & _ & _ & Hbtc & _ & Hfind & Hst).
    + vm_compute. reflexivity.
    + rewrite (Hbtc eq_refl) in Hfind. exists tokens, a. split; assumption.
Defined.

Lemma market_key_is_found_by_index_token_witness :
  snd Scenarios.market_key_found = [] /\
  fst (fst (fst Scenarios.market_key_found)) = Ok tt.
Proof.
  pose proof (market_key_is_found_by_index_token Simulation.gateway Scenarios.lookups
                1%positive Scenarios.request_by_symbol
                (Scenarios.at_reference_1 Simulation.increase_parser
                   Scenarios.request_by_symbol)
                Simulation.genesis
                (fst (fst (fst Scenarios.market_key_found)))
                (snd (fst (fst Scenarios.market_key_found)))
                (snd (fst Scenarios.market_key_found))
                (snd Scenarios.market_key_found)
                (PyStr "0x2f2a2543B76A4166549F7aaB2e75Bef0aefC5B0f")
                eq_refl
                (lookup_singleton_eq _ _)
                ltac:(vm_compute; reflexivity)
                (run_eta Scenarios.market_key_found _ eq_refl)) as H.
  cbv zeta in H. destruct H as (Ht & _ & H). split; [exact Ht|].
  exact (proj1 H).
Defined.

Lemma swap_request_needs_size_delta_witness :
  exists e, fst (fst (fst Scenarios.swap_processed)) = Raise e.
Proof.
  refine (proj1 (swap_request_needs_size_delta Simulation.gateway Simulation.no_elided
                   Simulation.config Simulation.genesis Scenarios.swap_parser
                   Simulation.genesis [IO (Markets_info "arbitrum") (Ok ∅)]
                   {[ 1%positive := Scenarios.swap_request ]} 1%positive
                   Scenarios.swap_request Simulation.genesis
                   (fst (fst (fst Scenarios.swap_processed)))
                   (snd (fst (fst Scenarios.swap_processed)))
                   (snd (fst Scenarios.swap_processed))
                   (snd Scenarios.swap_processed) _ _ _ _ _)).
  - vm_compute. reflexivity.
  - apply lookup_singleton_eq.
  - repeat constructor; eexists; vm_compute; reflexivity.
  - vm_compute. reflexivity.
  - apply (run_eta Scenarios.swap_processed
             (fst (fst (fst Scenarios.swap_processed)))).
    reflexivity.
Defined.

Lemma failed_swap_request_is_scaled_witness :
  run Simulation.gateway
    (process_parameters_dictionary Simulation.no_elided 1%positive
       {| self := Scenarios.swap_parser;
          heap := {[ 1%positive := Scenarios.swap_request ]} |})
    Simulation.genesis
  = (Raise (KeyError "size_delta"),
     store 1%positive
       (<["initial_collateral_delta" := PyInt (50 * 10 ^ 6)]> Scenarios.swap_request)
       (set_parameters_dict 1%positive
          {| self := Scenarios.swap_parser;
             heap := {[ 1%positive := Scenarios.swap_request ]} |}),
     Simulation.genesis,
     [IO (requests_get_tokens "https://arbitrum-api.gmxinfra.io/tokens")
        (Ok [Simulation.token_info Simulation.USDC 6])]).
Proof.
  eapply (failed_swap_request_is_scaled Simulation.gateway Simulation.no_elided
            Simulation.config Simulation.genesis Scenarios.swap_parser
            Simulation.genesis [IO (Markets_info "arbitrum") (Ok ∅)]
            {[ 1%positive := Scenarios.swap_request ]} 1%positive
            Scenarios.swap_request Simulation.genesis
            (PyStr "arbitrum")
            {[ Simulation.USDC := Simulation.token_info Simulation.USDC 6 ]}
            (PyStr Simulation.USDC) 50 6).
  - vm_compute. reflexivity.
  - apply lookup_singleton_eq.
  - repeat constructor; eexists; vm_compute; reflexivity.
  - vm_compute. reflexivity.
  - vm_compute. reflexivity.
  - intros s. vm_compute. reflexivity.
  - vm_compute. reflexivity.
  - vm_compute. reflexivity.
  - lia.
  - vm_compute. reflexivity.
Defined.

Lemma collateral_delta_has_no_handler_witness :
  fst (fst (fst Scenarios.swap_without_collateral_processed))
  = Raise (KeyError "initial_collateral_delta").
Proof.
  refine (proj2 (proj2 (proj2
            (collateral_delta_has_no_handler Simulation.gateway Simulation.no_elided
               Simulation.config Simulation.genesis Scenarios.swap_parser
               Simulation.genesis [IO (Markets_info "arbitrum") (Ok ∅)]
               {[ 1%positive := Scenarios.swap_request_without_collateral ]} 1%positive
               Scenarios.swap_request_without_collateral Simulation.genesis
               (fst (fst (fst Scenarios.swap_without_collateral_processed)))
               (snd (fst (fst Scenarios.swap_without_collateral_processed)))
               (snd (fst Scenarios.swap_without_collateral_processed))
               (snd Scenarios.swap_without_collateral_processed) _ _ _ _ _)))
            (PyStr "arbitrum")
            {[ Simulation.USDC := Simulation.token_info Simulation.USDC 6 ]}
            (PyStr Simulation.USDC) (PyInt 6) Simulation.genesis
            [IO (requests_get_tokens "https://arbitrum-api.gmxinfra.io/tokens")
               (Ok [Simulation.token_info Simulation.USDC 6])] _ _ _ _).
  - vm_compute. reflexivity.
  - apply lookup_singleton_eq.
  - repeat constructor; eexists; vm_compute; reflexivity.
  - vm_compute. reflexivity.
  - apply (run_eta Scenarios.swap_without_collateral_processed
             (fst (fst (fst Scenarios.swap_without_collateral_processed)))).
    reflexivity.
  - vm_compute. reflexivity.
  - intros s. vm_compute. reflexivity.
  - vm_compute. reflexivity.
  - vm_compute. reflexivity.
Defined.

Lemma failed_registry_is_a_KeyError_witness :
  fst (fst (fst Scenarios.swap_unreachable_processed))
  = Raise (KeyError Simulation.USDC).
Proof.
  refine (proj1 (failed_registry_is_a_KeyError Scenarios.unreachable Simulation.no_elided
                   Simulation.config Simulation.genesis Scenarios.swap_parser
                   Simulation.genesis [IO (Markets_info "arbitrum") (Ok ∅)]
                   {[ 1%positive := Scenarios.swap_request ]} 1%positive
                   Scenarios.swap_request Simulation.genesis
                   (fst (fst (fst Scenarios.swap_unreachable_processed)))
                   (snd (fst (fst Scenarios.swap_unreachable_processed)))
                   (snd (fst Scenarios.swap_unreachable_processed))
                   (snd Scenarios.swap_unreachable_processed)
                   Simulation.USDC "503" _ _ _ _ _ _)).
  - vm_compute. reflexivity.
  - apply lookup_singleton_eq.
  - repeat constructor; eexists; vm_compute; reflexivity.
  - vm_compute. reflexivity.
  - apply (run_eta Scenarios.swap_unreachable_processed
             (fst (fst (fst Scenarios.swap_unreachable_processed)))).
    reflexivity.
  - vm_compute. auto.
Defined.

End resolution_facts.

(** ** The configuration (gmx_utils.py) *)
Module config_facts.
Import Py Eff Eff_facts config_manager.

(** What a successful read of the file tells of its document. *)
Lemma top_level_Ok (config_file : document) key e :
  top_level config_file key = Ok e ->
  exists doc, config_file = Some doc /\ doc !! key = Some e.
Proof.
  destruct config_file as [doc|]; [|discriminate]. cbn. unfold getitem.
  destruct (doc !! key) eqn:H; [|discriminate]. intros [= <-]. eauto.
Qed.

Lemma subscript_Ok section key v :
  subscript section key = Ok v ->
  exists m, section = Mapping m /\ m !! key = Some v.
Proof.
  destruct section as [[]|m]; try discriminate. cbn. unfold getitem.
  destruct (m !! key) eqn:H; [|discriminate]. intros [= <-]. eauto.
Qed.

Lemma section_Ok (config_file : document) name key v :
  (section ← top_level config_file name; subscript section key) = Ok v ->
  exists doc m,
    config_file = Some doc /\ doc !! name = Some (Mapping m) /\ m !! key = Some v.
Proof.
  destruct (top_level config_file name) as [e|] eqn:He; [|discriminate].
  cbn [mbind result_bind]. intros Hv.
  apply top_level_Ok in He as (doc & -> & Hdoc).
  apply subscript_Ok in Hv as (m & -> & Hm). eauto.
Qed.

Section Run.
Context {W : Type} (env : environment file_call W).

(** One more step of a run of [set_config]. *)
Ltac config_step :=
  match goal with
  | |- context [match ?x with Ok _ => _ | Raise _ => _ end] =>
      let E := fresh "E" in destruct x eqn:E; run_simpl
  end.

(** X27. After [set_config] has returned, the four attributes it sets are
    as the file gives them: the RPC and the chain id are the entries of the
    chain of the object in the mappings [rpcs] and [chain_ids], the wallet
    address and the private key are the top-level entries; the chain and
    the token of the bot are as before, and the file was read once. *)
Theorem set_config_reads_the_file filepath self (w : W) self' w' t :
  run env (set_config filepath self) w = (Ok tt, self', w', t) ->
  exists doc rpcs ids,
    t = [IO (safe_load filepath) (Ok (Some doc))] /\
    doc !! "rpcs" = Some (Mapping rpcs) /\
    rpcs !! chain self = Some (rpc self') /\
    doc !! "chain_ids" = Some (Mapping ids) /\
    ids !! chain self = Some (chain_id self') /\
    doc !! "user_wallet_address" = Some (user_wallet_address self') /\
    doc !! "private_key" = Some (private_key self') /\
    chain self' = chain self /\
    tg_bot_token self' = tg_bot_token self.
Proof.
  unfold set_config, set_rpc, set_chain_id, set_wallet_address, set_private_key.
  run_simpl. run_case env; [|discriminate].
  repeat config_step; try discriminate.
  intros [= <- <- <-]. cbn [chain] in *.
  match goal with
  | H : (_ ← top_level _ "rpcs"; _) = Ok _ |- _ =>
      apply section_Ok in H as (doc & rpcs & -> & Hrpcs & Hurl)
  end.
  match goal with
  | H : (_ ← top_level _ "chain_ids"; _) = Ok _ |- _ =>
      apply section_Ok in H as (doc' & ids & [= <-] & Hids & Hid)
  end.
  repeat match goal with
         | H : top_level _ _ = Ok _ |- _ =>
             apply top_level_Ok in H as (? & [= <-] & ?)
         end.
  exists doc, rpcs, ids. cbn. auto 10.
Qed.

(** X28. [set_config] sets the attributes one after the other. When the
    file gives the RPC of the chain and its mapping of chain ids lacks the
    chain, [set_config] raises [KeyError] for the chain with the RPC
    already set, and the chain id, the wallet address and the private key
    as they were. *)
Theorem set_config_is_not_atomic filepath self (w : W) r self' w' t doc rpcs url ids :
  run env (set_config filepath self) w = (r, self', w', t) ->
  In (Some (Some doc)) (map loaded t) ->
  doc !! "rpcs" = Some (Mapping rpcs) ->
  rpcs !! chain self = Some url ->
  doc !! "chain_ids" = Some (Mapping ids) ->
  ids !! chain self = None ->
  r = Raise (KeyError (chain self)) /\
  rpc self' = url /\
  chain_id self' = chain_id self /\
  user_wallet_address self' = user_wallet_address self /\
  private_key self' = private_key self.
Proof.
  intros Hrun Hin Hrpcs Hurl Hids Hid. revert Hrun Hin.
  assert (Hfirst : (section ← top_level (Some doc) "rpcs"; subscript section (chain self))
                   = Ok url).
  { cbn. unfold getitem. rewrite Hrpcs. cbn. unfold getitem. rewrite Hurl. reflexivity. }
  assert (Hsecond : (section ← top_level (Some doc) "chain_ids";
                     subscript section (chain self))
                    = Raise (KeyError (chain self))).
  { cbn. unfold getitem. rewrite Hids. cbn. unfold getitem. rewrite Hid. reflexivity. }
  unfold set_config, set_rpc, set_chain_id, set_wallet_address, set_private_key.
  run_simpl. run_case env.
  2: { intros [= <- <- <- <-] [Hin|[]]. discriminate. }
  repeat config_step.
  all: intros [= <- <- <- <-] [Hin|[]]; injection Hin as ->; cbn [chain] in *.
  all: rewrite ?Hfirst, ?Hsecond in *.
  all: repeat match goal with
              | H : Ok _ = Raise _ |- _ => discriminate H
              | H : Raise _ = Ok _ |- _ => discriminate H
              | H : Ok _ = Ok _ |- _ => injection H as <-
              | H : Raise _ = Raise _ |- _ => injection H as <-
              end.
  all: cbn; auto.
Qed.

End Run.

Lemma set_config_reads_the_file_witness :
  rpc (snd (fst (fst configured))) = PyStr "https://arb1.arbitrum.io/rpc" /\
  chain_id (snd (fst (fst configured))) = PyInt 42161.
Proof.
  destruct (set_config_reads_the_file (disk (Some config_yaml)) "config.yaml"
              (__init__ "arbitrum") tt (snd (fst (fst configured)))
              (snd (fst configured)) (snd configured))
    as (doc & rpcs & ids & Ht & Hrpcs & Hurl & Hids & Hid & _).
  - vm_compute. reflexivity.
  - split; vm_compute; reflexivity.
Defined.

Lemma set_config_is_not_atomic_witness :
  fst (fst (fst half_configured)) = Raise (KeyError "avalanche") /\
  rpc (snd (fst (fst half_configured))) = PyStr "https://api.avax.network/ext/bc/C/rpc".
Proof.
  destruct (set_config_is_not_atomic (disk (Some partial_yaml)) "config.yaml"
              (__init__ "avalanche") tt
              (fst (fst (fst half_configured)))
              (snd (fst (fst half_configured)))
              (snd (fst half_configured)) (snd half_configured)
              partial_yaml rpcs_yaml
              (PyStr "https://api.avax.network/ext/bc/C/rpc")
              arbitrum_id_yaml)
    as (Hr & Hrpc & _).
  - vm_compute. reflexivity.
  - left. reflexivity.
  - vm_compute. reflexivity.
  - vm_compute. reflexivity.
  - vm_compute. reflexivity.
  - vm_compute. reflexivity.
  - split; assumption.
Defined.

End config_facts.
